(** * Resource lifecycle, async loading and hover state of the viser client

    A shallow embedding of the client-side code of viser that manages
    derived rendering resources ([BoxMesh.tsx]), the environment store
    ([useEnvironmentState]), the texture-loading effect of [ViserImage]
    and the hover-clearing check of the scene tree (both quoted in
    [fix_report.md]), followed by the properties proved about them.

    JavaScript values are modelled with their run-time behaviour: numbers
    are IEEE 754 binary64 values ([spec_float]), arrays and objects have an
    identity, and React compares hook dependencies with [Object.is]. *)

From Stdlib Require Import ZArith List Bool Lia.
From Stdlib Require Import SpecFloat.
From stdpp Require Import base option list gmap strings.


(** ** JavaScript values *)

Module JS.

Local Open Scope string_scope.

(** A JS number is a binary64 float; [spec_float] has a single NaN, as JS
    programs cannot observe NaN payloads. *)
Definition number : Type := spec_float.

Definition num_of_Z (z : Z) : number := binary_normalize 53 1024 z 0 false.

(** The number [m * 2^e]. *)
Definition num_scaled (m e : Z) : number := binary_normalize 53 1024 m e false.
Definition num_mul (x y : number) : number := SFmul 53 1024 x y.

(** The literal [0.0]. *)
Definition zero : number := S754_zero false.

(** The values that reach the components modelled here.  [NumArr] is an
    array of numbers (a colour, the dimensions, a scale) with the identity
    of the array object; [Ref] is a reference to a THREE object or a store,
    by its address. *)
Inductive value : Type :=
| Undefined
| Null
| Bool (b : bool)
| Num (x : number)
| Str (s : string)
| NumArr (id : nat) (elems : list number)
| Ref (a : nat).

(** [typeof v]. *)
Definition typeof (v : value) : string :=
  match v with
  | Undefined => "undefined"
  | Null => "object"
  | Bool _ => "boolean"
  | Num _ => "number"
  | Str _ => "string"
  | NumArr _ _ => "object"
  | Ref _ => "object"
  end.

(** SameValue on numbers: NaN is the same as NaN, [+0] differs from [-0]. *)
Definition same_number (x y : number) : bool :=
  match x, y with
  | S754_zero s, S754_zero t => Bool.eqb s t
  | S754_infinity s, S754_infinity t => Bool.eqb s t
  | S754_nan, S754_nan => true
  | S754_finite s m e, S754_finite t n f =>
      Bool.eqb s t && Pos.eqb m n && Z.eqb e f
  | _, _ => false
  end.

(** [Object.is(a, b)]: objects are compared by identity, never by
    contents. *)
Definition object_is (a b : value) : bool :=
  match a, b with
  | Undefined, Undefined => true
  | Null, Null => true
  | Bool x, Bool y => Bool.eqb x y
  | Num x, Num y => same_number x y
  | Str s, Str t => String.eqb s t
  | NumArr i _, NumArr j _ => Nat.eqb i j
  | Ref i, Ref j => Nat.eqb i j
  | _, _ => false
  end.

(** [a === b]: as [Object.is] but with IEEE equality on numbers. *)
Definition strict_eq (a b : value) : bool :=
  match a, b with
  | Num x, Num y => SFeqb x y
  | _, _ => object_is a b
  end.

(** [x > y] on numbers. *)
Definition num_gt (x y : number) : bool := SFltb y x.

(** ToBoolean. *)
Definition truthy (v : value) : bool :=
  match v with
  | Undefined | Null => false
  | Bool b => b
  | Num x => match x with S754_zero _ | S754_nan => false | _ => true end
  | Str s => negb (String.eqb s "")
  | NumArr _ _ | Ref _ => true
  end.

(** [a[i]] used as a number: a missing element is [undefined], which
    arithmetic turns into NaN. *)
Definition index (a : list number) (i : nat) : number :=
  nth i a S754_nan.

End JS.

(** ** THREE resources *)

Module Three.

(** What a disposable object was constructed from. *)
Inductive kind : Type :=
| BoxGeometry (w h d : JS.number)
| StandardMaterial (signature : list JS.value)
| ShadowMaterial (opacity : JS.number) (color : Z) (depthWrite : bool)
| Texture (url : nat).

(** An object of the rendering backend and the number of times its
    [dispose()] method has been called. *)
Record resource : Type := {
  res_kind : kind;
  dispose_calls : nat;
}.

(** All the objects constructed so far, by address. *)
Abbreviation heap := (list resource) (only parsing).

(** A newly constructed object. *)
Definition fresh (k : kind) : resource :=
  {| res_kind := k; dispose_calls := 0 |}.

Definition alloc (k : kind) (h : heap) : nat * heap :=
  (length h, h ++ [fresh k]).

Definition disposed (r : resource) : resource :=
  {| res_kind := res_kind r; dispose_calls := S (dispose_calls r) |}.

(** [obj.dispose()]. *)
Definition dispose (a : nat) (h : heap) : heap := alter disposed a h.

Definition is_material (r : resource) : bool :=
  match res_kind r with StandardMaterial _ => true | _ => false end.

Definition is_shadow_material (r : resource) : bool :=
  match res_kind r with ShadowMaterial _ _ _ => true | _ => false end.

Definition is_geometry (r : resource) : bool :=
  match res_kind r with BoxGeometry _ _ _ => true | _ => false end.

Definition is_texture (r : resource) : bool :=
  match res_kind r with Texture _ => true | _ => false end.

(** Constructed and never disposed. *)
Definition live (r : resource) : bool := Nat.eqb (dispose_calls r) 0.

(** The number of objects of a heap that satisfy [P]. *)
Fixpoint count (P : resource -> bool) (h : heap) : nat :=
  match h with
  | [] => 0
  | r :: h' => if P r then S (count P h') else count P h'
  end.

Definition live_materials (h : heap) : nat :=
  count (fun r => is_material r && live r) h.

Definition live_textures (h : heap) : nat :=
  count (fun r => is_texture r && live r) h.

(** The number of [dispose()] calls made so far, over all objects. *)
Fixpoint dispose_total (h : heap) : nat :=
  match h with
  | [] => 0
  | r :: h' => dispose_calls r + dispose_total h'
  end.

End Three.

(** ** React hooks

    The part of React's hook semantics the components rely on, over an
    arbitrary mutable world [W]: a render is a state-passing computation, a
    memo cell keeps the value and the dependencies it was computed from, and
    an effect cell keeps the clean-up closure returned by the effect. *)

Module React.

Section Hooks.

Context {W : Type}.

Definition M (A : Type) : Type := W -> A * W.

Definition ret {A} (a : A) : M A := fun w => (a, w).

Definition bind {A B} (c : M A) (k : A -> M B) : M B :=
  fun w => let (a, w') := c w in k a w'.

(** React's [areHookInputsEqual]: the dependencies are compared
    position by position with [Object.is]. *)
Fixpoint areHookInputsEqual (nextDeps prevDeps : list JS.value) : bool :=
  match nextDeps, prevDeps with
  | n :: ns, p :: ps => JS.object_is n p && areHookInputsEqual ns ps
  | _, _ => true
  end.

Record memo_cell (A : Type) : Type := {
  memo_value : A;
  memo_deps : list JS.value;
}.
Arguments memo_value {A}.
Arguments memo_deps {A}.

(** [React.useMemo(create, deps)]: on mount (no cell) and when the
    dependencies changed [create] runs; otherwise the cached value is
    returned and [create] is not called. *)
Definition useMemo {A} (cell : option (memo_cell A))
    (create : M A) (deps : list JS.value) : M (memo_cell A) :=
  match cell with
  | Some c =>
      if areHookInputsEqual deps (memo_deps c) then ret c
      else bind create (fun v => ret {| memo_value := v; memo_deps := deps |})
  | None =>
      bind create (fun v => ret {| memo_value := v; memo_deps := deps |})
  end.

Record effect_cell : Type := {
  effect_destroy : M unit;
  effect_deps : list JS.value;
}.

(** Commit of [React.useEffect(create, deps)]: on mount the effect runs;
    on an update whose dependencies changed the previous clean-up runs
    and then the effect; otherwise nothing runs and the previous
    clean-up stays registered. *)
Definition commitEffect (cell : option effect_cell)
    (create : M (M unit)) (deps : list JS.value) : M effect_cell :=
  match cell with
  | Some c =>
      if areHookInputsEqual deps (effect_deps c) then ret c
      else
        bind (effect_destroy c) (fun _ =>
        bind create (fun d =>
        ret {| effect_destroy := d; effect_deps := deps |}))
  | None =>
      bind create (fun d =>
      ret {| effect_destroy := d; effect_deps := deps |})
  end.

(** [React.useState(initialState)[0]] with a lazy initializer: the
    initializer runs on mount only; later renders return the state kept
    in the cell (the setter is never used by the callers modelled
    here). *)
Definition useState {S} (cell : option S) (initialState : M S) : M S :=
  match cell with
  | Some s => ret s
  | None => initialState
  end.

End Hooks.

Arguments M : clear implicits.
Arguments memo_cell : clear implicits.
Arguments effect_cell : clear implicits.
Arguments memo_value {A}.
Arguments memo_deps {A}.

End React.

Notation "'let!' x ':=' c 'in' k" :=
  (React.bind c (fun x => k))
  (at level 10, x pattern, c at level 100, k at level 200,
   format "'[v' 'let!'  x  ':='  c  'in' '/' k ']'").

(** ** The process: the objects of the rendering backend and the module
    variables of the client *)

Module Process.

Record process : Type := {
  objects : Three.heap;
  (** [let boxGeometry: THREE.BoxGeometry | null = null] of BoxMesh.tsx. *)
  boxGeometry : option nat;
}.

Definition initial : process := {| objects := []; boxGeometry := None |}.

Definition M : Type -> Type := React.M process.

(** [new THREE.X(...)]. *)
Definition construct (k : Three.kind) : M nat :=
  fun p =>
    let (a, h) := Three.alloc k (objects p) in
    (a, {| objects := h; boxGeometry := boxGeometry p |}).

(** [obj.dispose()]. *)
Definition dispose (a : nat) : M unit :=
  fun p =>
    (tt, {| objects := Three.dispose a (objects p);
            boxGeometry := boxGeometry p |}).

Definition get_boxGeometry : M (option nat) :=
  fun p => (boxGeometry p, p).

Definition set_boxGeometry (g : option nat) : M unit :=
  fun p => (tt, {| objects := objects p; boxGeometry := g |}).

End Process.

(** ** BoxMesh.tsx *)

Module BoxMesh.

Import Process.

(** [message.props] of a [BoxMessage].  The declaration of the message
    types (WebsocketMessages) is not part of the sources at hand, and
    TypeScript types are erased at run time: every field is a JS value. *)
Record BoxProps : Type := {
  material : JS.value;
  color : JS.value;
  wireframe : JS.value;
  opacity : JS.value;
  flat_shading : JS.value;
  side : JS.value;
  cast_shadow : JS.value;
  receive_shadow : JS.value;
  dimensions : JS.value;
  scale : JS.value;
}.

(** normalizeScale.ts: [typeof s === "number" ? [s, s, s] : s]. *)
Definition normalizeScale (s : JS.value) : list JS.number :=
  if String.eqb (JS.typeof s) "number"
  then match s with JS.Num x => [x; x; x] | _ => [] end
  else match s with JS.NumArr _ elems => elems | _ => [] end.

(** The dependency array of the material memo. *)
Definition material_deps (props : BoxProps) : list JS.value :=
  [material props; color props; wireframe props; opacity props;
   flat_shading props; side props].

(** Modelled from the spec: [createStandardMaterial] (MeshUtils) is not
    part of the sources at hand.  It is the factory of the derived
    material: every call constructs a new material object from the
    props. *)
Definition createStandardMaterial (props : BoxProps) : M nat :=
  construct (Three.StandardMaterial (material_deps props)).

(** The [<mesh>] nested in the primary mesh when a shadow is rendered. *)
Record shadow_mesh : Type := {
  shadow_geometry : option nat;
  shadow_material : nat;
  shadow_receiveShadow : bool;
}.

(** The rendered primary [<mesh>] of the [<group>]. *)
Record element : Type := {
  el_geometry : option nat;
  el_scale : list JS.number;
  el_material : nat;
  el_castShadow : JS.value;
  el_receiveShadow : bool;
  el_shadow : option shadow_mesh;
}.

(** The hook cells of one mounted BoxMesh. *)
Record fiber : Type := {
  memo_material : React.memo_cell nat;
  effect_material : React.effect_cell process;
  memo_shadowMaterial : React.memo_cell (option nat);
}.

(** [typeof receive_shadow === "number" ? receive_shadow : 0.0]. *)
Definition shadowOpacity (props : BoxProps) : JS.number :=
  if String.eqb (JS.typeof (receive_shadow props)) "number"
  then match receive_shadow props with JS.Num x => x | _ => S754_nan end
  else JS.zero.

(** The factory of the shadow material memo. *)
Definition createShadowMaterial (shadowOpacity : JS.number)
    : M (option nat) :=
  if JS.strict_eq (JS.Num shadowOpacity) (JS.Num JS.zero) then React.ret None
  else
    let! a := construct (Three.ShadowMaterial shadowOpacity 0 false) in
    React.ret (Some a).

(** "Create box geometry only once." *)
Definition ensureBoxGeometry : M (option nat) :=
  let! g := get_boxGeometry in
  match g with
  | None =>
      let! a := construct (Three.BoxGeometry
                             (JS.num_of_Z 1) (JS.num_of_Z 1) (JS.num_of_Z 1)) in
      let! _ := set_boxGeometry (Some a) in
      get_boxGeometry
  | Some _ => get_boxGeometry
  end.

(** The effect "Clean up material when it changes": it does nothing but
    return the clean-up closure, which captures [material]. *)
Definition materialEffect (material : nat) : M (M unit) :=
  React.ret (if JS.truthy (JS.Ref material) then dispose material
             else React.ret tt).

(** The JSX the component returns, as far as the primary mesh and the
    shadow mesh go. *)
Definition jsx (props : BoxProps) (boxGeometry : option nat)
    (material : nat) (shadowMaterial : option nat) : element :=
  let shadowOpacity := shadowOpacity props in
  let s := normalizeScale (scale props) in
  let d := match dimensions props with JS.NumArr _ d => d | _ => [] end in
  let scaledDimensions :=
    [JS.num_mul (JS.index s 0) (JS.index d 0);
     JS.num_mul (JS.index s 1) (JS.index d 1);
     JS.num_mul (JS.index s 2) (JS.index d 2)] in
  {| el_geometry := boxGeometry;
     el_scale := scaledDimensions;
     el_material := material;
     el_castShadow := cast_shadow props;
     el_receiveShadow := JS.strict_eq (receive_shadow props) (JS.Bool true);
     el_shadow :=
       match shadowMaterial with
       | Some sm =>
           if JS.num_gt shadowOpacity JS.zero
           then Some {| shadow_geometry := boxGeometry;
                        shadow_material := sm;
                        shadow_receiveShadow := true |}
           else None
       | None => None
       end |}.

(** What one call of the function component leaves behind: the memo
    cells and the element. *)
Record rendered : Type := {
  r_material : React.memo_cell nat;
  r_shadowMaterial : React.memo_cell (option nat);
  r_element : element;
}.

(** One call of the function component [BoxMesh]. *)
Definition render (f : option fiber) (props : BoxProps) : M rendered :=
  let! cm := React.useMemo (memo_material <$> f)
               (createStandardMaterial props) (material_deps props) in
  let material := React.memo_value cm in
  let! geometry := ensureBoxGeometry in
  let shadowOpacity := shadowOpacity props in
  let! cs := React.useMemo (memo_shadowMaterial <$> f)
               (createShadowMaterial shadowOpacity)
               [JS.Num shadowOpacity] in
  let shadowMaterial := React.memo_value cs in
  React.ret
    {| r_material := cm;
       r_shadowMaterial := cs;
       r_element := jsx props geometry material shadowMaterial |}.

(** The commit that follows a render: the only effect of the component is
    the material clean-up effect, with dependencies [[material]]. *)
Definition commit (f : option fiber) (r : rendered) : M fiber :=
  let material := React.memo_value (r_material r) in
  let! e := React.commitEffect (effect_material <$> f)
              (materialEffect material) [JS.Ref material] in
  React.ret {| memo_material := r_material r;
               effect_material := e;
               memo_shadowMaterial := r_shadowMaterial r |}.

(** A settled reconciliation pass of one node: render, then commit.
    [None] mounts the component. *)
Definition reconcile (f : option fiber) (props : BoxProps)
    : M (fiber * element) :=
  let! r := render f props in
  let! f' := commit f r in
  React.ret (f', r_element r).

(** Unmount: the clean-up of every effect runs. *)
Definition unmount (f : fiber) : M unit :=
  React.effect_destroy (effect_material f).

(** A node that is mounted with [props0] and then receives the updates
    [updates], one settled pass each. *)
Fixpoint updates (f : fiber) (us : list BoxProps) : M fiber :=
  match us with
  | [] => React.ret f
  | props :: us' =>
      let! fe := reconcile (Some f) props in
      updates (fst fe) us'
  end.

Definition lifetime (props0 : BoxProps) (us : list BoxProps) : M fiber :=
  let! fe := reconcile None props0 in
  updates (fst fe) us.

End BoxMesh.

(** ** Several box nodes in one process *)

Module Scene.

Import Process.

(** What reaches the box nodes of a scene: a node is rendered (mounted if
    it is new, updated otherwise) or removed. *)
Inductive event : Type :=
| Upsert (id : nat) (props : BoxMesh.BoxProps)
| Remove (id : nat).

Record state : Type := {
  fibers : gmap nat BoxMesh.fiber;
  proc : process;
}.

Definition initial : state := {| fibers := ∅; proc := Process.initial |}.

(** One settled pass; the element is the one the pass rendered. *)
Definition step (s : state) (ev : event)
    : state * option BoxMesh.element :=
  match ev with
  | Upsert id props =>
      let '((f, el), p) := BoxMesh.reconcile (fibers s !! id) props (proc s) in
      ({| fibers := <[id := f]> (fibers s); proc := p |}, Some el)
  | Remove id =>
      match fibers s !! id with
      | Some f =>
          let '(_, p) := BoxMesh.unmount f (proc s) in
          ({| fibers := delete id (fibers s); proc := p |}, None)
      | None => (s, None)
      end
  end.

(** A run, with every element rendered on the way, oldest first. *)
Fixpoint run (s : state) (evs : list event)
    : state * list BoxMesh.element :=
  match evs with
  | [] => (s, [])
  | ev :: evs' =>
      let '(s1, o) := step s ev in
      let '(s2, els) := run s1 evs' in
      (s2, match o with Some el => el :: els | None => els end)
  end.

(** The shared geometry is in place: when the module variable is set it
    refers to the one box geometry of the process, which has never been
    disposed; when it is not, no box geometry exists. *)
Definition geometry_shared (p : process) : Prop :=
  match boxGeometry p with
  | Some g =>
      Three.count Three.is_geometry (objects p) = 1 /\
      objects p !! g
      = Some (Three.fresh (Three.BoxGeometry (JS.num_of_Z 1) (JS.num_of_Z 1)
                             (JS.num_of_Z 1)))
  | None => Three.count Three.is_geometry (objects p) = 0
  end.

(** The clean-up registered by a mounted node disposes its cached
    material, which is a material. *)
Definition fiber_ok (p : process) (f : BoxMesh.fiber) : Prop :=
  let m := React.memo_value (BoxMesh.memo_material f) in
  React.effect_destroy (BoxMesh.effect_material f) = dispose m
  /\ React.effect_deps (BoxMesh.effect_material f) = [JS.Ref m]
  /\ exists r, objects p !! m = Some r /\ Three.is_material r = true.

Definition well_formed (s : state) : Prop :=
  geometry_shared (proc s)
  /\ forall id f, fibers s !! id = Some f -> fiber_ok (proc s) f.

(** The element and its shadow sub-mesh, if any, use the geometry [g]. *)
Definition uses_geometry (g : option nat) (el : BoxMesh.element) : Prop :=
  BoxMesh.el_geometry el = g
  /\ forall sm, BoxMesh.el_shadow el = Some sm ->
                BoxMesh.shadow_geometry sm = g.

End Scene.

(** ** The environment store (useEnvironmentState) *)

Module Environment.

Record EnvironmentMapMessage : Type := {
  env_type : string;
  hdri : string;
  background : bool;
  background_blurriness : JS.number;
  background_intensity : JS.number;
  background_wxyz : list JS.number;
  environment_intensity : JS.number;
  environment_wxyz : list JS.number;
}.

Record FogMessage : Type := {
  fog_type : string;
  near : JS.number;
  far : JS.number;
  fog_color : list JS.number;
  enabled : bool;
}.

Record EnvironmentState : Type := {
  enableDefaultLights : bool;
  enableDefaultLightsShadows : bool;
  environmentMap : EnvironmentMapMessage;
  fog : FogMessage;
}.

(** The state the initializer passed to [create] returns. *)
Definition initialState : EnvironmentState :=
  {| enableDefaultLights := true;
     enableDefaultLightsShadows := true;
     environmentMap :=
       {| env_type := "EnvironmentMapMessage";
          hdri := "city";
          background := false;
          background_blurriness := JS.num_of_Z 0;
          background_intensity := JS.num_of_Z 1;
          background_wxyz :=
            [JS.num_of_Z 1; JS.num_of_Z 0; JS.num_of_Z 0; JS.num_of_Z 0];
          environment_intensity := JS.num_of_Z 1;
          environment_wxyz :=
            [JS.num_of_Z 1; JS.num_of_Z 0; JS.num_of_Z 0; JS.num_of_Z 0] |};
     fog :=
       {| fog_type := "FogMessage";
          near := JS.num_of_Z 10;
          far := JS.num_of_Z 50;
          fog_color := [JS.num_of_Z 255; JS.num_of_Z 255; JS.num_of_Z 255];
          enabled := false |} |}.

(** Every zustand store created so far, by address. *)
Abbreviation stores := (list EnvironmentState) (only parsing).

Definition M : Type -> Type := React.M stores.

(** zustand's [create(initializer)]: a new store holding the
    initializer's state. *)
Definition create (init : EnvironmentState) : M nat :=
  fun w => (length w, w ++ [init]).

(** [store.getState()]. *)
Definition getState (a : nat) (w : stores) : option EnvironmentState :=
  w !! a.

(** The argument of [store.setState(partial)]: the fields present in the
    partial object. *)
Record partial : Type := {
  p_enableDefaultLights : option bool;
  p_enableDefaultLightsShadows : option bool;
  p_environmentMap : option EnvironmentMapMessage;
  p_fog : option FogMessage;
}.

(** [Object.assign({}, state, partial)]. *)
Definition assign (s : EnvironmentState) (p : partial) : EnvironmentState :=
  {| enableDefaultLights :=
       default (enableDefaultLights s) (p_enableDefaultLights p);
     enableDefaultLightsShadows :=
       default (enableDefaultLightsShadows s) (p_enableDefaultLightsShadows p);
     environmentMap := default (environmentMap s) (p_environmentMap p);
     fog := default (fog s) (p_fog p) |}.

(** [store.setState(partial)]: the store created above has no actions and
    no middleware, so this merge is its only mutation. *)
Definition setState (a : nat) (p : partial) : M unit :=
  fun w => (tt, alter (fun s => assign s p) a w).

(** [{ fog: message }]. *)
Definition fog_update (f : FogMessage) : partial :=
  {| p_enableDefaultLights := None;
     p_enableDefaultLightsShadows := None;
     p_environmentMap := None;
     p_fog := Some f |}.

(** [React.useState(() => create(() => ({...})))[0]]: [cell] is the state
    cell of the calling component instance, [None] on its first render. *)
Definition useEnvironmentState (cell : option nat) : M nat :=
  React.useState cell (create initialState).

(** Any number of [setState] calls, on any stores. *)
Fixpoint mutate (ups : list (nat * partial)) : M unit :=
  match ups with
  | [] => React.ret tt
  | (a, p) :: ups' => let! _ := setState a p in mutate ups'
  end.

(** The state [s] with its fog replaced. *)
Definition with_fog (f : FogMessage) (s : EnvironmentState)
    : EnvironmentState :=
  {| enableDefaultLights := enableDefaultLights s;
     enableDefaultLightsShadows := enableDefaultLightsShadows s;
     environmentMap := environmentMap s;
     fog := f |}.

End Environment.

(** ** The texture-loading effect of ViserImage (fix_report.md, Bug 1) *)

Module ViserImage.

(** One entry per run of the effect: the [cancelled] variable its closures
    share, and whether the loader has called its callback yet. *)
Record load : Type := {
  cancelled : bool;
  fired : bool;
}.

Record world : Type := {
  textures : Three.heap;
  loads : list load;
  (** [textureRef.current]. *)
  textureRef : option nat;
  (** The argument of the last call of [setImageTexture]: the state React
      shows from its next render on.  (What the component shows between the
      call and that render is not part of this record.) *)
  imageTexture : option nat;
}.

Definition M : Type -> Type := React.M world.

(** [cancelled = true] in the closure of run [c]. *)
Definition set_cancelled (c : nat) : M unit :=
  fun w =>
    (tt, {| textures := textures w;
            loads := alter (fun l => {| cancelled := true; fired := fired l |})
                           c (loads w);
            textureRef := textureRef w;
            imageTexture := imageTexture w |}).

(** The effect: [let cancelled = false], the call of
    [new THREE.TextureLoader().load(image_url, callback)], which only
    registers the callback, and the clean-up [() => { cancelled = true }]. *)
Definition textureEffect : M (M unit) :=
  fun w =>
    let c := length (loads w) in
    (set_cancelled c,
     {| textures := textures w;
        loads := loads w ++ [{| cancelled := false; fired := false |}];
        textureRef := textureRef w;
        imageTexture := imageTexture w |}).

(** The callback passed to the loader by run [c], called with the texture
    the loader produced.  ([URL.revokeObjectURL(image_url)], which ends the
    callback on both branches, touches none of the state kept here.) *)
Definition onLoad (c : nat) (texture : nat) : M unit :=
  fun w =>
    match loads w !! c with
    | Some l =>
        if negb (cancelled l) then
          let h :=
            match textureRef w with
            | Some old => Three.dispose old (textures w)
            | None => textures w
            end in
          (tt, {| textures := h;
                  loads := loads w;
                  textureRef := Some texture;
                  imageTexture := Some texture |})
        else
          (tt, {| textures := Three.dispose texture (textures w);
                  loads := loads w;
                  textureRef := textureRef w;
                  imageTexture := imageTexture w |})
    | None => (tt, w)
    end.

(** The loader finishes load [c]: it constructs the texture and calls the
    callback, once. *)
Definition complete (c : nat) : M unit :=
  fun w =>
    let (t, h) := Three.alloc (Three.Texture c) (textures w) in
    onLoad c t
      {| textures := h;
         loads := alter (fun l => {| cancelled := cancelled l; fired := true |})
                        c (loads w);
         textureRef := textureRef w;
         imageTexture := imageTexture w |}.

(** The component instance: the cell of its effect ([None] before the
    first commit), whether it has been unmounted, and the world. *)
Record state : Type := {
  effect : option (React.effect_cell world);
  unmounted : bool;
  wld : world;
}.

Definition initial : state :=
  {| effect := None;
     unmounted := false;
     wld := {| textures := []; loads := []; textureRef := None;
               imageTexture := None |} |}.

(** A render with the given [_format] and [_data] (the first one mounts),
    the completion of a load on a later turn, or the unmount. *)
Inductive event : Type :=
| Render (format data : JS.value)
| Complete (c : nat)
| Unmount.

(** [None] when the event cannot happen: a render or a second unmount of
    an unmounted component, the completion of a load that was not issued
    or has already completed. *)
Definition step (s : state) (ev : event) : option state :=
  match ev with
  | Render format data =>
      if unmounted s then None
      else
        let (e, w) :=
          React.commitEffect (effect s) textureEffect [format; data] (wld s) in
        Some {| effect := Some e; unmounted := false; wld := w |}
  | Complete c =>
      match loads (wld s) !! c with
      | Some l =>
          if fired l then None
          else
            let (_, w) := complete c (wld s) in
            Some {| effect := effect s; unmounted := unmounted s; wld := w |}
      | None => None
      end
  | Unmount =>
      match effect s with
      | Some e =>
          if unmounted s then None
          else
            let (_, w) := React.effect_destroy e (wld s) in
            Some {| effect := effect s; unmounted := true; wld := w |}
      | None => None
      end
  end.

Fixpoint run (s : state) (evs : list event) : option state :=
  match evs with
  | [] => Some s
  | ev :: evs' =>
      match step s ev with
      | Some s' => run s' evs'
      | None => None
      end
  end.

(** A load has been superseded when a later one has been issued. *)
Definition superseded (c : nat) (s : state) : bool :=
  S c <? length (loads (wld s)).

Definition all_fired (s : state) : bool :=
  forallb fired (loads (wld s)).

(** The number of loads whose callback has been called. *)
Fixpoint fired_count (ls : list load) : nat :=
  match ls with
  | [] => 0
  | l :: ls' => if fired l then S (fired_count ls') else fired_count ls'
  end.

(** The number of textures held by [textureRef]: 0 or 1. *)
Definition slot_count (w : world) : nat :=
  match textureRef w with Some _ => 1 | None => 0 end.

(** What holds of the component between two turns. *)
Record coherent (s : state) : Prop := {
  (** the registered clean-up cancels the latest load; *)
  co_effect :
    match effect s with
    | Some e =>
        React.effect_destroy e = set_cancelled (length (loads (wld s)) - 1)
        /\ loads (wld s) <> []
    | None => loads (wld s) = []
    end;
  (** a load is cancelled exactly when it has been superseded or the
      component has been unmounted; *)
  co_cancelled :
    forall c l, loads (wld s) !! c = Some l ->
                cancelled l = superseded c s || unmounted s;
  (** one texture has been constructed per completed load; *)
  co_created : length (textures (wld s)) = fired_count (loads (wld s));
  (** every texture but the one in the slot has been disposed, once; *)
  co_disposed :
    Three.dispose_total (textures (wld s)) + slot_count (wld s)
    = length (textures (wld s));
  co_live : Three.live_textures (textures (wld s)) = slot_count (wld s);
  co_slot :
    forall t, textureRef (wld s) = Some t ->
              exists r, textures (wld s) !! t = Some r
                        /\ Three.is_texture r = true
                        /\ Three.dispose_calls r = 0;
  (** while mounted, the latest load is in the slot once it has
      completed. *)
  co_installed :
    forall l, loads (wld s) !! (length (loads (wld s)) - 1) = Some l ->
              fired l = true -> unmounted s = false ->
              slot_count (wld s) = 1;
}.

End ViserImage.

(** ** Hover state of clickable nodes (fix_report.md, Bug 2) *)

Module Hover.

Local Open Scope Z_scope.

(** What the hover check reads and writes of one scene node:
    [node.effectiveVisibility], the [clickable] flag and [hoveredRef.current]. *)
Record node : Type := {
  effectiveVisibility : bool;
  clickable : bool;
  isHovered : bool;
  instanceId : option nat;
}.

(** [viewerMutable.hoveredElementsCount] and [document.body.style.cursor].
    The count is a JS number holding an integer; its increments and
    decrements are exact, as written here, while it stays within
    [-2^53 .. 2^53]. *)
Record viewer : Type := {
  hoveredElementsCount : Z;
  cursor : string;
}.

Inductive CursorMode : Type := Default | Pointer.

Definition cursorMode (v : viewer) : CursorMode :=
  if String.eqb (cursor v) "pointer" then Pointer else Default.

(** The body of the [if] of the check: the node goes back to idle, the
    count is decremented, and the cursor is restored when it reaches 0. *)
Definition release (n : node) (v : viewer) : node * viewer :=
  let n' := {| effectiveVisibility := effectiveVisibility n;
               clickable := clickable n;
               isHovered := false;
               instanceId := None |} in
  let count := hoveredElementsCount v - 1 in
  (n', {| hoveredElementsCount := count;
          cursor := if count =? 0 then "auto"%string else cursor v |}).

(** The check added to the [useFrame] callback:
    [if (!node.effectiveVisibility && hoveredRef.current.isHovered && clickable)]. *)
Definition visibilityCheck (n : node) (v : viewer) : node * viewer :=
  if negb (effectiveVisibility n) && isHovered n && clickable n
  then release n v
  else (n, v).

(** Modelled from the spec: the handling of [clickable] toggled to false
    while hovered is in SceneTree.tsx, which is not part of the sources at
    hand (the report only says the code already has it).  After the spec:
    a hovered node whose [clickable] is false goes back to idle and the
    count is decremented, through the same accumulation path. *)
Definition clickableCheck (n : node) (v : viewer) : node * viewer :=
  if negb (clickable n) && isHovered n
  then release n v
  else (n, v).

(** What one frame tick does for one node. *)
Definition tickNode (n : node) (v : viewer) : node * viewer :=
  let (n1, v1) := clickableCheck n v in
  visibilityCheck n1 v1.

(** One frame tick: every node is visited. *)
Fixpoint tick (ns : list node) (v : viewer) : list node * viewer :=
  match ns with
  | [] => ([], v)
  | n :: ns' =>
      let (n1, v1) := tickNode n v in
      let (ns1, v2) := tick ns' v1 in
      (n1 :: ns1, v2)
  end.

(** Modelled from the spec: the pointer handlers are in SceneTree.tsx, not
    part of the sources at hand.  After the spec: an idle node that is
    clickable and effectively visible and becomes the nearest hit goes to
    hovered and the count is incremented; the cursor indicator changes
    when the count leaves zero. *)
Definition pointerOver (iid : option nat) (n : node) (v : viewer)
    : node * viewer :=
  if effectiveVisibility n && clickable n && negb (isHovered n) then
    let count := hoveredElementsCount v + 1 in
    ({| effectiveVisibility := effectiveVisibility n;
        clickable := clickable n;
        isHovered := true;
        instanceId := iid |},
     {| hoveredElementsCount := count;
        cursor := if count =? 1 then "pointer"%string else cursor v |})
  else (n, v).

(** Modelled from the spec: a hovered node that is no longer the nearest
    hit goes back to idle and the count is decremented. *)
Definition pointerOut (n : node) (v : viewer) : node * viewer :=
  if isHovered n then release n v else (n, v).

Definition setVisible (b : bool) (n : node) : node :=
  {| effectiveVisibility := b; clickable := clickable n;
     isHovered := isHovered n; instanceId := instanceId n |}.

Definition setClickable (b : bool) (n : node) : node :=
  {| effectiveVisibility := effectiveVisibility n; clickable := b;
     isHovered := isHovered n; instanceId := instanceId n |}.

(** Pointer events and attribute changes of the node at an index, and
    frame ticks. *)
Inductive event : Type :=
| PointerOver (i : nat) (iid : option nat)
| PointerOut (i : nat)
| SetVisible (i : nat) (b : bool)
| SetClickable (i : nat) (b : bool)
| Tick.

Record state : Type := {
  nodes : list node;
  view : viewer;
}.

(** Apply a handler to the node at index [i]; nothing happens when there
    is no such node. *)
Definition at_node (i : nat) (h : node -> viewer -> node * viewer)
    (s : state) : state :=
  match nodes s !! i with
  | Some n =>
      let (n', v') := h n (view s) in
      {| nodes := <[i := n']> (nodes s); view := v' |}
  | None => s
  end.

Definition step (s : state) (ev : event) : state :=
  match ev with
  | PointerOver i iid => at_node i (pointerOver iid) s
  | PointerOut i => at_node i pointerOut s
  | SetVisible i b => at_node i (fun n v => (setVisible b n, v)) s
  | SetClickable i b => at_node i (fun n v => (setClickable b n, v)) s
  | Tick => let (ns, v) := tick (nodes s) (view s) in
            {| nodes := ns; view := v |}
  end.

Definition run (s : state) (evs : list event) : state :=
  fold_left step evs s.

Definition idle (n : node) : node :=
  {| effectiveVisibility := effectiveVisibility n; clickable := clickable n;
     isHovered := false; instanceId := None |}.

(** A session starts with the given nodes, none hovered, the count at 0
    and the default cursor. *)
Definition start (ns : list node) : state :=
  {| nodes := idle <$> ns;
     view := {| hoveredElementsCount := 0; cursor := "auto" |} |}.

(** The number of nodes whose hover flag is set. *)
Definition hovered (ns : list node) : Z :=
  Z.of_nat (length (List.filter isHovered ns)).

(** A hovered node that is hidden or not clickable any more. *)
Definition invalid (n : node) : bool :=
  isHovered n && (negb (effectiveVisibility n) || negb (clickable n)).

(** What a frame tick leaves of a node. *)
Definition settle (n : node) : node := if invalid n then idle n else n.

(** The cursor is the pointer exactly when the count is positive. *)
Definition cursor_follows_count (v : viewer) : Prop :=
  cursor v = if 0 <? hoveredElementsCount v then "pointer"%string
             else "auto"%string.

(** The count is the number of hovered nodes and the cursor follows it. *)
Definition consistent (s : state) : Prop :=
  hoveredElementsCount (view s) = hovered (nodes s)
  /\ cursor_follows_count (view s).

End Hover.

(** ** Sample inputs *)

Module Sample.

(** The number 0.5. *)
Definition half : JS.number := JS.num_scaled 1 (-1).

(** The number 0.25. *)
Definition quarter : JS.number := JS.num_scaled 1 (-2).

(** A unit box of a plain colour with the given [receive_shadow]. *)
Definition box (receive_shadow : JS.value) : BoxMesh.BoxProps :=
  {| BoxMesh.material := JS.Str "standard";
     BoxMesh.color :=
       JS.NumArr 0 [JS.num_of_Z 255; JS.num_of_Z 0; JS.num_of_Z 0];
     BoxMesh.wireframe := JS.Bool false;
     BoxMesh.opacity := JS.Null;
     BoxMesh.flat_shading := JS.Bool false;
     BoxMesh.side := JS.Str "front";
     BoxMesh.cast_shadow := JS.Bool true;
     BoxMesh.receive_shadow := receive_shadow;
     BoxMesh.dimensions :=
       JS.NumArr 1 [JS.num_of_Z 1; JS.num_of_Z 1; JS.num_of_Z 1];
     BoxMesh.scale := JS.Num (JS.num_of_Z 1) |}.

(** Three image updates in a row; the first load completes after the second
    was issued, the third completes next, the second last. *)
Definition churn : list ViserImage.event :=
  [ViserImage.Render (JS.Str "jpeg") (JS.Ref 1);
   ViserImage.Render (JS.Str "jpeg") (JS.Ref 2);
   ViserImage.Complete 0;
   ViserImage.Render (JS.Str "jpeg") (JS.Ref 3);
   ViserImage.Complete 2;
   ViserImage.Complete 1].

(** A visible, clickable node. *)
Definition target : Hover.node :=
  {| Hover.effectiveVisibility := true;
     Hover.clickable := true;
     Hover.isHovered := false;
     Hover.instanceId := None |}.

End Sample.

(** ** What holds of one box node between two passes *)

Module BoxNode.

Import Process BoxMesh.

(** The state of a node whose last pass had the props [last], in a process
    whose objects were [h0] when the node was mounted. *)
Record settled (h0 : list Three.resource) (last : BoxProps) (f : fiber)
    (p : process) : Prop := {
  (** the objects that were there before the node are untouched; *)
  st_prefix : take (length h0) (objects p) = h0;
  (** the cached material is an object of the node, built from the cached
      dependencies and not disposed; *)
  st_current :
    length h0 <= React.memo_value (memo_material f) /\
    objects p !! React.memo_value (memo_material f)
    = Some (Three.fresh (Three.StandardMaterial
                           (React.memo_deps (memo_material f))));
  (** the registered clean-up disposes it; *)
  st_destroy :
    React.effect_destroy (effect_material f)
    = dispose (React.memo_value (memo_material f));
  st_effect_deps :
    React.effect_deps (effect_material f)
    = [JS.Ref (React.memo_value (memo_material f))];
  (** every other material of the node has been disposed once; *)
  st_superseded :
    forall a r,
      length h0 <= a -> a <> React.memo_value (memo_material f) ->
      objects p !! a = Some r -> Three.is_material r = true ->
      Three.dispose_calls r = 1;
  (** the cached dependencies are those of the last props, up to
      [Object.is]; *)
  st_deps :
    React.areHookInputsEqual (material_deps last)
      (React.memo_deps (memo_material f)) = true /\
    length (React.memo_deps (memo_material f)) = 6;
  st_live :
    Three.live_materials (objects p) = S (Three.live_materials h0);
  (** no shadow material of the node has ever been disposed; *)
  st_shadow_kept :
    forall a r,
      length h0 <= a -> objects p !! a = Some r ->
      Three.is_shadow_material r = true -> Three.dispose_calls r = 0;
  (** the shadow memo holds a material exactly when the shadow opacity of
      the last props is not [=== 0.0], and that material has this
      opacity. *)
  st_shadow_deps :
    React.memo_deps (memo_shadowMaterial f)
    = [JS.Num (shadowOpacity last)];
  st_shadow :
    match React.memo_value (memo_shadowMaterial f) with
    | Some sm =>
        JS.strict_eq (JS.Num (shadowOpacity last)) (JS.Num JS.zero) = false /\
        objects p !! sm
        = Some (Three.fresh (Three.ShadowMaterial (shadowOpacity last) 0 false))
    | None =>
        JS.strict_eq (JS.Num (shadowOpacity last)) (JS.Num JS.zero) = true
    end;
}.

(** What the rendered element owes to [receive_shadow]. *)
Definition shadow_contract (props : BoxProps) (el : element) (p : process)
    : Prop :=
  (el_receiveShadow el = true <-> receive_shadow props = JS.Bool true)
  /\ (forall x,
        receive_shadow props = JS.Num x -> JS.num_gt x JS.zero = true ->
        exists sm,
          el_shadow el = Some {| shadow_geometry := el_geometry el;
                                 shadow_material := sm;
                                 shadow_receiveShadow := true |}
          /\ objects p !! sm
             = Some (Three.fresh (Three.ShadowMaterial x 0 false)))
  /\ (el_shadow el <> None ->
      exists x, receive_shadow props = JS.Num x /\ JS.num_gt x JS.zero = true)
  /\ ((forall x, receive_shadow props <> JS.Num x) ->
      shadowOpacity props = JS.zero /\ el_shadow el = None).

(** The objects constructed since the node was mounted in [p0]. *)
Definition owned (p0 p : process) : list Three.resource :=
  drop (length (objects p0)) (objects p).


(** Props that differ from [props] at most in fields outside the
    dependency array of the material. *)
Definition with_other_fields (props : BoxProps)
    (cast_shadow' receive_shadow' dimensions' scale' : JS.value) : BoxProps :=
  {| material := material props;
     color := color props;
     wireframe := wireframe props;
     opacity := opacity props;
     flat_shading := flat_shading props;
     side := side props;
     cast_shadow := cast_shadow';
     receive_shadow := receive_shadow';
     dimensions := dimensions';
     scale := scale' |}.

End BoxNode.

(** ** More about the passes of a box node *)

Module BoxPass.

Import Process BoxMesh.

(** The props [props] with another size: only [cast_shadow], [dimensions]
    and [scale] change. *)
Definition resized (props : BoxProps) (cast_shadow' dimensions' scale' : JS.value)
    : BoxProps :=
  BoxNode.with_other_fields props cast_shadow' (receive_shadow props)
    dimensions' scale'.

(** The number of shadow materials constructed so far. *)
Definition shadow_materials_created (p : process) : nat :=
  Three.count Three.is_shadow_material (objects p).

End BoxPass.

(** ** More about the textures of ViserImage *)

Module ImageSlot.

Import ViserImage.

(** What holds of the textures between two turns. *)
Record safe (s : state) : Prop := {
  (** the texture last given to [setImageTexture] is the one in the ref; *)
  sf_shown : imageTexture (wld s) = textureRef (wld s);
  (** it has not been disposed; *)
  sf_slot :
    forall t, textureRef (wld s) = Some t ->
              exists c, textures (wld s) !! t
                        = Some (Three.fresh (Three.Texture c));
  (** every other texture has been disposed, once; *)
  sf_others :
    forall t r, textures (wld s) !! t = Some r ->
                textureRef (wld s) <> Some t ->
                exists c, r = Three.disposed (Three.fresh (Three.Texture c));
  (** while mounted, once the latest load has completed the slot holds its
      texture. *)
  sf_latest :
    forall l, loads (wld s) !! (length (loads (wld s)) - 1) = Some l ->
              fired l = true -> unmounted s = false ->
              exists t, textureRef (wld s) = Some t
                        /\ textures (wld s) !! t
                           = Some (Three.fresh
                                     (Three.Texture
                                        (length (loads (wld s)) - 1)));
}.

(** Two image updates; the second load completes first. *)
Definition overtaken : list event :=
  [Render (JS.Str "png") (JS.Ref 1);
   Render (JS.Str "png") (JS.Ref 2);
   Complete 1;
   Complete 0].

End ImageSlot.

(** ** The shadow material of BasicMesh after the fix (fix_report.md, Bug 3) *)

Module BasicMesh.

Import Process.

(** A [THREE.ShadowMaterial | null] as a JS value. *)
Definition as_value (shadowMaterial : option nat) : JS.value :=
  match shadowMaterial with
  | Some a => JS.Ref a
  | None => JS.Null
  end.

(** The factory of the memo: [if (shadowOpacity === 0.0) return null;
    return new THREE.ShadowMaterial({opacity: shadowOpacity, color: 0x000000,
    depthWrite: false})], the code BoxMesh has too. *)
Definition createShadowMaterial (shadowOpacity : JS.number)
    : M (option nat) :=
  if JS.strict_eq (JS.Num shadowOpacity) (JS.Num JS.zero) then React.ret None
  else
    let! a := construct (Three.ShadowMaterial shadowOpacity 0 false) in
    React.ret (Some a).

(** The effect "Clean up shadow material when it changes": its clean-up is
    [if (shadowMaterial) shadowMaterial.dispose()]. *)
Definition shadowEffect (shadowMaterial : option nat) : M (M unit) :=
  React.ret
    (if JS.truthy (as_value shadowMaterial)
     then match shadowMaterial with
          | Some a => dispose a
          | None => React.ret tt
          end
     else React.ret tt).

(** The two hook cells of the shadow material of one mounted BasicMesh. *)
Record fiber : Type := {
  memo_shadowMaterial : React.memo_cell (option nat);
  effect_shadowMaterial : React.effect_cell process;
}.

(** A settled pass, as far as the shadow material goes: the memo with
    dependencies [[shadowOpacity]], then the commit of the effect with
    dependencies [[shadowMaterial]]. *)
Definition reconcile (f : option fiber) (shadowOpacity : JS.number) : M fiber :=
  let! cs := React.useMemo (memo_shadowMaterial <$> f)
               (createShadowMaterial shadowOpacity)
               [JS.Num shadowOpacity] in
  let shadowMaterial := React.memo_value cs in
  let! e := React.commitEffect (effect_shadowMaterial <$> f)
              (shadowEffect shadowMaterial) [as_value shadowMaterial] in
  React.ret {| memo_shadowMaterial := cs; effect_shadowMaterial := e |}.

Definition unmount (f : fiber) : M unit :=
  React.effect_destroy (effect_shadowMaterial f).

(** A mesh mounted with one shadow opacity and then updated with others. *)
Fixpoint updates (f : fiber) (os : list JS.number) : M fiber :=
  match os with
  | [] => React.ret f
  | o :: os' => let! f' := reconcile (Some f) o in updates f' os'
  end.

Definition lifetime (o0 : JS.number) (os : list JS.number) : M fiber :=
  let! f := reconcile None o0 in updates f os.

(** Shadow materials that have not been disposed. *)
Definition live_shadow_materials (h : list Three.resource) : nat :=
  Three.count (fun r => Three.is_shadow_material r && Three.live r) h.

(** The clean-up that goes with a cached shadow material. *)
Definition cleanup_of (shadowMaterial : option nat) : M unit :=
  match shadowMaterial with
  | Some a => dispose a
  | None => React.ret tt
  end.

(** What holds of the shadow slot between two passes, the last of which had
    the shadow opacity [last], in a process whose objects were [h0] at the
    mount. *)
Record settled (h0 : list Three.resource) (last : JS.number) (f : fiber)
    (p : process) : Prop := {
  bs_prefix : take (length h0) (objects p) = h0;
  bs_deps : React.memo_deps (memo_shadowMaterial f) = [JS.Num last];
  bs_current :
    match React.memo_value (memo_shadowMaterial f) with
    | Some sm =>
        JS.strict_eq (JS.Num last) (JS.Num JS.zero) = false
        /\ length h0 <= sm
        /\ objects p !! sm
           = Some (Three.fresh (Three.ShadowMaterial last 0 false))
    | None => JS.strict_eq (JS.Num last) (JS.Num JS.zero) = true
    end;
  bs_destroy :
    React.effect_destroy (effect_shadowMaterial f)
    = cleanup_of (React.memo_value (memo_shadowMaterial f));
  bs_effect_deps :
    React.effect_deps (effect_shadowMaterial f)
    = [as_value (React.memo_value (memo_shadowMaterial f))];
  bs_superseded :
    forall a r,
      length h0 <= a ->
      React.memo_value (memo_shadowMaterial f) <> Some a ->
      objects p !! a = Some r ->
      exists x, r = Three.disposed (Three.fresh (Three.ShadowMaterial x 0 false));
  bs_live :
    live_shadow_materials (objects p)
    = live_shadow_materials h0
      + match React.memo_value (memo_shadowMaterial f) with
        | Some _ => 1
        | None => 0
        end;
}.

End BasicMesh.

(** ** The Grid component *)

Module Grid.

(** [GridProps], as far as the component reads them itself ([quaternion]
    and [renderOrder] are spread onto the mesh); [None] is a prop that is
    absent or [undefined], for which the destructuring default applies.
    Colours are [THREE.ColorRepresentation] values and [side] a
    [THREE.Side]. *)
Record GridProps : Type := {
  args : option (JS.number * JS.number);
  cellColor : option JS.value;
  sectionColor : option JS.value;
  cellSize : option JS.number;
  sectionSize : option JS.number;
  followCamera : option bool;
  infiniteGrid : option bool;
  fadeDistance : option JS.number;
  fadeStrength : option JS.number;
  fadeFrom : option JS.number;
  cellThickness : option JS.number;
  sectionThickness : option JS.number;
  side : option JS.value;
  planeColor : option JS.value;
  planeOpacity : option JS.number;
  shadowOpacity : option JS.number;
}.

(** [THREE.BackSide], a constant of three.js. *)
Definition BackSide : JS.value := JS.Num (JS.num_of_Z 1).

(** The variables the destructuring of the props binds. *)
Record bound : Type := {
  b_cellColor : JS.value;
  b_sectionColor : JS.value;
  b_cellSize : JS.number;
  b_sectionSize : JS.number;
  b_followCamera : bool;
  b_infiniteGrid : bool;
  b_fadeDistance : JS.number;
  b_fadeStrength : JS.number;
  b_fadeFrom : JS.number;
  b_cellThickness : JS.number;
  b_sectionThickness : JS.number;
  b_side : JS.value;
  b_planeColor : JS.value;
  b_planeOpacity : JS.number;
  b_shadowOpacity : JS.number;
}.

(** The destructuring, with its defaults. *)
Definition destructure (props : GridProps) : bound :=
  {| b_cellColor := default (JS.Str "#000000") (cellColor props);
     b_sectionColor := default (JS.Str "#2080ff") (sectionColor props);
     b_cellSize := default (JS.num_scaled 1 (-1)) (cellSize props);
     b_sectionSize := default (JS.num_of_Z 1) (sectionSize props);
     b_followCamera := default false (followCamera props);
     b_infiniteGrid := default false (infiniteGrid props);
     b_fadeDistance := default (JS.num_of_Z 100) (fadeDistance props);
     b_fadeStrength := default (JS.num_of_Z 1) (fadeStrength props);
     b_fadeFrom := default (JS.num_of_Z 1) (fadeFrom props);
     b_cellThickness := default (JS.num_scaled 1 (-1)) (cellThickness props);
     b_sectionThickness := default (JS.num_of_Z 1) (sectionThickness props);
     b_side := default BackSide (side props);
     b_planeColor := default (JS.Str "#ffffff") (planeColor props);
     b_planeOpacity := default (JS.num_of_Z 0) (planeOpacity props);
     b_shadowOpacity := default (JS.num_of_Z 0) (shadowOpacity props) |}.

(** The state of the [THREE.ShaderMaterial] of a grid: the uniforms the
    effect writes (a colour uniform holds the representation it was last
    [set] to, [None] while it is as constructed), [side] ([None] while it is
    the default of three.js), [needsUpdate], and the number of times
    [needsUpdate = true] has been assigned.  The two uniforms written by the
    frame callback, and those of the lights and the fog, are left out. *)
Record material : Type := {
  u_cellSize : JS.number;
  u_sectionSize : JS.number;
  u_fadeDistance : JS.number;
  u_fadeStrength : JS.number;
  u_fadeFrom : JS.number;
  u_cellThickness : JS.number;
  u_sectionThickness : JS.number;
  u_cellColor : option JS.value;
  u_sectionColor : option JS.value;
  u_infiniteGrid : bool;
  u_followCamera : bool;
  u_planeColor : option JS.value;
  u_planeOpacity : JS.number;
  u_shadowOpacity : JS.number;
  m_side : option JS.value;
  m_needsUpdate : bool;
  m_updates : nat;
}.

(** The uniforms given to [new THREE.ShaderMaterial]. *)
Definition constructed : material :=
  {| u_cellSize := JS.num_scaled 1 (-1);
     u_sectionSize := JS.num_of_Z 1;
     u_fadeDistance := JS.num_of_Z 100;
     u_fadeStrength := JS.num_of_Z 1;
     u_fadeFrom := JS.num_of_Z 1;
     u_cellThickness := JS.num_scaled 1 (-1);
     u_sectionThickness := JS.num_of_Z 1;
     u_cellColor := None;
     u_sectionColor := None;
     u_infiniteGrid := false;
     u_followCamera := false;
     u_planeColor := None;
     u_planeOpacity := JS.num_of_Z 0;
     u_shadowOpacity := JS.num_of_Z 0;
     m_side := None;
     m_needsUpdate := false;
     m_updates := 0 |}.

(** The shader materials constructed so far, by address. *)
Abbreviation materials := (list material) (only parsing).

Definition M : Type -> Type := React.M materials.

(** The factory of the material memo. *)
Definition createMaterial : M nat :=
  fun w => (length w, w ++ [constructed]).

(** The body of the effect "Update material uniforms when props change". *)
Definition write (b : bound) (m : material) : material :=
  {| u_cellSize := b_cellSize b;
     u_sectionSize := b_sectionSize b;
     u_fadeDistance := b_fadeDistance b;
     u_fadeStrength := b_fadeStrength b;
     u_fadeFrom := b_fadeFrom b;
     u_cellThickness := b_cellThickness b;
     u_sectionThickness := b_sectionThickness b;
     u_cellColor := Some (b_cellColor b);
     u_sectionColor := Some (b_sectionColor b);
     u_infiniteGrid := b_infiniteGrid b;
     u_followCamera := b_followCamera b;
     u_planeColor := Some (b_planeColor b);
     u_planeOpacity := b_planeOpacity b;
     u_shadowOpacity := b_shadowOpacity b;
     m_side := Some (b_side b);
     m_needsUpdate := true;
     m_updates := S (m_updates m) |}.

(** The effect: it writes the uniforms of [material] and returns no
    clean-up. *)
Definition uniformsEffect (material : nat) (b : bound) : M (M unit) :=
  fun w => (React.ret tt, alter (write b) material w).

(** The dependency array of the effect. *)
Definition effect_deps (material : nat) (b : bound) : list JS.value :=
  [JS.Ref material;
   JS.Num (b_cellSize b); JS.Num (b_sectionSize b);
   b_cellColor b; b_sectionColor b;
   JS.Num (b_cellThickness b); JS.Num (b_sectionThickness b);
   JS.Num (b_fadeDistance b); JS.Num (b_fadeStrength b);
   JS.Num (b_fadeFrom b);
   JS.Bool (b_infiniteGrid b); JS.Bool (b_followCamera b);
   b_planeColor b;
   JS.Num (b_planeOpacity b); JS.Num (b_shadowOpacity b);
   b_side b].

(** The rendered [<mesh>] with its [<planeGeometry>]. *)
Record element : Type := {
  el_frustumCulled : bool;
  el_material : nat;
  el_receiveShadow : bool;
  el_args : option (JS.number * JS.number);
}.

(** The hook cells of one mounted Grid. *)
Record fiber : Type := {
  memo_material : React.memo_cell nat;
  effect_uniforms : React.effect_cell materials;
}.

(** A settled pass of the component: the material memo with the
    dependencies [[]], then the commit of the effect. *)
Definition reconcile (f : option fiber) (props : GridProps)
    : M (fiber * element) :=
  let b := destructure props in
  let! cm := React.useMemo (memo_material <$> f) createMaterial [] in
  let material := React.memo_value cm in
  let! e := React.commitEffect (effect_uniforms <$> f)
              (uniformsEffect material b) (effect_deps material b) in
  React.ret ({| memo_material := cm; effect_uniforms := e |},
             {| el_frustumCulled := false;
                el_material := material;
                el_receiveShadow := true;
                el_args := args props |}).

Definition unmount (f : fiber) : M unit :=
  React.effect_destroy (effect_uniforms f).

Fixpoint updates (f : fiber) (us : list GridProps) : M fiber :=
  match us with
  | [] => React.ret f
  | props :: us' =>
      let! fe := reconcile (Some f) props in
      updates (fst fe) us'
  end.

Definition lifetime (props0 : GridProps) (us : list GridProps) : M fiber :=
  let! fe := reconcile None props0 in
  updates (fst fe) us.

(** The material holds what the destructured props say: numbers and flags
    are equal, colours and the side are the same value up to [Object.is]. *)
Definition mirrors (m : material) (b : bound) : Prop :=
  u_cellSize m = b_cellSize b
  /\ u_sectionSize m = b_sectionSize b
  /\ u_fadeDistance m = b_fadeDistance b
  /\ u_fadeStrength m = b_fadeStrength b
  /\ u_fadeFrom m = b_fadeFrom b
  /\ u_cellThickness m = b_cellThickness b
  /\ u_sectionThickness m = b_sectionThickness b
  /\ u_infiniteGrid m = b_infiniteGrid b
  /\ u_followCamera m = b_followCamera b
  /\ u_planeOpacity m = b_planeOpacity b
  /\ u_shadowOpacity m = b_shadowOpacity b
  /\ (exists c, u_cellColor m = Some c /\ JS.object_is (b_cellColor b) c = true)
  /\ (exists c, u_sectionColor m = Some c
                /\ JS.object_is (b_sectionColor b) c = true)
  /\ (exists c, u_planeColor m = Some c
                /\ JS.object_is (b_planeColor b) c = true)
  /\ (exists c, m_side m = Some c /\ JS.object_is (b_side b) c = true)
  /\ m_needsUpdate m = true.

(** What holds of a mounted grid between two passes, the last of which had
    the props [last], in a world that held the materials [w0] at the
    mount. *)
Record settled (w0 : list material) (last : GridProps) (f : fiber)
    (w : list material) : Prop := {
  gs_once : length w = S (length w0) /\ take (length w0) w = w0;
  gs_material : React.memo_value (memo_material f) = length w0;
  gs_memo_deps : React.memo_deps (memo_material f) = [];
  gs_no_cleanup : React.effect_destroy (effect_uniforms f) = React.ret tt;
  gs_written :
    exists b m0,
      React.effect_deps (effect_uniforms f) = effect_deps (length w0) b
      /\ w !! length w0 = Some (write b m0)
      /\ React.areHookInputsEqual (effect_deps (length w0) (destructure last))
           (effect_deps (length w0) b) = true;
}.

End Grid.

(** ** The visibility check over the frames *)

Module HoverFrame.

Local Open Scope Z_scope.

(** One frame as far as the visibility check goes: the [useFrame] callback
    of every node runs once, in order. *)
Fixpoint frame (ns : list Hover.node) (v : Hover.viewer)
    : list Hover.node * Hover.viewer :=
  match ns with
  | [] => ([], v)
  | n :: ns' =>
      let (n1, v1) := Hover.visibilityCheck n v in
      let (ns1, v2) := frame ns' v1 in
      (n1 :: ns1, v2)
  end.

(** A node that is hovered and clickable although it is hidden. *)
Definition stale (n : Hover.node) : bool :=
  negb (Hover.effectiveVisibility n) && Hover.isHovered n && Hover.clickable n.

Fixpoint stale_count (ns : list Hover.node) : Z :=
  match ns with
  | [] => 0
  | n :: ns' => (if stale n then 1 else 0) + stale_count ns'
  end.

(** The node gone back to idle. *)
Definition idle (n : Hover.node) : Hover.node :=
  {| Hover.effectiveVisibility := Hover.effectiveVisibility n;
     Hover.clickable := Hover.clickable n;
     Hover.isHovered := false;
     Hover.instanceId := None |}.

End HoverFrame.

(** * Properties *)

(** ** JavaScript comparisons *)

Lemma same_number_eq (x y : JS.number) : JS.same_number x y = true <-> x = y.
Proof.
  split.
  - destruct x as [s|s| |s m e], y as [t|t| |t n f]; simpl; try discriminate;
      try reflexivity.
    + intros H. apply Bool.eqb_prop in H. congruence.
    + intros H. apply Bool.eqb_prop in H. congruence.
    + intros H. apply andb_prop in H as [H He]. apply andb_prop in H as [Hs Hm].
      apply Bool.eqb_prop in Hs. apply Pos.eqb_eq in Hm. apply Z.eqb_eq in He.
      congruence.
  - intros <-. destruct x as [s|s| |s m e]; simpl; try reflexivity.
    + apply Bool.eqb_reflx.
    + apply Bool.eqb_reflx.
    + rewrite Bool.eqb_reflx, Pos.eqb_refl, Z.eqb_refl. reflexivity.
Qed.

Lemma object_is_refl (a : JS.value) : JS.object_is a a = true.
Proof.
  destruct a; simpl; try reflexivity.
  - apply Bool.eqb_reflx.
  - apply same_number_eq. reflexivity.
  - apply String.eqb_refl.
  - apply Nat.eqb_refl.
  - apply Nat.eqb_refl.
Qed.



Lemma areHookInputsEqual_refl (d : list JS.value) :
  React.areHookInputsEqual d d = true.
Proof.
  induction d as [|a d IH]; simpl; [reflexivity|].
  rewrite object_is_refl. exact IH.
Qed.



(** A number greater than zero is not [=== 0.0]. *)
Lemma num_gt_zero_not_zero (x : JS.number) :
  JS.num_gt x JS.zero = true ->
  JS.strict_eq (JS.Num x) (JS.Num JS.zero) = false.
Proof.
  unfold JS.num_gt, JS.strict_eq, SFltb, SFeqb, JS.zero.
  destruct x as [s|s| |s m e]; simpl; try discriminate.
  - destruct s; [discriminate | reflexivity].
  - destruct s; [discriminate | reflexivity].
Qed.

(** ** Counting objects of the heap *)

Lemma count_app (P : Three.resource -> bool) (h1 h2 : Three.heap) :
  Three.count P (h1 ++ h2) = Three.count P h1 + Three.count P h2.
Proof.
  induction h1 as [|r h1 IH]; simpl; [reflexivity|].
  destruct (P r); simpl; rewrite IH; reflexivity.
Qed.

Lemma count_alter (P : Three.resource -> bool) (f : Three.resource -> Three.resource)
    (h : Three.heap) (a : nat) (r : Three.resource) :
  h !! a = Some r ->
  Three.count P (alter f a h) + Nat.b2n (P r)
  = Three.count P h + Nat.b2n (P (f r)).
Proof.
  revert a. induction h as [|x h IH]; intros [|a] Hl; simpl in *;
    try discriminate.
  - injection Hl as ->. destruct (P r), (P (f r)); simpl; lia.
  - specialize (IH a Hl).
    change (list_alter f a h) with (alter f a h).
    destruct (P x); lia.
Qed.

Lemma count_none (P : Three.resource -> bool) (h : Three.heap) :
  Forall (fun r => P r = false) h -> Three.count P h = 0.
Proof.
  induction 1 as [|r h Hr _ IH]; simpl; [reflexivity|].
  rewrite Hr. exact IH.
Qed.

Lemma dispose_total_app (h1 h2 : Three.heap) :
  Three.dispose_total (h1 ++ h2)
  = Three.dispose_total h1 + Three.dispose_total h2.
Proof.
  induction h1 as [|r h1 IH]; simpl; [reflexivity|]. rewrite IH. lia.
Qed.

Lemma dispose_total_dispose (h : Three.heap) (a : nat) (r : Three.resource) :
  h !! a = Some r ->
  Three.dispose_total (Three.dispose a h) = S (Three.dispose_total h).
Proof.
  unfold Three.dispose.
  revert a. induction h as [|x h IH]; intros [|a] Hl; simpl in *;
    try discriminate.
  - reflexivity.
  - change (list_alter Three.disposed a h) with (alter Three.disposed a h).
    rewrite (IH a Hl). lia.
Qed.

(** ** The passes of a BoxMesh *)

Lemma useMemo_mount {W A} (create : React.M W A) (deps : list JS.value) (w : W) :
  React.useMemo None create deps w
  = ({| React.memo_value := fst (create w); React.memo_deps := deps |},
     snd (create w)).
Proof.
  unfold React.useMemo, React.bind, React.ret. destruct (create w). reflexivity.
Qed.

Lemma useMemo_hit {W A} (c : React.memo_cell A) (create : React.M W A)
    (deps : list JS.value) (w : W) :
  React.areHookInputsEqual deps (React.memo_deps c) = true ->
  React.useMemo (Some c) create deps w = (c, w).
Proof. intros H. unfold React.useMemo. rewrite H. reflexivity. Qed.

Lemma useMemo_miss {W A} (c : React.memo_cell A) (create : React.M W A)
    (deps : list JS.value) (w : W) :
  React.areHookInputsEqual deps (React.memo_deps c) = false ->
  React.useMemo (Some c) create deps w
  = ({| React.memo_value := fst (create w); React.memo_deps := deps |},
     snd (create w)).
Proof.
  intros H. unfold React.useMemo. rewrite H.
  unfold React.bind, React.ret. destruct (create w). reflexivity.
Qed.

Lemma ensureBoxGeometry_spec (p : Process.process) :
  exists g ext,
    BoxMesh.ensureBoxGeometry p
    = (Some g, {| Process.objects := Process.objects p ++ ext;
                  Process.boxGeometry := Some g |})
    /\ ((Process.boxGeometry p = Some g /\ ext = [])
        \/ (Process.boxGeometry p = None /\ g = length (Process.objects p)
            /\ ext = [Three.fresh (Three.BoxGeometry (JS.num_of_Z 1)
                                     (JS.num_of_Z 1) (JS.num_of_Z 1))])).
Proof.
  destruct p as [h [g|]].
  - exists g, []. split; [|left; auto].
    unfold BoxMesh.ensureBoxGeometry, React.bind, Process.get_boxGeometry.
    simpl. rewrite app_nil_r. reflexivity.
  - eexists _, _. split; [|right; eauto]. reflexivity.
Qed.

Lemma createShadowMaterial_spec (x : JS.number) (p : Process.process) :
  (JS.strict_eq (JS.Num x) (JS.Num JS.zero) = true
   /\ BoxMesh.createShadowMaterial x p = (None, p))
  \/ (JS.strict_eq (JS.Num x) (JS.Num JS.zero) = false
      /\ BoxMesh.createShadowMaterial x p
         = (Some (length (Process.objects p)),
            {| Process.objects :=
                 Process.objects p ++ [Three.fresh (Three.ShadowMaterial x 0 false)];
               Process.boxGeometry := Process.boxGeometry p |})).
Proof.
  unfold BoxMesh.createShadowMaterial.
  destruct (JS.strict_eq (JS.Num x) (JS.Num JS.zero)); [left|right]; split;
    reflexivity.
Qed.

Lemma reconcile_unfold fo props p :
  BoxMesh.reconcile fo props p =
  let (cm, p1) := React.useMemo (BoxMesh.memo_material <$> fo)
                    (BoxMesh.createStandardMaterial props)
                    (BoxMesh.material_deps props) p in
  let (g, p2) := BoxMesh.ensureBoxGeometry p1 in
  let (cs, p3) := React.useMemo (BoxMesh.memo_shadowMaterial <$> fo)
                    (BoxMesh.createShadowMaterial (BoxMesh.shadowOpacity props))
                    [JS.Num (BoxMesh.shadowOpacity props)] p2 in
  let (e, p4) := React.commitEffect (BoxMesh.effect_material <$> fo)
                   (BoxMesh.materialEffect (React.memo_value cm))
                   [JS.Ref (React.memo_value cm)] p3 in
  (({| BoxMesh.memo_material := cm; BoxMesh.effect_material := e;
       BoxMesh.memo_shadowMaterial := cs |},
    BoxMesh.jsx props g (React.memo_value cm) (React.memo_value cs)), p4).
Proof.
  unfold BoxMesh.reconcile, BoxMesh.render, BoxMesh.commit, React.bind, React.ret.
  destruct (React.useMemo _ _ _ p) as [cm p1].
  destruct (BoxMesh.ensureBoxGeometry p1) as [g p2].
  destruct (React.useMemo _ _ _ p2) as [cs p3]. simpl.
  destruct (React.commitEffect _ _ _ p3) as [e p4]. reflexivity.
Qed.

Lemma commitEffect_mount {W} (create : React.M W (React.M W unit))
    (deps : list JS.value) (w : W) :
  React.commitEffect None create deps w
  = ({| React.effect_destroy := fst (create w); React.effect_deps := deps |},
     snd (create w)).
Proof.
  unfold React.commitEffect, React.bind, React.ret. destruct (create w).
  reflexivity.
Qed.

Lemma materialEffect_eq (m : nat) (p : Process.process) :
  BoxMesh.materialEffect m p = (Process.dispose m, p).
Proof. reflexivity. Qed.

Lemma reconcile_spec fo props p :
  (forall f, fo = Some f ->
     React.effect_destroy (BoxMesh.effect_material f)
       = Process.dispose (React.memo_value (BoxMesh.memo_material f))
     /\ React.effect_deps (BoxMesh.effect_material f)
       = [JS.Ref (React.memo_value (BoxMesh.memo_material f))]
     /\ React.memo_value (BoxMesh.memo_material f) < length (Process.objects p)) ->
  exists f' g D mext gext sext,
    BoxMesh.reconcile fo props p
    = ((f', BoxMesh.jsx props (Some g)
              (React.memo_value (BoxMesh.memo_material f'))
              (React.memo_value (BoxMesh.memo_shadowMaterial f'))),
       {| Process.objects := D ++ mext ++ gext ++ sext;
          Process.boxGeometry := Some g |})
    /\ React.effect_destroy (BoxMesh.effect_material f')
       = Process.dispose (React.memo_value (BoxMesh.memo_material f'))
    /\ React.effect_deps (BoxMesh.effect_material f')
       = [JS.Ref (React.memo_value (BoxMesh.memo_material f'))]
    /\ length D = length (Process.objects p)
    /\ ((exists f, fo = Some f
          /\ React.areHookInputsEqual (BoxMesh.material_deps props)
               (React.memo_deps (BoxMesh.memo_material f)) = true
          /\ BoxMesh.memo_material f' = BoxMesh.memo_material f
          /\ mext = [] /\ D = Process.objects p)
        \/ (BoxMesh.memo_material f'
            = {| React.memo_value := length (Process.objects p);
                 React.memo_deps := BoxMesh.material_deps props |}
            /\ mext = [Three.fresh (Three.StandardMaterial
                                      (BoxMesh.material_deps props))]
            /\ ((fo = None /\ D = Process.objects p)
                \/ (exists f, fo = Some f
                     /\ React.areHookInputsEqual (BoxMesh.material_deps props)
                          (React.memo_deps (BoxMesh.memo_material f)) = false
                     /\ D = Three.dispose
                              (React.memo_value (BoxMesh.memo_material f))
                              (Process.objects p)))))
    /\ ((Process.boxGeometry p = Some g /\ gext = [])
        \/ (Process.boxGeometry p = None
            /\ g = length (Process.objects p) + length mext
            /\ gext = [Three.fresh (Three.BoxGeometry (JS.num_of_Z 1)
                                      (JS.num_of_Z 1) (JS.num_of_Z 1))]))
    /\ ((exists f, fo = Some f
          /\ React.areHookInputsEqual [JS.Num (BoxMesh.shadowOpacity props)]
               (React.memo_deps (BoxMesh.memo_shadowMaterial f)) = true
          /\ BoxMesh.memo_shadowMaterial f' = BoxMesh.memo_shadowMaterial f
          /\ sext = [])
        \/ ((fo = None
             \/ exists f, fo = Some f
                 /\ React.areHookInputsEqual [JS.Num (BoxMesh.shadowOpacity props)]
                      (React.memo_deps (BoxMesh.memo_shadowMaterial f)) = false)
            /\ React.memo_deps (BoxMesh.memo_shadowMaterial f')
               = [JS.Num (BoxMesh.shadowOpacity props)]
            /\ ((JS.strict_eq (JS.Num (BoxMesh.shadowOpacity props))
                   (JS.Num JS.zero) = true
                 /\ React.memo_value (BoxMesh.memo_shadowMaterial f') = None
                 /\ sext = [])
                \/ (JS.strict_eq (JS.Num (BoxMesh.shadowOpacity props))
                      (JS.Num JS.zero) = false
                    /\ React.memo_value (BoxMesh.memo_shadowMaterial f')
                       = Some (length (Process.objects p) + length mext
                               + length gext)
                    /\ sext = [Three.fresh
                                 (Three.ShadowMaterial
                                    (BoxMesh.shadowOpacity props) 0 false)]))))
    /\ Forall (fun r => r = Three.fresh (Three.BoxGeometry (JS.num_of_Z 1)
                                           (JS.num_of_Z 1) (JS.num_of_Z 1))) gext
    /\ Forall (fun r => r = Three.fresh (Three.ShadowMaterial
                                           (BoxMesh.shadowOpacity props) 0 false))
         sext.
Proof.
  intros Hfo. rewrite reconcile_unfold.
  (* the material memo *)
  assert (exists cm mext,
    React.useMemo (BoxMesh.memo_material <$> fo)
      (BoxMesh.createStandardMaterial props) (BoxMesh.material_deps props) p
    = (cm, {| Process.objects := Process.objects p ++ mext;
              Process.boxGeometry := Process.boxGeometry p |})
    /\ ((exists f, fo = Some f
          /\ React.areHookInputsEqual (BoxMesh.material_deps props)
               (React.memo_deps (BoxMesh.memo_material f)) = true
          /\ cm = BoxMesh.memo_material f /\ mext = [])
        \/ (cm = {| React.memo_value := length (Process.objects p);
                    React.memo_deps := BoxMesh.material_deps props |}
            /\ mext = [Three.fresh (Three.StandardMaterial
                                      (BoxMesh.material_deps props))]
            /\ (fo = None
                \/ exists f, fo = Some f
                     /\ React.areHookInputsEqual (BoxMesh.material_deps props)
                          (React.memo_deps (BoxMesh.memo_material f)) = false))))
    as (cm & mext & -> & Hm).
  { destruct fo as [f|]; cbn [fmap option_fmap option_map].
    - destruct (React.areHookInputsEqual (BoxMesh.material_deps props)
                  (React.memo_deps (BoxMesh.memo_material f))) eqn:E.
      + exists (BoxMesh.memo_material f), []. split.
        * rewrite useMemo_hit by exact E. destruct p; simpl.
          rewrite app_nil_r. reflexivity.
        * left. exists f. auto.
      + eexists _, _. split.
        * rewrite useMemo_miss by exact E. reflexivity.
        * right. split; [reflexivity|]. split; [reflexivity|]. right. eauto.
    - eexists _, _. split.
      + rewrite useMemo_mount. reflexivity.
      + right. auto. }
  (* the geometry *)
  destruct (ensureBoxGeometry_spec
              {| Process.objects := Process.objects p ++ mext;
                 Process.boxGeometry := Process.boxGeometry p |})
    as (g & gext & -> & Hg). simpl in Hg.
  (* the shadow memo *)
  cbn [Process.objects Process.boxGeometry].
  set (p2 := {| Process.objects := (Process.objects p ++ mext) ++ gext;
                Process.boxGeometry := Some g |}).
  assert (exists cs sext,
    React.useMemo (BoxMesh.memo_shadowMaterial <$> fo)
      (BoxMesh.createShadowMaterial (BoxMesh.shadowOpacity props))
      [JS.Num (BoxMesh.shadowOpacity props)] p2
    = (cs, {| Process.objects := Process.objects p2 ++ sext;
              Process.boxGeometry := Some g |})
    /\ ((exists f, fo = Some f
          /\ React.areHookInputsEqual [JS.Num (BoxMesh.shadowOpacity props)]
               (React.memo_deps (BoxMesh.memo_shadowMaterial f)) = true
          /\ cs = BoxMesh.memo_shadowMaterial f /\ sext = [])
        \/ ((fo = None
             \/ exists f, fo = Some f
                 /\ React.areHookInputsEqual [JS.Num (BoxMesh.shadowOpacity props)]
                      (React.memo_deps (BoxMesh.memo_shadowMaterial f)) = false)
            /\ React.memo_deps cs = [JS.Num (BoxMesh.shadowOpacity props)]
            /\ ((JS.strict_eq (JS.Num (BoxMesh.shadowOpacity props))
                   (JS.Num JS.zero) = true
                 /\ React.memo_value cs = None /\ sext = [])
                \/ (JS.strict_eq (JS.Num (BoxMesh.shadowOpacity props))
                      (JS.Num JS.zero) = false
                    /\ React.memo_value cs = Some (length (Process.objects p2))
                    /\ sext = [Three.fresh
                                 (Three.ShadowMaterial
                                    (BoxMesh.shadowOpacity props) 0 false)])))))
    as (cs & sext & -> & Hs).
  { assert (Hcreate : exists sext,
      BoxMesh.createShadowMaterial (BoxMesh.shadowOpacity props) p2
      = (fst (BoxMesh.createShadowMaterial (BoxMesh.shadowOpacity props) p2),
         {| Process.objects := Process.objects p2 ++ sext;
            Process.boxGeometry := Some g |})
      /\ ((JS.strict_eq (JS.Num (BoxMesh.shadowOpacity props))
                   (JS.Num JS.zero) = true
           /\ fst (BoxMesh.createShadowMaterial (BoxMesh.shadowOpacity props) p2)
              = None /\ sext = [])
          \/ (JS.strict_eq (JS.Num (BoxMesh.shadowOpacity props))
                      (JS.Num JS.zero) = false
              /\ fst (BoxMesh.createShadowMaterial (BoxMesh.shadowOpacity props) p2)
                 = Some (length (Process.objects p2))
              /\ sext = [Three.fresh
                           (Three.ShadowMaterial
                              (BoxMesh.shadowOpacity props) 0 false)]))).
    { destruct (createShadowMaterial_spec (BoxMesh.shadowOpacity props) p2)
        as [[Hz ->]|[Hz ->]].
      - exists []. split; [|left; auto]. simpl. rewrite app_nil_r. reflexivity.
      - eexists. split; [reflexivity|]. right. auto. }
    destruct Hcreate as (sext & Hc & Hcases).
    destruct fo as [f|]; cbn [fmap option_fmap option_map].
    - destruct (React.areHookInputsEqual [JS.Num (BoxMesh.shadowOpacity props)]
                  (React.memo_deps (BoxMesh.memo_shadowMaterial f))) eqn:E.
      + exists (BoxMesh.memo_shadowMaterial f), []. split.
        * rewrite useMemo_hit by exact E. simpl. rewrite app_nil_r. reflexivity.
        * left. exists f. auto.
      + eexists _, sext. split.
        * rewrite useMemo_miss by exact E. rewrite Hc at 2. reflexivity.
        * right. split; [right; eauto|]. split; [reflexivity|]. exact Hcases.
    - eexists _, sext. split.
      + rewrite useMemo_mount. rewrite Hc at 2. reflexivity.
      + right. split; [left; reflexivity|]. split; [reflexivity|]. exact Hcases. }
  subst p2. cbn [Process.objects Process.boxGeometry] in *.
  assert (Hlen : length ((Process.objects p ++ mext) ++ gext)
                 = length (Process.objects p) + length mext + length gext)
    by (rewrite !length_app; reflexivity).
  rewrite Hlen in Hs. clear Hlen.
  assert (Hg' : (Process.boxGeometry p = Some g /\ gext = [])
        \/ (Process.boxGeometry p = None
            /\ g = length (Process.objects p) + length mext
            /\ gext = [Three.fresh (Three.BoxGeometry (JS.num_of_Z 1)
                                      (JS.num_of_Z 1) (JS.num_of_Z 1))])).
  { destruct Hg as [Hg|(Hg1 & Hg2 & Hg3)]; [left; exact Hg|right].
    rewrite length_app in Hg2. auto. }
  clear Hg.
  assert (HgF : Forall (fun r => r = Three.fresh (Three.BoxGeometry
                  (JS.num_of_Z 1) (JS.num_of_Z 1) (JS.num_of_Z 1))) gext)
    by (destruct Hg' as [[_ ->]|(_ & _ & ->)]; repeat constructor).
  assert (HsF : Forall (fun r => r = Three.fresh (Three.ShadowMaterial
                  (BoxMesh.shadowOpacity props) 0 false)) sext).
  { destruct Hs as [(f & _ & _ & _ & ->)|(_ & _ & [(_ & _ & ->)|(_ & _ & ->)])];
      repeat constructor. }
  (* the commit *)
  destruct Hm as [(f & -> & E & -> & ->)|(-> & -> & [->|(f & -> & E)])].
  - (* the material is the cached one: the effect does not run *)
    destruct (Hfo f eq_refl) as (Hd & He & Hlt).
    cbn [fmap option_fmap option_map]. unfold React.commitEffect.
    rewrite He. unfold React.areHookInputsEqual at 1.
    cbn [JS.object_is]. rewrite Nat.eqb_refl. cbn [andb React.ret].
    exists {| BoxMesh.memo_material := BoxMesh.memo_material f;
              BoxMesh.effect_material := BoxMesh.effect_material f;
              BoxMesh.memo_shadowMaterial := cs |},
      g, (Process.objects p), [], gext, sext.
    split; [rewrite app_nil_r, <- app_assoc; reflexivity|].
    cbn [BoxMesh.memo_material BoxMesh.effect_material
         BoxMesh.memo_shadowMaterial].
    repeat split; try assumption.
    left. exists f. auto.
  - (* mount *)
    cbn [fmap option_fmap option_map]. rewrite commitEffect_mount.
    rewrite materialEffect_eq. cbn [fst snd React.memo_value].
    exists (BoxMesh.Build_fiber
               {| React.memo_value := length (Process.objects p);
                  React.memo_deps := BoxMesh.material_deps props |}
               {| React.effect_destroy :=
                    Process.dispose (length (Process.objects p));
                  React.effect_deps := [JS.Ref (length (Process.objects p))] |}
               cs), g, (Process.objects p),
      [Three.fresh (Three.StandardMaterial (BoxMesh.material_deps props))],
      gext, sext.
    split; [rewrite <- !app_assoc; reflexivity|].
    cbn [BoxMesh.memo_material BoxMesh.effect_material
         BoxMesh.memo_shadowMaterial React.effect_destroy React.effect_deps
         React.memo_value].
    repeat split; try assumption.
    right. auto.
  - (* a new material: the clean-up of the previous effect runs *)
    destruct (Hfo f eq_refl) as (Hd & He & Hlt).
    cbn [fmap option_fmap option_map]. unfold React.commitEffect.
    rewrite He. unfold React.areHookInputsEqual at 1.
    cbn [JS.object_is React.memo_value].
    replace (length (Process.objects p)
             =? React.memo_value (BoxMesh.memo_material f)) with false
      by (symmetry; apply Nat.eqb_neq; lia).
    cbn [andb]. unfold React.bind. rewrite Hd.
    unfold Process.dispose at 1. cbn [Process.objects Process.boxGeometry].
    rewrite materialEffect_eq. unfold React.ret.
    exists (BoxMesh.Build_fiber
               {| React.memo_value := length (Process.objects p);
                  React.memo_deps := BoxMesh.material_deps props |}
               {| React.effect_destroy :=
                    Process.dispose (length (Process.objects p));
                  React.effect_deps := [JS.Ref (length (Process.objects p))] |}
               cs), g,
      (Three.dispose (React.memo_value (BoxMesh.memo_material f))
         (Process.objects p)),
      [Three.fresh (Three.StandardMaterial (BoxMesh.material_deps props))],
      gext, sext.
    split.
    { unfold Three.dispose. rewrite <- !app_assoc.
      rewrite alter_app_l by exact Hlt. reflexivity. }
    cbn [BoxMesh.memo_material BoxMesh.effect_material
         BoxMesh.memo_shadowMaterial React.effect_destroy React.effect_deps
         React.memo_value].
    repeat split; try assumption.
    + unfold Three.dispose. apply length_alter.
    + right. split; [reflexivity|]. split; [reflexivity|]. right. eauto.
Qed.

(** The objects a pass adds after the material are not materials. *)
Lemma ext_not_material (x : JS.number) (gext sext : list Three.resource) :
  Forall (fun r => r = Three.fresh (Three.BoxGeometry (JS.num_of_Z 1)
                                      (JS.num_of_Z 1) (JS.num_of_Z 1))) gext ->
  Forall (fun r => r = Three.fresh (Three.ShadowMaterial x 0 false)) sext ->
  Forall (fun r => Three.is_material r = false) (gext ++ sext).
Proof.
  intros Hg Hs. apply Forall_app. split.
  - eapply Forall_impl; [exact Hg|]. intros r ->. reflexivity.
  - eapply Forall_impl; [exact Hs|]. intros r ->. reflexivity.
Qed.

(** The objects a pass adds have not been disposed. *)
Lemma ext_fresh (x : JS.number) (deps : list JS.value)
    (gext sext : list Three.resource) (i : nat) (r : Three.resource) :
  Forall (fun r => r = Three.fresh (Three.BoxGeometry (JS.num_of_Z 1)
                                      (JS.num_of_Z 1) (JS.num_of_Z 1))) gext ->
  Forall (fun r => r = Three.fresh (Three.ShadowMaterial x 0 false)) sext ->
  ([Three.fresh (Three.StandardMaterial deps)] ++ gext ++ sext) !! i = Some r ->
  Three.dispose_calls r = 0.
Proof.
  intros Hg Hs Hl.
  assert (H : Forall (fun r => Three.dispose_calls r = 0)
                ([Three.fresh (Three.StandardMaterial deps)] ++ gext ++ sext)).
  { apply Forall_app. split; [repeat constructor|]. apply Forall_app. split.
    - eapply Forall_impl; [exact Hg|]. intros ? ->. reflexivity.
    - eapply Forall_impl; [exact Hs|]. intros ? ->. reflexivity. }
  rewrite Forall_lookup in H. exact (H _ _ Hl).
Qed.

Lemma live_materials_ext (D ext : list Three.resource) :
  Forall (fun r => Three.is_material r = false) ext ->
  Three.live_materials (D ++ ext) = Three.live_materials D.
Proof.
  intros Hext. unfold Three.live_materials. rewrite count_app.
  rewrite (count_none _ ext); [lia|].
  eapply Forall_impl; [exact Hext|]. intros r Hr. cbn beta. rewrite Hr. reflexivity.
Qed.

Lemma settled_mount props p :
  BoxNode.settled (Process.objects p) props
    (fst (fst (BoxMesh.reconcile None props p)))
    (snd (BoxMesh.reconcile None props p)).
Proof.
  destruct (reconcile_spec None props p) as
    (f' & g & D & mext & gext & sext & Heq & Hd & He & HlenD & Hm & Hg & Hs
     & HgF & HsF).
  { intros f [=]. }
  rewrite Heq. cbn [fst snd].
  destruct Hm as [(f & [=] & _)|(Hcm & -> & [[_ ->]|(f & [=] & _)])].
  pose proof (ext_not_material _ _ _ HgF HsF) as Hext.
  split; cbn [Process.objects].
  - apply take_app_length.
  - rewrite Hcm. cbn [React.memo_value React.memo_deps]. split; [lia|].
    rewrite lookup_app_r by lia. rewrite Nat.sub_diag. reflexivity.
  - exact Hd.
  - exact He.
  - rewrite Hcm. cbn [React.memo_value]. intros a r Hle Hne Hl Hmat.
    exfalso.
    rewrite lookup_app_r in Hl by exact Hle.
    destruct (a - length (Process.objects p)) as [|k] eqn:Ek; [lia|].
    cbn in Hl. rewrite Forall_lookup in Hext. specialize (Hext _ _ Hl).
    cbn beta in Hext. congruence.
  - rewrite Hcm. cbn [React.memo_deps]. split; [|reflexivity].
    apply areHookInputsEqual_refl.
  - rewrite (app_assoc _ [_]). rewrite live_materials_ext by exact Hext.
    unfold Three.live_materials. rewrite count_app. cbn. lia.
  - intros a r Hle Hl _. rewrite lookup_app_r in Hl by exact Hle.
    eapply ext_fresh; [| |exact Hl]; eassumption.
  - destruct Hs as [(f & [=] & _)|(_ & Hdeps & _)]. exact Hdeps.
  - destruct Hs as [(f & [=] & _)|(_ & _ & Hs)].
    destruct Hs as [(Hz & -> & ->)|(Hz & -> & ->)]; [exact Hz|].
    split; [exact Hz|].
    rewrite !app_assoc. rewrite lookup_app_r by (rewrite !length_app; lia).
    rewrite !length_app.
    match goal with |- _ !! ?i = _ => replace i with 0 by lia end.
    reflexivity.
Qed.

Lemma settled_step h0 last f p props :
  BoxNode.settled h0 last f p ->
  BoxNode.settled h0 props
    (fst (fst (BoxMesh.reconcile (Some f) props p)))
    (snd (BoxMesh.reconcile (Some f) props p)).
Proof.
  intros [Hpre [Hn0 Hcur] Hdes Hed Hold [Hdeps Hlen] Hlive Hkept Hsd Hsh].
  pose proof (lookup_lt_Some _ _ _ Hcur) as Hlt.
  destruct (reconcile_spec (Some f) props p) as
    (f' & g & D & mext & gext & sext & Heq & Hd & He & HlenD & Hm & Hg & Hs
     & HgF & HsF).
  { intros ? [= <-]. auto. }
  rewrite Heq. cbn [fst snd].
  pose proof (ext_not_material _ _ _ HgF HsF) as Hext.
  (* the shadow memo, whatever happens to the material *)
  assert (Hshadow :
    React.memo_deps (BoxMesh.memo_shadowMaterial f')
    = [JS.Num (BoxMesh.shadowOpacity props)]
    /\ match React.memo_value (BoxMesh.memo_shadowMaterial f') with
       | Some sm =>
           JS.strict_eq (JS.Num (BoxMesh.shadowOpacity props)) (JS.Num JS.zero)
           = false
           /\ ((sm < length (Process.objects p)
                /\ Process.objects p !! sm
                   = Some (Three.fresh (Three.ShadowMaterial
                                          (BoxMesh.shadowOpacity props) 0 false)))
               \/ (sm = length (Process.objects p) + length mext + length gext
                   /\ sext = [Three.fresh (Three.ShadowMaterial
                                (BoxMesh.shadowOpacity props) 0 false)]))
       | None =>
           JS.strict_eq (JS.Num (BoxMesh.shadowOpacity props)) (JS.Num JS.zero)
           = true
       end).
  { destruct Hs as [(f0 & [= <-] & E & -> & ->)|(_ & Hdeps' & Hs)].
    - rewrite Hsd in E. unfold React.areHookInputsEqual in E.
      cbn [JS.object_is] in E. rewrite andb_true_r in E.
      apply same_number_eq in E. rewrite <- E in Hsd, Hsh.
      split; [exact Hsd|].
      destruct (React.memo_value (BoxMesh.memo_shadowMaterial f)) as [sm|];
        [|exact Hsh].
      destruct Hsh as [Hz Hl]. split; [exact Hz|]. left.
      split; [eapply lookup_lt_Some; exact Hl|]. exact Hl.
    - split; [exact Hdeps'|].
      destruct Hs as [(Hz & -> & ->)|(Hz & -> & ->)]; [exact Hz|].
      split; [exact Hz|]. right. auto. }
  destruct Hshadow as [Hsd' Hsh'].
  assert (Hshadow_final :
    forall D', length D' = length (Process.objects p) ->
      (forall a, a <> React.memo_value (BoxMesh.memo_material f) ->
                 D' !! a = Process.objects p !! a) ->
      match React.memo_value (BoxMesh.memo_shadowMaterial f') with
      | Some sm =>
          JS.strict_eq (JS.Num (BoxMesh.shadowOpacity props)) (JS.Num JS.zero)
          = false /\
          (D' ++ mext ++ gext ++ sext) !! sm
          = Some (Three.fresh (Three.ShadowMaterial
                                 (BoxMesh.shadowOpacity props) 0 false))
      | None =>
          JS.strict_eq (JS.Num (BoxMesh.shadowOpacity props)) (JS.Num JS.zero)
          = true
      end).
  { intros D' HlD' Hsame.
    destruct (React.memo_value (BoxMesh.memo_shadowMaterial f')) as [sm|];
      [|exact Hsh'].
    destruct Hsh' as [Hz [[Hsm Hl]|[-> ->]]]; (split; [exact Hz|]).
    - rewrite lookup_app_l by lia. rewrite Hsame; [exact Hl|].
      intros ->. rewrite Hcur in Hl. discriminate.
    - rewrite !app_assoc. rewrite lookup_app_r by (rewrite !length_app; lia).
      rewrite !length_app.
      match goal with |- _ !! ?i = _ => replace i with 0 by lia end.
      reflexivity. }
  destruct Hm as [(f0 & [= <-] & E & Hcm & -> & ->)
                 |(Hcm & -> & [[[=] _]|(f0 & [= <-] & E & ->)])].
  - (* same signature: the cached material stays *)
    split; cbn [Process.objects app].
    + rewrite take_app_le by lia. exact Hpre.
    + rewrite Hcm. split; [exact Hn0|]. apply lookup_app_l_Some. exact Hcur.
    + exact Hd.
    + exact He.
    + rewrite Hcm. intros a r Hle Hne Hl Hmat.
      destruct (decide (a < length (Process.objects p))) as [Ha|Ha].
      * rewrite lookup_app_l in Hl by exact Ha. eapply Hold; eauto.
      * exfalso. rewrite lookup_app_r in Hl by lia.
        rewrite Forall_lookup in Hext. specialize (Hext _ _ Hl).
        cbn beta in Hext. congruence.
    + rewrite Hcm. split; [|exact Hlen]. exact E.
    + rewrite live_materials_ext by exact Hext. exact Hlive.
    + intros a r Hle Hl Hk.
      destruct (decide (a < length (Process.objects p))) as [Ha|Ha].
      * rewrite lookup_app_l in Hl by exact Ha. eapply Hkept; eauto.
      * rewrite lookup_app_r in Hl by lia.
        assert (H : Forall (fun r => Three.dispose_calls r = 0) (gext ++ sext)).
        { apply Forall_app. split.
          - eapply Forall_impl; [exact HgF|]. intros ? ->. reflexivity.
          - eapply Forall_impl; [exact HsF|]. intros ? ->. reflexivity. }
        rewrite Forall_lookup in H. exact (H _ _ Hl).
    + exact Hsd'.
    + apply (Hshadow_final (Process.objects p)); auto.
  - (* new signature: a new material, the previous one is disposed *)
    assert (HD : forall a, a <> React.memo_value (BoxMesh.memo_material f) ->
               Three.dispose (React.memo_value (BoxMesh.memo_material f))
                 (Process.objects p) !! a = Process.objects p !! a).
    { intros a Ha. unfold Three.dispose. apply list_lookup_alter_ne. congruence. }
    split; cbn [Process.objects].
    + rewrite take_app_le by lia. unfold Three.dispose.
      rewrite take_alter_ge by exact Hn0. exact Hpre.
    + rewrite Hcm. cbn [React.memo_value React.memo_deps]. split; [lia|].
      rewrite lookup_app_r by lia. rewrite HlenD, Nat.sub_diag. reflexivity.
    + exact Hd.
    + exact He.
    + rewrite Hcm. cbn [React.memo_value]. intros a r Hle Hne Hl Hmat.
      destruct (decide (a < length (Process.objects p))) as [Ha|Ha].
      * rewrite lookup_app_l in Hl by lia.
        destruct (decide (a = React.memo_value (BoxMesh.memo_material f)))
          as [->|Hne'].
        -- unfold Three.dispose in Hl. rewrite list_lookup_alter_eq, Hcur in Hl.
           injection Hl as <-. reflexivity.
        -- rewrite HD in Hl by exact Hne'. eapply Hold; eauto.
      * exfalso. rewrite lookup_app_r in Hl by lia.
        destruct (a - length _) as [|k] eqn:Ek; [lia|].
        cbn in Hl. rewrite Forall_lookup in Hext. specialize (Hext _ _ Hl).
        cbn beta in Hext. congruence.
    + rewrite Hcm. cbn [React.memo_deps]. split; [|reflexivity].
      apply areHookInputsEqual_refl.
    + rewrite (app_assoc _ [_]). rewrite live_materials_ext by exact Hext.
      unfold Three.live_materials in *. rewrite count_app.
      pose proof (count_alter (fun r => Three.is_material r && Three.live r)
                    Three.disposed _ _ _ Hcur) as Hc.
      cbn in Hc. unfold Three.dispose. cbn. lia.
    + intros a r Hle Hl Hk.
      destruct (decide (a < length (Process.objects p))) as [Ha|Ha].
      * rewrite lookup_app_l in Hl by lia.
        destruct (decide (a = React.memo_value (BoxMesh.memo_material f)))
          as [->|Hne'].
        -- unfold Three.dispose in Hl. rewrite list_lookup_alter_eq, Hcur in Hl.
           injection Hl as <-. discriminate Hk.
        -- rewrite HD in Hl by exact Hne'. eapply Hkept; eauto.
      * rewrite lookup_app_r in Hl by lia. rewrite HlenD in Hl.
        eapply ext_fresh; [| |exact Hl]; eassumption.
    + exact Hsd'.
    + apply Hshadow_final; auto.
Qed.

Lemma last_cons {A} (a : A) (l : list A) (d : A) :
  List.last (a :: l) d = List.last l a.
Proof.
  revert a d. induction l as [|b l IH]; intros a d; [reflexivity|].
  change (List.last (a :: b :: l) d) with (List.last (b :: l) d).
  rewrite (IH b d), (IH b a). reflexivity.
Qed.

Lemma settled_updates h0 last f p us :
  BoxNode.settled h0 last f p ->
  BoxNode.settled h0 (List.last us last)
    (fst (BoxMesh.updates f us p)) (snd (BoxMesh.updates f us p)).
Proof.
  revert last f p. induction us as [|props us IH]; intros last f p H.
  - exact H.
  - cbn [BoxMesh.updates]. unfold React.bind.
    pose proof (settled_step _ _ _ _ props H) as H'.
    destruct (BoxMesh.reconcile (Some f) props p) as [[f1 el] p1].
    cbn [fst snd] in *. rewrite last_cons. apply IH. exact H'.
Qed.

Lemma settled_lifetime props0 us p :
  BoxNode.settled (Process.objects p) (List.last us props0)
    (fst (BoxMesh.lifetime props0 us p)) (snd (BoxMesh.lifetime props0 us p)).
Proof.
  unfold BoxMesh.lifetime, React.bind.
  pose proof (settled_mount props0 p) as H.
  destruct (BoxMesh.reconcile None props0 p) as [[f el] p1]. cbn [fst snd] in *.
  apply settled_updates. exact H.
Qed.

(** ** Resource conservation of the material of a box node *)

Lemma live_materials_owned (h0 h : list Three.resource) :
  take (length h0) h = h0 ->
  Three.live_materials h
  = Three.live_materials h0 + Three.live_materials (drop (length h0) h).
Proof.
  intros Hpre. rewrite <- (take_drop (length h0) h) at 1. rewrite Hpre.
  unfold Three.live_materials. apply count_app.
Qed.

(** C1: after the mount of a box node and any sequence of updates, each a
    settled pass, exactly one material constructed for the node is live (the
    cached one) and every other material constructed for it has had
    [dispose()] called exactly once; after the unmount none is live and each
    has been disposed exactly once. *)
Theorem material_conservation (p0 : Process.process)
    (props0 : BoxMesh.BoxProps) (us : list BoxMesh.BoxProps) :
  let f := fst (BoxMesh.lifetime props0 us p0) in
  let p := snd (BoxMesh.lifetime props0 us p0) in
  let m := React.memo_value (BoxMesh.memo_material f) in
  let n0 := length (Process.objects p0) in
  Three.live_materials (BoxNode.owned p0 p) = 1
  /\ (forall a r,
        BoxNode.owned p0 p !! a = Some r -> Three.is_material r = true ->
        Three.dispose_calls r = if decide (n0 + a = m) then 0 else 1)
  /\ (let p' := snd (BoxMesh.unmount f p) in
      Three.live_materials (BoxNode.owned p0 p') = 0
      /\ forall a r,
           BoxNode.owned p0 p' !! a = Some r -> Three.is_material r = true ->
           Three.dispose_calls r = 1).
Proof.
  intros f p m n0.
  destruct (settled_lifetime props0 us p0)
    as [Hpre [Hn0 Hcur] Hdes _ Hold _ Hlive _ _ _].
  fold f p m n0 in Hpre, Hn0, Hcur, Hdes, Hold, Hlive.
  unfold BoxNode.owned. fold n0.
  pose proof (live_materials_owned _ _ Hpre) as Hsplit. fold n0 in Hsplit.
  split; [lia|]. split.
  - intros a r Hl Hmat. rewrite lookup_drop in Hl. case_decide as Ha.
    + rewrite Ha, Hcur in Hl. injection Hl as <-. reflexivity.
    + eapply Hold; [| |exact Hl|exact Hmat]; lia.
  - cbn zeta. unfold BoxMesh.unmount. rewrite Hdes.
    unfold Process.dispose. cbn [snd Process.objects].
    split.
    + assert (Hpre' : take (length (Process.objects p0))
                        (Three.dispose m (Process.objects p))
                      = Process.objects p0).
      { unfold Three.dispose. rewrite take_alter_ge by exact Hn0. exact Hpre. }
      pose proof (live_materials_owned _ _ Hpre') as Hsplit'.
      pose proof (count_alter (fun r => Three.is_material r && Three.live r)
                    Three.disposed _ _ _ Hcur) as Hc.
      cbn in Hc. unfold Three.live_materials in *. unfold Three.dispose in *.
      fold n0 in Hsplit'. lia.
    + intros a r Hl Hmat. rewrite lookup_drop in Hl. unfold Three.dispose in Hl.
      destruct (decide (n0 + a = m)) as [Ha|Ha].
      * rewrite Ha, list_lookup_alter_eq, Hcur in Hl. injection Hl as <-.
        reflexivity.
      * rewrite list_lookup_alter_ne in Hl by congruence.
        eapply Hold; [| |exact Hl|exact Hmat]; lia.
Qed.

(** ** The material memo *)

Lemma count_dispose (P : Three.resource -> bool) (a : nat)
    (h : list Three.resource) :
  (forall r, P (Three.disposed r) = P r) ->
  Three.count P (Three.dispose a h) = Three.count P h.
Proof.
  intros HP. unfold Three.dispose. revert a.
  induction h as [|x h IH]; intros [|a]; cbn; try reflexivity.
  - rewrite HP. reflexivity.
  - change (list_alter Three.disposed a h) with (alter Three.disposed a h).
    rewrite IH. reflexivity.
Qed.





(** ** Shadows of a box *)

Lemma strict_eq_true (v : JS.value) :
  JS.strict_eq v (JS.Bool true) = true <-> v = JS.Bool true.
Proof.
  split.
  - destruct v as [| |[|]| | | |]; cbn; try discriminate. reflexivity.
  - intros ->. reflexivity.
Qed.

Lemma shadowOpacity_number (props : BoxMesh.BoxProps) (x : JS.number) :
  BoxMesh.receive_shadow props = JS.Num x -> BoxMesh.shadowOpacity props = x.
Proof. unfold BoxMesh.shadowOpacity. intros ->. reflexivity. Qed.

Lemma shadowOpacity_other (props : BoxMesh.BoxProps) :
  (forall x, BoxMesh.receive_shadow props <> JS.Num x) ->
  BoxMesh.shadowOpacity props = JS.zero.
Proof.
  unfold BoxMesh.shadowOpacity. intros H.
  destruct (BoxMesh.receive_shadow props); try reflexivity.
  exfalso. eapply H. reflexivity.
Qed.

Lemma shadow_contract_settled h0 props f p g :
  BoxNode.settled h0 props f p ->
  BoxNode.shadow_contract props
    (BoxMesh.jsx props g (React.memo_value (BoxMesh.memo_material f))
       (React.memo_value (BoxMesh.memo_shadowMaterial f))) p.
Proof.
  intros [_ _ _ _ _ _ _ _ _ Hsh].
  unfold BoxNode.shadow_contract.
  cbn [BoxMesh.jsx BoxMesh.el_receiveShadow BoxMesh.el_shadow
       BoxMesh.el_geometry].
  split; [apply strict_eq_true|]. split; [|split].
  - intros x Hx Hgt. rewrite (shadowOpacity_number _ _ Hx) in *.
    pose proof (num_gt_zero_not_zero _ Hgt) as Hnz.
    destruct (React.memo_value (BoxMesh.memo_shadowMaterial f)) as [sm|].
    + destruct Hsh as [_ Hl]. exists sm. rewrite Hgt. auto.
    + congruence.
  - intros Hne.
    destruct (React.memo_value (BoxMesh.memo_shadowMaterial f)) as [sm|];
      [|congruence].
    destruct (JS.num_gt (BoxMesh.shadowOpacity props) JS.zero) eqn:Hgt;
      [|congruence].
    destruct (BoxMesh.receive_shadow props) as [| | |x| | |] eqn:Hr;
      try (rewrite shadowOpacity_other in Hgt
             by (intros y; rewrite Hr; discriminate);
           discriminate Hgt).
    exists x. rewrite (shadowOpacity_number _ _ Hr) in Hgt. auto.
  - intros Hnot. pose proof (shadowOpacity_other _ Hnot) as Hz.
    split; [exact Hz|]. rewrite Hz.
    destruct (React.memo_value (BoxMesh.memo_shadowMaterial f)); reflexivity.
Qed.

(** C10: in every pass of a box node, the mount as well as an update after
    any history, the primary mesh has [receiveShadow] exactly when
    [receive_shadow] is the boolean [true]; the shadow sub-mesh is rendered
    exactly when [receive_shadow] is a number greater than 0, with a
    ShadowMaterial of that opacity; and when [receive_shadow] is not a number
    [shadowOpacity] is 0 and there is no shadow sub-mesh. *)
Theorem receive_shadow_rendering (p0 : Process.process)
    (props0 : BoxMesh.BoxProps) (us : list BoxMesh.BoxProps)
    (props : BoxMesh.BoxProps) :
  (let R := BoxMesh.reconcile None props p0 in
   BoxNode.shadow_contract props (snd (fst R)) (snd R))
  /\ (let f := fst (BoxMesh.lifetime props0 us p0) in
      let p := snd (BoxMesh.lifetime props0 us p0) in
      let R := BoxMesh.reconcile (Some f) props p in
      BoxNode.shadow_contract props (snd (fst R)) (snd R)).
Proof.
  split.
  - cbn zeta. pose proof (settled_mount props p0) as Hst.
    destruct (reconcile_spec None props p0) as
      (f' & g & D & mext & gext & sext & Heq & _).
    { intros f [=]. }
    rewrite Heq in *. cbn [fst snd] in *.
    eapply shadow_contract_settled. exact Hst.
  - cbn zeta.
    pose proof (settled_lifetime props0 us p0) as Hst0.
    pose proof (settled_step _ _ _ _ props Hst0) as Hst.
    destruct Hst0 as [_ [_ Hcur] Hdes Hed _ _ _ _ _ _].
    destruct (reconcile_spec (Some (fst (BoxMesh.lifetime props0 us p0))) props
                (snd (BoxMesh.lifetime props0 us p0))) as
      (f' & g & D & mext & gext & sext & Heq & _).
    { intros ? [= <-]. split; [exact Hdes|]. split; [exact Hed|].
      eapply lookup_lt_Some. exact Hcur. }
    rewrite Heq in *. cbn [fst snd] in *.
    eapply shadow_contract_settled. exact Hst.
Qed.

(** ** The shadow material of a box node *)

(** No pass and no unmount of a box node calls [dispose()] on a shadow
    material: the component has no clean-up for it. *)
Lemma shadow_materials_never_disposed (p0 : Process.process)
    (props0 : BoxMesh.BoxProps) (us : list BoxMesh.BoxProps) :
  let f := fst (BoxMesh.lifetime props0 us p0) in
  let p := snd (BoxMesh.lifetime props0 us p0) in
  let p' := snd (BoxMesh.unmount f p) in
  forall a r,
    BoxNode.owned p0 p' !! a = Some r -> Three.is_shadow_material r = true ->
    Three.dispose_calls r = 0.
Proof.
  intros f p p' a r Hl Hk.
  destruct (settled_lifetime props0 us p0)
    as [_ [_ Hcur] Hdes _ _ _ _ Hkept _ _].
  fold f p in Hcur, Hdes, Hkept.
  unfold BoxNode.owned in Hl. rewrite lookup_drop in Hl.
  subst p'. unfold BoxMesh.unmount in Hl. rewrite Hdes in Hl.
  unfold Process.dispose, Three.dispose in Hl. cbn [snd Process.objects] in Hl.
  destruct (decide (length (Process.objects p0) + a
                    = React.memo_value (BoxMesh.memo_material f))) as [Ha|Ha].
  - rewrite Ha, list_lookup_alter_eq, Hcur in Hl. injection Hl as <-.
    discriminate Hk.
  - rewrite list_lookup_alter_ne in Hl by congruence.
    eapply Hkept; [|exact Hl|exact Hk]. lia.
Qed.

(** C6, on the code: a box is mounted with [receive_shadow = 0.5] and then
    updated to [receive_shadow = 0].  The shadow material constructed at the
    mount (object 2, after the material and the box geometry) is no longer
    held by the memo, yet [dispose()] has never been called on it, neither
    by the update nor by the unmount that follows.  The same holds when the
    opacity changes to another positive value, and when the node is removed
    while it holds a shadow material. *)
Theorem shadow_material_left_undisposed :
  let stale := Some (Three.fresh (Three.ShadowMaterial Sample.half 0 false)) in
  (let r := BoxMesh.lifetime (Sample.box (JS.Num Sample.half))
              [Sample.box (JS.Num JS.zero)] Process.initial in
   React.memo_value (BoxMesh.memo_shadowMaterial (fst r)) = None
   /\ Process.objects (snd r) !! 2 = stale
   /\ Process.objects (snd (BoxMesh.unmount (fst r) (snd r))) !! 2 = stale)
  /\ (let r := BoxMesh.lifetime (Sample.box (JS.Num Sample.half))
                 [Sample.box (JS.Num Sample.quarter)] Process.initial in
      React.memo_value (BoxMesh.memo_shadowMaterial (fst r)) = Some 3
      /\ Process.objects (snd r) !! 2 = stale
      /\ Process.objects (snd (BoxMesh.unmount (fst r) (snd r))) !! 2 = stale)
  /\ (let r := BoxMesh.lifetime (Sample.box (JS.Num Sample.half)) []
                 Process.initial in
      React.memo_value (BoxMesh.memo_shadowMaterial (fst r)) = Some 2
      /\ Process.objects (snd (BoxMesh.unmount (fst r) (snd r))) !! 2 = stale).
Proof. vm_compute. repeat split. Qed.

(** ** The environment store *)

Lemma setState_length (a : nat) (upd : Environment.partial)
    (w : list Environment.EnvironmentState) :
  length (snd (Environment.setState a upd w)) = length w.
Proof. cbn. apply length_alter. Qed.

Lemma mutate_length (ups : list (nat * Environment.partial))
    (w : list Environment.EnvironmentState) :
  length (snd (Environment.mutate ups w)) = length w.
Proof.
  revert w. induction ups as [|[a upd] ups IH]; intros w; [reflexivity|].
  cbn [Environment.mutate]. unfold React.bind.
  pose proof (setState_length a upd w) as Hl.
  destruct (Environment.setState a upd w) as [[] w1]. cbn [snd] in Hl.
  rewrite IH. exact Hl.
Qed.

Lemma setState_other (a b : nat) (upd : Environment.partial)
    (w : list Environment.EnvironmentState) :
  a <> b ->
  Environment.getState b (snd (Environment.setState a upd w))
  = Environment.getState b w.
Proof.
  intros Hne. unfold Environment.getState. cbn.
  apply list_lookup_alter_ne. exact Hne.
Qed.

(** C8: every first render of a viewer creates a store of its own, holding
    the initial state; later renders of the viewer return the same store and
    create none; two viewers, mounted at any two moments of a process, get
    different stores, and a [setState] on the store of one returns the state
    of the other as it was. *)
Theorem environment_store_per_viewer
    (w : list Environment.EnvironmentState)
    (between : list (nat * Environment.partial)) (upd : Environment.partial) :
  let r1 := Environment.useEnvironmentState None w in
  let w1 := snd (Environment.mutate between (snd r1)) in
  let r2 := Environment.useEnvironmentState None w1 in
  let a := fst r1 in
  let b := fst r2 in
  let w2 := snd r2 in
  a <> b
  /\ Environment.getState a (snd r1) = Some Environment.initialState
  /\ Environment.getState b w2 = Some Environment.initialState
  /\ Environment.useEnvironmentState (Some a) w2 = (a, w2)
  /\ Environment.useEnvironmentState (Some b) w2 = (b, w2)
  /\ Environment.getState b (snd (Environment.setState a upd w2))
     = Environment.getState b w2
  /\ Environment.getState a (snd (Environment.setState b upd w2))
     = Environment.getState a w2.
Proof.
  intros r1 w1 r2 a b w2.
  assert (Ha : a = length w) by reflexivity.
  assert (Hb : b = length w1) by reflexivity.
  assert (Hw1 : length w1 = S (length w)).
  { subst w1. rewrite mutate_length. cbn. rewrite length_app. cbn. lia. }
  assert (Hne : a <> b) by lia.
  split; [exact Hne|]. split; [|split; [|split; [|split; [|split]]]].
  - unfold Environment.getState. cbn. rewrite lookup_app_r by lia.
    rewrite Nat.sub_diag. reflexivity.
  - unfold Environment.getState. cbn. rewrite lookup_app_r by lia.
    rewrite Nat.sub_diag. reflexivity.
  - reflexivity.
  - reflexivity.
  - apply setState_other. exact Hne.
  - apply setState_other. congruence.
Qed.

(** C9: [setState({fog: f})] records [f] as it is, whatever its [near],
    [far], [color] and [enabled] are, and leaves the rest of the state
    alone; nothing is checked, reordered or rejected.  In particular a fog
    with [near = 50 >= far = 10] is stored unchanged in a new store. *)
Theorem fog_recorded_unchanged
    (w : list Environment.EnvironmentState) (a : nat)
    (f : Environment.FogMessage) :
  Environment.getState a (snd (Environment.setState a (Environment.fog_update f) w))
  = Environment.with_fog f <$> Environment.getState a w
  /\ (let degenerate :=
        {| Environment.fog_type := "FogMessage";
           Environment.near := JS.num_of_Z 50;
           Environment.far := JS.num_of_Z 10;
           Environment.fog_color := [JS.num_of_Z 0; JS.num_of_Z 0; JS.num_of_Z 0];
           Environment.enabled := true |} in
      let r := Environment.useEnvironmentState None w in
      Environment.fog
        <$> Environment.getState (fst r)
              (snd (Environment.setState (fst r)
                      (Environment.fog_update degenerate) (snd r)))
      = Some degenerate).
Proof.
  split.
  - unfold Environment.getState. cbn. rewrite list_lookup_alter_eq.
    destruct (w !! a); reflexivity.
  - cbn zeta. unfold Environment.getState. cbn.
    rewrite list_lookup_alter_eq. rewrite lookup_app_r by lia.
    rewrite Nat.sub_diag. reflexivity.
Qed.

(** ** The shared box geometry *)

Lemma count_is_geometry_ext (D mext sext : list Three.resource) (x : JS.number)
    (deps : list JS.value) (gext : list Three.resource) :
  mext = [] \/ mext = [Three.fresh (Three.StandardMaterial deps)] ->
  Forall (fun r => r = Three.fresh (Three.ShadowMaterial x 0 false)) sext ->
  Three.count Three.is_geometry (D ++ mext ++ gext ++ sext)
  = Three.count Three.is_geometry D + Three.count Three.is_geometry gext.
Proof.
  intros Hm Hs. rewrite !count_app.
  rewrite (count_none _ sext)
    by (eapply Forall_impl; [exact Hs|]; intros ? ->; reflexivity).
  destruct Hm as [->| ->]; cbn; lia.
Qed.

Lemma is_material_disposed_lookup (h : list Three.resource) (m a : nat)
    (r : Three.resource) :
  h !! a = Some r -> Three.is_material r = true ->
  exists r', Three.dispose m h !! a = Some r' /\ Three.is_material r' = true.
Proof.
  intros Hl Hm. unfold Three.dispose. rewrite list_lookup_alter.
  case_decide; subst; rewrite Hl; cbn; eauto.
Qed.

Lemma well_formed_step (s : Scene.state) (ev : Scene.event) :
  Scene.well_formed s ->
  Scene.well_formed (fst (Scene.step s ev))
  /\ (forall g, Process.boxGeometry (Scene.proc s) = Some g ->
                Process.boxGeometry (Scene.proc (fst (Scene.step s ev))) = Some g)
  /\ (forall el, snd (Scene.step s ev) = Some el ->
        Scene.uses_geometry
          (Process.boxGeometry (Scene.proc (fst (Scene.step s ev)))) el
        /\ exists g, Process.boxGeometry (Scene.proc (fst (Scene.step s ev)))
                     = Some g).
Proof.
  intros [Hgeo Hfib]. destruct s as [fs p]. cbn [Scene.proc Scene.fibers] in *.
  destruct ev as [id props|id]; cbn [Scene.step Scene.fibers Scene.proc].
  - (* a node is rendered *)
    destruct (reconcile_spec (fs !! id) props p) as
      (f' & g & D & mext & gext & sext & Heq & Hd & He & HlenD & Hm & Hg & Hs
       & HgF & HsF).
    { intros f Hf. destruct (Hfib _ _ Hf) as (H1 & H2 & r & Hl & _).
      split; [exact H1|]. split; [exact H2|]. eapply lookup_lt_Some. exact Hl. }
    rewrite Heq. cbn [fst snd Scene.proc Scene.fibers].
    (* what the commit does to the objects that were there *)
    assert (HD : Three.count Three.is_geometry D
                 = Three.count Three.is_geometry (Process.objects p)
                 /\ (forall a r, Process.objects p !! a = Some r ->
                       Three.is_material r = false -> D !! a = Some r)
                 /\ (forall a r, Process.objects p !! a = Some r ->
                       Three.is_material r = true ->
                       exists r', D !! a = Some r' /\ Three.is_material r' = true)
                 /\ (mext = [] \/
                     mext = [Three.fresh (Three.StandardMaterial
                                            (BoxMesh.material_deps props))])).
    { destruct Hm as [(f0 & Hf0 & E & Hcm & -> & ->)
                     |(Hcm & -> & [[Hf0 ->]|(f0 & Hf0 & E & ->)])];
        try (split; [reflexivity|]; split; [auto|]; split; [eauto|]; auto).
      split; [apply count_dispose; reflexivity|]. split; [|split; [|auto]].
      - intros a r Hl Hnm. unfold Three.dispose. rewrite list_lookup_alter.
        case_decide as Ha; [|exact Hl]. subst a. exfalso.
        destruct (Hfib _ _ Hf0) as (_ & _ & r0 & Hl0 & Hm0). congruence.
      - intros a r Hl Hmat. eapply is_material_disposed_lookup; eauto. }
    destruct HD as (HDc & HDk & HDm & Hmext).
    split; [split|split].
    + (* the geometry *)
      unfold Scene.geometry_shared in *.
      cbn [Scene.proc Process.boxGeometry Process.objects].
      rewrite (count_is_geometry_ext _ _ _ _ _ _ Hmext HsF), HDc.
      destruct Hg as [[Hbg ->]|(Hbg & -> & ->)]; rewrite Hbg in Hgeo.
      * destruct Hgeo as [Hc Hl]. split; [cbn; lia|].
        apply lookup_app_l_Some. apply HDk; [exact Hl|reflexivity].
      * split; [cbn; lia|].
        rewrite app_assoc. rewrite lookup_app_r by (rewrite length_app; lia).
        rewrite length_app, HlenD, Nat.sub_diag. reflexivity.
    + (* the fibers *)
      intros id' f Hf. unfold Scene.fiber_ok.
      cbn [Scene.proc Scene.fibers Process.objects] in *.
      destruct (decide (id = id')) as [<-|Hne].
      * rewrite lookup_insert_eq in Hf. injection Hf as <-.
        split; [exact Hd|]. split; [exact He|].
        destruct Hm as [(f0 & Hf0 & E & Hcm & -> & ->)
                       |(Hcm & -> & _)]; rewrite Hcm.
        -- destruct (Hfib _ _ Hf0) as (_ & _ & r & Hl & Hmat).
           exists r. split; [|exact Hmat]. apply lookup_app_l_Some. exact Hl.
        -- cbn [React.memo_value]. eexists. split.
           ++ rewrite lookup_app_r by lia. rewrite HlenD, Nat.sub_diag.
              reflexivity.
           ++ reflexivity.
      * rewrite lookup_insert_ne in Hf by exact Hne.
        destruct (Hfib _ _ Hf) as (H1 & H2 & r & Hl & Hmat).
        split; [exact H1|]. split; [exact H2|].
        destruct (HDm _ _ Hl Hmat) as (r' & Hl' & Hmat').
        exists r'. split; [|exact Hmat']. apply lookup_app_l_Some. exact Hl'.
    + intros g0 Hg0. cbn [Scene.proc Process.boxGeometry].
      destruct Hg as [[Hbg _]|(Hbg & _)]; congruence.
    + intros el [= <-]. cbn [Scene.proc Process.boxGeometry]. split; [|eauto].
      split; [reflexivity|]. intros sm. cbn [BoxMesh.jsx BoxMesh.el_shadow].
      destruct (React.memo_value (BoxMesh.memo_shadowMaterial f'));
        [|discriminate].
      destruct (JS.num_gt _ _); [|discriminate]. intros [= <-]. reflexivity.
  - (* a node is removed *)
    destruct (fs !! id) as [f|] eqn:Hf; cbn [fst snd Scene.proc Scene.fibers].
    + destruct (Hfib _ _ Hf) as (Hd & _ & r & Hl & Hmat).
      unfold BoxMesh.unmount. rewrite Hd. unfold Process.dispose.
      cbn [fst snd Scene.proc Scene.fibers].
      split; [split|split].
      * unfold Scene.geometry_shared in *.
        cbn [Scene.proc Process.boxGeometry Process.objects].
        rewrite count_dispose by reflexivity.
        destruct (Process.boxGeometry p) as [g|]; [|exact Hgeo].
        destruct Hgeo as [Hc Hg]. split; [exact Hc|].
        unfold Three.dispose. rewrite list_lookup_alter_ne; [exact Hg|].
        intros <-. rewrite Hl in Hg. injection Hg as ->. discriminate Hmat.
      * intros id' f0 Hf0. cbn [Scene.proc Scene.fibers] in *.
        apply lookup_delete_Some in Hf0 as [_ Hf0].
        destruct (Hfib _ _ Hf0) as (H1 & H2 & r0 & Hl0 & Hmat0).
        split; [exact H1|]. split; [exact H2|].
        eapply is_material_disposed_lookup; eauto.
      * auto.
      * intros el [=].
    + split; [split; assumption|]. split; [auto|]. intros el [=].
Qed.

Lemma count_zero_lookup (P : Three.resource -> bool) (l : list Three.resource)
    (a : nat) (r : Three.resource) :
  Three.count P l = 0 -> l !! a = Some r -> P r = false.
Proof.
  revert a. induction l as [|x l IH]; intros a Hc Hl; [discriminate|].
  cbn in Hc. destruct (P x) eqn:Hx; [discriminate|].
  destruct a as [|a]; cbn in Hl.
  - congruence.
  - eapply IH; eauto.
Qed.

Lemma count_one_unique (P : Three.resource -> bool) (l : list Three.resource)
    (g a : nat) (r r' : Three.resource) :
  Three.count P l = 1 ->
  l !! g = Some r -> P r = true -> l !! a = Some r' -> P r' = true -> a = g.
Proof.
  revert g a. induction l as [|x l IH]; intros g a Hc Hg Hr Ha Hr';
    [discriminate|].
  cbn in Hc. destruct (P x) eqn:Hx.
  - assert (Hz : Three.count P l = 0) by lia.
    destruct g as [|g], a as [|a]; cbn in Hg, Ha; try reflexivity.
    + pose proof (count_zero_lookup _ _ _ _ Hz Ha). congruence.
    + pose proof (count_zero_lookup _ _ _ _ Hz Hg). congruence.
    + pose proof (count_zero_lookup _ _ _ _ Hz Hg). congruence.
  - destruct g as [|g], a as [|a]; cbn in Hg, Ha; try congruence.
    f_equal. eapply IH; eauto.
Qed.

Lemma step_without_render (s : Scene.state) (ev : Scene.event) :
  Scene.well_formed s ->
  snd (Scene.step s ev) = None ->
  Process.boxGeometry (Scene.proc (fst (Scene.step s ev)))
  = Process.boxGeometry (Scene.proc s).
Proof.
  intros [_ Hfib]. destruct ev as [id props|id]; cbn [Scene.step].
  - destruct (BoxMesh.reconcile _ _ _) as [[f el] p]. discriminate.
  - destruct (Scene.fibers s !! id) as [f|] eqn:Hf; [|reflexivity].
    destruct (Hfib _ _ Hf) as (Hd & _).
    unfold BoxMesh.unmount. rewrite Hd. reflexivity.
Qed.

Lemma well_formed_initial : Scene.well_formed Scene.initial.
Proof.
  split; [reflexivity|]. intros id f Hf. cbn in Hf.
  rewrite lookup_empty in Hf. discriminate.
Qed.

Lemma well_formed_run (s : Scene.state) (evs : list Scene.event) :
  Scene.well_formed s ->
  let s' := fst (Scene.run s evs) in
  let els := snd (Scene.run s evs) in
  Scene.well_formed s'
  /\ (forall g, Process.boxGeometry (Scene.proc s) = Some g ->
                Process.boxGeometry (Scene.proc s') = Some g)
  /\ Forall (Scene.uses_geometry (Process.boxGeometry (Scene.proc s'))) els
  /\ match els with
     | [] => Process.boxGeometry (Scene.proc s')
             = Process.boxGeometry (Scene.proc s)
     | _ :: _ => exists g, Process.boxGeometry (Scene.proc s') = Some g
     end.
Proof.
  revert s. induction evs as [|ev evs IH]; intros s Hwf.
  - cbn. auto.
  - cbn [Scene.run].
    destruct (well_formed_step s ev Hwf) as (Hwf1 & Hkeep1 & Hel1).
    pose proof (step_without_render s ev Hwf) as Hidle.
    destruct (Scene.step s ev) as [s1 o]. cbn [fst snd] in *.
    specialize (IH s1 Hwf1). cbn zeta in IH.
    destruct (Scene.run s1 evs) as [s2 els]. cbn [fst snd] in *.
    destruct IH as (Hwf2 & Hkeep2 & Hall & Hels).
    split; [exact Hwf2|]. split; [auto|].
    destruct o as [el|].
    + destruct (Hel1 el eq_refl) as [Huse [g Hg]].
      rewrite Hg in Huse. rewrite (Hkeep2 _ Hg). split; [|eauto].
      constructor; [exact Huse|]. rewrite <- (Hkeep2 _ Hg). exact Hall.
    + split; [exact Hall|]. destruct els; [|exact Hels].
      rewrite Hels. apply Hidle. reflexivity.
Qed.

(** C7: in any run of a process, whatever box nodes are rendered and
    removed, at most one box geometry exists; none exists before the first
    render of a BoxMesh, and from that render on the module variable refers
    to the one unit cube; every element rendered in the run, and every
    shadow sub-mesh, uses that same object; and [dispose()] is never called
    on a box geometry. *)
Theorem box_geometry_shared (evs : list Scene.event) :
  let s := fst (Scene.run Scene.initial evs) in
  let els := snd (Scene.run Scene.initial evs) in
  let p := Scene.proc s in
  Three.count Three.is_geometry (Process.objects p) <= 1
  /\ match els with
     | [] => Three.count Three.is_geometry (Process.objects p) = 0
     | _ :: _ =>
         exists g,
           Process.boxGeometry p = Some g
           /\ Three.count Three.is_geometry (Process.objects p) = 1
           /\ Process.objects p !! g
              = Some (Three.fresh (Three.BoxGeometry (JS.num_of_Z 1)
                                     (JS.num_of_Z 1) (JS.num_of_Z 1)))
     end
  /\ Forall (Scene.uses_geometry (Process.boxGeometry p)) els
  /\ (forall a r,
        Process.objects p !! a = Some r -> Three.is_geometry r = true ->
        Three.dispose_calls r = 0).
Proof.
  intros s els p.
  destruct (well_formed_run Scene.initial evs well_formed_initial)
    as ([Hgeo _] & _ & Hall & Hels).
  fold s els in Hgeo, Hall, Hels. fold p in Hgeo, Hall, Hels.
  unfold Scene.geometry_shared in Hgeo.
  split; [|split; [|split]].
  - destruct (Process.boxGeometry p); [destruct Hgeo|]; lia.
  - destruct els.
    + rewrite Hels in Hgeo. exact Hgeo.
    + destruct Hels as [g Hg]. rewrite Hg in Hgeo. exists g. tauto.
  - exact Hall.
  - intros a r Hl Hk. destruct (Process.boxGeometry p) as [g|].
    + destruct Hgeo as [Hc Hg].
      assert (a = g) by (eapply count_one_unique; eauto). subst a.
      rewrite Hg in Hl. injection Hl as <-. reflexivity.
    + pose proof (count_zero_lookup _ _ _ _ Hgeo Hl). congruence.
Qed.

(** ** The texture loads of ViserImage *)

Lemma fired_count_app (l1 l2 : list ViserImage.load) :
  ViserImage.fired_count (l1 ++ l2)
  = ViserImage.fired_count l1 + ViserImage.fired_count l2.
Proof.
  induction l1 as [|l l1 IH]; cbn; [reflexivity|].
  destruct (ViserImage.fired l); rewrite IH; reflexivity.
Qed.

Lemma fired_count_alter (f : ViserImage.load -> ViserImage.load)
    (ls : list ViserImage.load) (c : nat) (l : ViserImage.load) :
  ls !! c = Some l ->
  ViserImage.fired_count (alter f c ls) + Nat.b2n (ViserImage.fired l)
  = ViserImage.fired_count ls + Nat.b2n (ViserImage.fired (f l)).
Proof.
  revert c. induction ls as [|x ls IH]; intros [|c] Hl; cbn in *;
    try discriminate.
  - injection Hl as ->.
    destruct (ViserImage.fired l), (ViserImage.fired (f l)); cbn; lia.
  - specialize (IH c Hl).
    change (list_alter f c ls) with (alter f c ls).
    destruct (ViserImage.fired x); lia.
Qed.

Lemma all_fired_count (ls : list ViserImage.load) :
  forallb ViserImage.fired ls = true ->
  ViserImage.fired_count ls = length ls.
Proof.
  induction ls as [|l ls IH]; cbn; [reflexivity|].
  intros H. apply andb_prop in H as [-> H]. rewrite IH by exact H. reflexivity.
Qed.

(** What the completion of a load does, by the [cancelled] variable of its
    effect run. *)
Lemma complete_eq (c : nat) (w : ViserImage.world) (l : ViserImage.load) :
  ViserImage.loads w !! c = Some l ->
  let fire := fun l => {| ViserImage.cancelled := ViserImage.cancelled l;
                          ViserImage.fired := true |} in
  let t := length (ViserImage.textures w) in
  snd (ViserImage.complete c w)
  = if ViserImage.cancelled l
    then {| ViserImage.textures :=
              ViserImage.textures w
              ++ [Three.disposed (Three.fresh (Three.Texture c))];
            ViserImage.loads := alter fire c (ViserImage.loads w);
            ViserImage.textureRef := ViserImage.textureRef w;
            ViserImage.imageTexture := ViserImage.imageTexture w |}
    else {| ViserImage.textures :=
              match ViserImage.textureRef w with
              | Some old => Three.dispose old (ViserImage.textures w
                                               ++ [Three.fresh (Three.Texture c)])
              | None => ViserImage.textures w ++ [Three.fresh (Three.Texture c)]
              end;
            ViserImage.loads := alter fire c (ViserImage.loads w);
            ViserImage.textureRef := Some t;
            ViserImage.imageTexture := Some t |}.
Proof.
  intros Hl fire t. unfold ViserImage.complete, Three.alloc, ViserImage.onLoad.
  cbn [ViserImage.loads ViserImage.textures ViserImage.textureRef
       ViserImage.imageTexture].
  rewrite list_lookup_alter_eq, Hl. cbn [fmap option_fmap option_map
                                        ViserImage.cancelled].
  destruct (ViserImage.cancelled l); cbn [negb snd]; [|reflexivity].
  f_equal. unfold Three.dispose.
  rewrite alter_app_r_alt by lia. rewrite Nat.sub_diag. reflexivity.
Qed.

Lemma coherent_initial : ViserImage.coherent ViserImage.initial.
Proof.
  split; cbn; try reflexivity.
  - intros c l Hl. rewrite lookup_nil in Hl. discriminate.
  - intros t [=].
  - intros l Hl. discriminate.
Qed.

Lemma coherent_render (s s' : ViserImage.state) (format data : JS.value) :
  ViserImage.coherent s ->
  ViserImage.step s (ViserImage.Render format data) = Some s' ->
  ViserImage.coherent s'.
Proof.
  intros [Heff Hcan Hcre Hdis Hlive Hslot Hinst].
  destruct s as [e u [tx ls tr it]].
  unfold ViserImage.superseded in Hcan.
  cbn [ViserImage.step ViserImage.unmounted ViserImage.effect ViserImage.wld
       ViserImage.loads ViserImage.textures ViserImage.textureRef] in *.
  destruct u; [discriminate|].
  unfold React.commitEffect.
  destruct e as [e|].
  - destruct Heff as [Hdes Hne].
    destruct (React.areHookInputsEqual [format; data] (React.effect_deps e)).
    + (* same [_format] and [_data]: the effect does not run *)
      intros [= <-]. split; cbn; auto.
    + (* the previous load is cancelled and a new one is issued *)
      unfold React.bind, React.ret. rewrite Hdes.
      unfold ViserImage.set_cancelled, ViserImage.textureEffect.
      cbn [ViserImage.loads ViserImage.textures ViserImage.textureRef
           ViserImage.imageTexture].
      intros [= <-].
      assert (Hlen : length ls > 0) by (destruct ls; [congruence|cbn; lia]).
      split; unfold ViserImage.superseded, ViserImage.slot_count in *;
        cbn [ViserImage.effect ViserImage.wld ViserImage.unmounted
             ViserImage.loads ViserImage.textures ViserImage.textureRef
             React.effect_destroy] in *.
      * rewrite length_app, length_alter. cbn [length]. split.
        -- f_equal. lia.
        -- intros H. apply (f_equal length) in H.
           rewrite length_app in H. cbn in H. lia.
      * intros c l Hl. rewrite length_app, length_alter. cbn [length].
        rewrite orb_false_r.
        destruct (decide (c < length ls)) as [Hc|Hc].
        -- rewrite lookup_app_l in Hl by (rewrite length_alter; exact Hc).
           replace (S c <? length ls + 1) with true
             by (symmetry; apply Nat.ltb_lt; lia).
           rewrite list_lookup_alter in Hl. case_decide as Hc'.
           ++ apply fmap_Some in Hl as (l0 & _ & ->). reflexivity.
           ++ rewrite (Hcan _ _ Hl), orb_false_r. apply Nat.ltb_lt. lia.
        -- rewrite lookup_app_r in Hl by (rewrite length_alter; lia).
           rewrite length_alter in Hl.
           destruct (c - length ls) as [|k] eqn:Ek; [|destruct k; discriminate].
           injection Hl as <-. cbn [ViserImage.cancelled]. symmetry.
           apply Nat.ltb_ge. lia.
      * rewrite fired_count_app. cbn.
        destruct (ls !! (length ls - 1)) as [l0|] eqn:El0.
        -- pose proof (fired_count_alter
                         (fun l => {| ViserImage.cancelled := true;
                                      ViserImage.fired := ViserImage.fired l |})
                         _ _ _ El0) as Hf.
           cbn in Hf. lia.
        -- apply lookup_ge_None in El0. lia.
      * exact Hdis.
      * exact Hlive.
      * exact Hslot.
      * intros l Hl Hf _. exfalso.
        rewrite length_app, length_alter in Hl. cbn [length] in Hl.
        rewrite lookup_app_r in Hl by (rewrite length_alter; lia).
        rewrite length_alter in Hl.
        replace (length ls + 1 - 1 - length ls) with 0 in Hl by lia.
        injection Hl as <-. discriminate Hf.
  - (* mount: the first load is issued *)
    unfold React.bind, React.ret, ViserImage.textureEffect.
    cbn [ViserImage.loads ViserImage.textures ViserImage.textureRef
         ViserImage.imageTexture].
    intros [= <-]. subst ls.
    split; unfold ViserImage.superseded, ViserImage.slot_count in *;
      cbn [ViserImage.effect ViserImage.wld ViserImage.unmounted
           ViserImage.loads ViserImage.textures ViserImage.textureRef
           React.effect_destroy app length] in *.
    + split; [reflexivity|discriminate].
    + intros [|c] l Hl; [|discriminate]. injection Hl as <-. reflexivity.
    + exact Hcre.
    + exact Hdis.
    + exact Hlive.
    + exact Hslot.
    + intros l [= <-]. discriminate.
Qed.

Lemma coherent_complete (s s' : ViserImage.state) (c : nat) :
  ViserImage.coherent s ->
  ViserImage.step s (ViserImage.Complete c) = Some s' ->
  ViserImage.coherent s'.
Proof.
  intros [Heff Hcan Hcre Hdis Hlive Hslot Hinst].
  cbn [ViserImage.step].
  destruct (ViserImage.loads (ViserImage.wld s) !! c) as [l|] eqn:Hl;
    [|discriminate].
  destruct (ViserImage.fired l) eqn:Hfired; [discriminate|].
  pose proof (complete_eq c _ _ Hl) as Hc. cbn zeta in Hc.
  destruct (ViserImage.complete c (ViserImage.wld s)) as [[] w'].
  cbn [snd] in Hc. intros [= <-]. subst w'.
  destruct s as [e u [tx ls tr it]].
  unfold ViserImage.superseded, ViserImage.slot_count in *.
  cbn [ViserImage.unmounted ViserImage.effect ViserImage.wld
       ViserImage.loads ViserImage.textures ViserImage.textureRef] in *.
  set (fire := fun l : ViserImage.load =>
                 {| ViserImage.cancelled := ViserImage.cancelled l;
                    ViserImage.fired := true |}).
  assert (Hfc : ViserImage.fired_count (alter fire c ls)
                = S (ViserImage.fired_count ls)).
  { pose proof (fired_count_alter fire _ _ _ Hl) as H.
    rewrite Hfired in H. cbn in H. lia. }
  assert (Hcan' : forall c' l', alter fire c ls !! c' = Some l' ->
            ViserImage.cancelled l' = (S c' <? length ls) || u).
  { intros c' l' Hl'. rewrite list_lookup_alter in Hl'. case_decide.
    - apply fmap_Some in Hl' as (l0 & Hl0 & ->). subst c'.
      unfold fire. cbn [ViserImage.cancelled]. eauto.
    - eauto. }
  destruct (ViserImage.cancelled l) eqn:Hcl.
  - (* stale completion: the texture is disposed at once *)
    split; unfold ViserImage.superseded, ViserImage.slot_count;
      cbn [ViserImage.unmounted ViserImage.effect ViserImage.wld
           ViserImage.loads ViserImage.textures ViserImage.textureRef].
    + rewrite length_alter.
      destruct e; [|subst ls; rewrite lookup_nil in Hl; discriminate].
      destruct Heff as [Hd Hne]. split; [exact Hd|].
      intros H. apply (f_equal length) in H. rewrite length_alter in H.
      destruct ls; [congruence|discriminate].
    + rewrite length_alter. exact Hcan'.
    + rewrite length_app, Hfc. cbn. lia.
    + rewrite dispose_total_app, length_app. cbn. lia.
    + unfold Three.live_textures in *. rewrite count_app. cbn. lia.
    + intros t Ht. destruct (Hslot t Ht) as (r & Hr & Hk & Hd).
      exists r. split; [apply lookup_app_l_Some; exact Hr|auto].
    + rewrite length_alter. intros l' Hl' Hf' Hu.
      rewrite list_lookup_alter in Hl'. case_decide as Hc'.
      * exfalso. subst c. rewrite (Hcan _ _ Hl), Hu, orb_false_r in Hcl.
        apply Nat.ltb_lt in Hcl. apply lookup_lt_Some in Hl. lia.
      * apply lookup_lt_Some in Hl.
        destruct (ls !! (length ls - 1)) as [l0|] eqn:El0; [|discriminate].
        injection Hl' as <-. eapply Hinst; eauto.
  - (* the load is current: it replaces the texture of the slot *)
    assert (Htx : exists h,
              match tr with
              | Some old => Three.dispose old (tx ++ [Three.fresh (Three.Texture c)])
              | None => tx ++ [Three.fresh (Three.Texture c)]
              end = h ++ [Three.fresh (Three.Texture c)]
              /\ length h = length tx
              /\ Three.dispose_total h + 1 = length tx + 1
              /\ Three.live_textures h = 0).
    { destruct tr as [old|].
      - destruct (Hslot old eq_refl) as (r & Hr & Hk & Hd).
        pose proof (lookup_lt_Some _ _ _ Hr) as Hlt.
        exists (Three.dispose old tx). split; [|split; [|split]].
        + unfold Three.dispose. apply alter_app_l. exact Hlt.
        + unfold Three.dispose. apply length_alter.
        + rewrite (dispose_total_dispose _ _ _ Hr). lia.
        + pose proof (count_alter (fun r => Three.is_texture r && Three.live r)
                        Three.disposed _ _ _ Hr) as H.
          unfold Three.live_textures, Three.dispose, Three.live in *.
          cbn in H. rewrite Hk, Hd, andb_false_r in H. cbn in H, Hlive. lia.
      - exists tx. split; [reflexivity|]. split; [reflexivity|]. split; lia. }
    destruct Htx as (h & -> & Hlh & Hdt & Hlt).
    split; unfold ViserImage.superseded, ViserImage.slot_count;
      cbn [ViserImage.unmounted ViserImage.effect ViserImage.wld
           ViserImage.loads ViserImage.textures ViserImage.textureRef].
    + rewrite length_alter.
      destruct e; [|subst ls; rewrite lookup_nil in Hl; discriminate].
      destruct Heff as [Hd Hne]. split; [exact Hd|].
      intros H. apply (f_equal length) in H. rewrite length_alter in H.
      destruct ls; [congruence|discriminate].
    + rewrite length_alter. exact Hcan'.
    + rewrite length_app, Hfc, Hlh. cbn. lia.
    + rewrite dispose_total_app, length_app. cbn. lia.
    + unfold Three.live_textures in *. rewrite count_app, Hlt. reflexivity.
    + intros t [= <-]. exists (Three.fresh (Three.Texture c)).
      split; [|split; reflexivity].
      rewrite lookup_app_r by lia. rewrite Hlh, Nat.sub_diag. reflexivity.
    + reflexivity.
Qed.

Lemma coherent_unmount (s s' : ViserImage.state) :
  ViserImage.coherent s ->
  ViserImage.step s ViserImage.Unmount = Some s' ->
  ViserImage.coherent s'.
Proof.
  intros [Heff Hcan Hcre Hdis Hlive Hslot Hinst].
  destruct s as [e u [tx ls tr it]].
  unfold ViserImage.superseded, ViserImage.slot_count in *.
  cbn [ViserImage.step ViserImage.unmounted ViserImage.effect ViserImage.wld
       ViserImage.loads ViserImage.textures ViserImage.textureRef] in *.
  destruct e as [e|]; [|discriminate]. destruct u; [discriminate|].
  destruct Heff as [Hd Hne]. rewrite Hd. unfold ViserImage.set_cancelled.
  cbn [ViserImage.loads ViserImage.textures ViserImage.textureRef
       ViserImage.imageTexture].
  intros [= <-].
  set (cancel := fun l : ViserImage.load =>
                   {| ViserImage.cancelled := true;
                      ViserImage.fired := ViserImage.fired l |}).
  split; unfold ViserImage.superseded, ViserImage.slot_count;
    cbn [ViserImage.unmounted ViserImage.effect ViserImage.wld
         ViserImage.loads ViserImage.textures ViserImage.textureRef].
  - rewrite length_alter. split; [exact Hd|].
    intros H. apply (f_equal length) in H. rewrite length_alter in H.
    destruct ls; [congruence|discriminate].
  - rewrite length_alter. intros c l Hl. rewrite orb_true_r.
    rewrite list_lookup_alter in Hl. case_decide as Hc.
    + apply fmap_Some in Hl as (l0 & _ & ->). reflexivity.
    + rewrite (Hcan _ _ Hl), orb_false_r. apply Nat.ltb_lt.
      apply lookup_lt_Some in Hl. lia.
  - rewrite Hcre.
    destruct (ls !! (length ls - 1)) as [l0|] eqn:El0.
    + pose proof (fired_count_alter cancel _ _ _ El0) as H. cbn in H. lia.
    + apply lookup_ge_None in El0. destruct ls; [congruence|cbn in El0; lia].
  - exact Hdis.
  - exact Hlive.
  - exact Hslot.
  - intros l _ _ [=].
Qed.

Lemma coherent_run (evs : list ViserImage.event) (s s' : ViserImage.state) :
  ViserImage.coherent s -> ViserImage.run s evs = Some s' ->
  ViserImage.coherent s'.
Proof.
  revert s. induction evs as [|ev evs IH]; intros s Hco; cbn [ViserImage.run].
  - intros [= <-]. exact Hco.
  - destruct (ViserImage.step s ev) as [s1|] eqn:Hstep; [|discriminate].
    apply IH. destruct ev.
    + eapply coherent_render; eauto.
    + eapply coherent_complete; eauto.
    + eapply coherent_unmount; eauto.
Qed.

(** C3, as amended: in any run of renders, completions (in any order, each
    once) and an unmount, a completion of a load that has been superseded or
    whose owner has been unmounted leaves [textureRef.current] and the image
    state as they are and calls [dispose()] on the texture it produced, at
    once.  Once all the [K >= 1] loads issued have completed, in every run,
    [K] textures have been produced, the only live one is the one in the
    slot, if there is one, and the live textures and the [dispose()] calls
    add up to [K]; while the component is mounted exactly one texture is
    live, the one in the slot, and [K - 1] [dispose()] calls have been
    made. *)
Theorem texture_loads_leak_free (evs : list ViserImage.event)
    (s : ViserImage.state) :
  ViserImage.run ViserImage.initial evs = Some s ->
  (forall c l,
     ViserImage.loads (ViserImage.wld s) !! c = Some l ->
     ViserImage.fired l = false ->
     ViserImage.superseded c s || ViserImage.unmounted s = true ->
     exists s',
       ViserImage.step s (ViserImage.Complete c) = Some s'
       /\ ViserImage.textureRef (ViserImage.wld s')
          = ViserImage.textureRef (ViserImage.wld s)
       /\ ViserImage.imageTexture (ViserImage.wld s')
          = ViserImage.imageTexture (ViserImage.wld s)
       /\ ViserImage.textures (ViserImage.wld s')
          = ViserImage.textures (ViserImage.wld s)
            ++ [Three.disposed (Three.fresh (Three.Texture c))])
  /\ (ViserImage.loads (ViserImage.wld s) <> [] ->
      ViserImage.all_fired s = true ->
      let K := length (ViserImage.loads (ViserImage.wld s)) in
      let live := Three.live_textures (ViserImage.textures (ViserImage.wld s)) in
      let disposals :=
        Three.dispose_total (ViserImage.textures (ViserImage.wld s)) in
      length (ViserImage.textures (ViserImage.wld s)) = K
      /\ live = match ViserImage.textureRef (ViserImage.wld s) with
                | Some _ => 1
                | None => 0
                end
      /\ live + disposals = K
      /\ (forall t,
            ViserImage.textureRef (ViserImage.wld s) = Some t ->
            exists r,
              ViserImage.textures (ViserImage.wld s) !! t = Some r
              /\ Three.is_texture r = true
              /\ Three.dispose_calls r = 0)
      /\ (ViserImage.unmounted s = false ->
          live = 1 /\ disposals = K - 1
          /\ exists t, ViserImage.textureRef (ViserImage.wld s) = Some t)).
Proof.
  intros Hrun.
  pose proof (coherent_run _ _ _ coherent_initial Hrun)
    as [Heff Hcan Hcre Hdis Hlive Hslot Hinst].
  split.
  - intros c l Hl Hf Hstale.
    cbn [ViserImage.step]. rewrite Hl, Hf.
    pose proof (complete_eq c _ _ Hl) as Hc. cbn zeta in Hc.
    rewrite (Hcan _ _ Hl), Hstale in Hc.
    destruct (ViserImage.complete c (ViserImage.wld s)) as [[] w'].
    cbn [snd] in Hc. subst w'.
    eexists. split; [reflexivity|]. cbn. auto.
  - intros Hne Hall K live disposals.
    unfold ViserImage.all_fired in Hall.
    pose proof (all_fired_count _ Hall) as Hcount. fold K in Hcount.
    unfold ViserImage.slot_count in Hdis, Hlive.
    split; [lia|]. split; [subst live; lia|]. split; [subst live disposals; lia|].
    split; [exact Hslot|].
    intros Hu.
    assert (HK : K > 0).
    { subst K. destruct (ViserImage.loads (ViserImage.wld s));
        [congruence|cbn; lia]. }
    destruct (ViserImage.loads (ViserImage.wld s) !! (K - 1)) as [l|] eqn:Hl;
      [|apply lookup_ge_None in Hl; lia].
    assert (Hfl : ViserImage.fired l = true).
    { rewrite forallb_forall in Hall. apply Hall.
      apply list_elem_of_In. eapply list_elem_of_lookup_2. exact Hl. }
    pose proof (Hinst l Hl Hfl Hu) as Hone.
    unfold ViserImage.slot_count in Hone.
    destruct (ViserImage.textureRef (ViserImage.wld s)) as [t|] eqn:Ht;
      [|discriminate].
    split; [subst live; lia|]. split; [subst disposals; lia|]. eauto.
Qed.

Lemma texture_loads_leak_free_witness :
  exists s,
    ViserImage.run ViserImage.initial Sample.churn = Some s
    /\ length (ViserImage.loads (ViserImage.wld s)) = 3
    /\ Three.live_textures (ViserImage.textures (ViserImage.wld s)) = 1
    /\ Three.dispose_total (ViserImage.textures (ViserImage.wld s)) = 2.
Proof.
  eexists. split; [vm_compute; reflexivity|]. split; [reflexivity|].
  match goal with
  | |- Three.live_textures (ViserImage.textures (ViserImage.wld ?s)) = _ /\ _ =>
      pose proof (proj2 (texture_loads_leak_free Sample.churn s eq_refl)
                    ltac:(discriminate) eq_refl) as H
  end.
  cbn zeta in H. destruct H as (_ & _ & _ & _ & H).
  destruct (H eq_refl) as (H1 & H2 & _). split; [exact H1|exact H2].
Defined.

(** C3, as stated, fails on the code: when the component is unmounted
    before its only load completes, the completion disposes the texture it
    produced.  All [K = 1] completions have fired, no texture is live and
    one [dispose()] call has been made, where the claim has one live texture
    and [K - 1 = 0] calls. *)
Lemma texture_unmounted_before_completion :
  exists s,
    ViserImage.run ViserImage.initial
      [ViserImage.Render (JS.Str "png") (JS.Ref 1);
       ViserImage.Unmount;
       ViserImage.Complete 0] = Some s
    /\ ViserImage.all_fired s = true
    /\ length (ViserImage.loads (ViserImage.wld s)) = 1
    /\ Three.live_textures (ViserImage.textures (ViserImage.wld s)) = 0
    /\ Three.dispose_total (ViserImage.textures (ViserImage.wld s)) = 1
    /\ ~ (Three.live_textures (ViserImage.textures (ViserImage.wld s)) = 1
          /\ Three.dispose_total (ViserImage.textures (ViserImage.wld s))
             = length (ViserImage.loads (ViserImage.wld s)) - 1).
Proof.
  eexists. split; [vm_compute; reflexivity|].
  repeat split; try reflexivity.
  intros [H _]. vm_compute in H. discriminate.
Qed.

(** ** The hover count *)

Lemma hovered_cons (n : Hover.node) (ns : list Hover.node) :
  Hover.hovered (n :: ns)
  = (Z.b2z (Hover.isHovered n) + Hover.hovered ns)%Z.
Proof.
  unfold Hover.hovered. cbn [List.filter].
  destruct (Hover.isHovered n); cbn [length Z.b2z]; lia.
Qed.

Lemma hovered_nonneg (ns : list Hover.node) : (0 <= Hover.hovered ns)%Z.
Proof. unfold Hover.hovered. lia. Qed.

Lemma hovered_insert (ns : list Hover.node) (i : nat) (n n' : Hover.node) :
  ns !! i = Some n ->
  Hover.hovered (<[i := n']> ns)
  = (Hover.hovered ns - Z.b2z (Hover.isHovered n)
     + Z.b2z (Hover.isHovered n'))%Z.
Proof.
  revert i. induction ns as [|x ns IH]; intros [|i] Hl; cbn in Hl;
    try discriminate.
  - injection Hl as ->. cbn [insert list_insert]. rewrite !hovered_cons. lia.
  - change (<[S i := n']> (x :: ns)) with (x :: <[i := n']> ns).
    rewrite !hovered_cons, (IH i Hl). lia.
Qed.

(** One decrement from a positive count keeps the cursor in step. *)
Lemma release_spec (n : Hover.node) (v : Hover.viewer) :
  Hover.cursor_follows_count v -> (1 <= Hover.hoveredElementsCount v)%Z ->
  fst (Hover.release n v) = Hover.idle n
  /\ Hover.hoveredElementsCount (snd (Hover.release n v))
     = (Hover.hoveredElementsCount v - 1)%Z
  /\ Hover.cursor_follows_count (snd (Hover.release n v)).
Proof.
  unfold Hover.cursor_follows_count, Hover.release. intros Hc Hpos.
  cbn [fst snd Hover.hoveredElementsCount Hover.cursor].
  split; [reflexivity|]. split; [reflexivity|].
  destruct (Z.eqb_spec (Hover.hoveredElementsCount v - 1) 0) as [E|E].
  - rewrite E. reflexivity.
  - rewrite Hc.
    replace (0 <? Hover.hoveredElementsCount v)%Z with true
      by (symmetry; apply Z.ltb_lt; lia).
    replace (0 <? Hover.hoveredElementsCount v - 1)%Z with true
      by (symmetry; apply Z.ltb_lt; lia).
    reflexivity.
Qed.

(** The two checks of a tick clear a hovered node when it is hidden or not
    clickable, whichever it is, and only then. *)
Lemma tickNode_eq (n : Hover.node) (v : Hover.viewer) :
  Hover.tickNode n v
  = if Hover.invalid n then Hover.release n v else (n, v).
Proof.
  unfold Hover.tickNode, Hover.clickableCheck, Hover.visibilityCheck,
    Hover.invalid.
  destruct n as [[|] [|] [|] iid]; reflexivity.
Qed.

Lemma tick_spec (ns : list Hover.node) (v : Hover.viewer) (k : Z) :
  (0 <= k)%Z ->
  Hover.hoveredElementsCount v = (k + Hover.hovered ns)%Z ->
  Hover.cursor_follows_count v ->
  fst (Hover.tick ns v) = Hover.settle <$> ns
  /\ Hover.hoveredElementsCount (snd (Hover.tick ns v))
     = (k + Hover.hovered (Hover.settle <$> ns))%Z
  /\ Hover.cursor_follows_count (snd (Hover.tick ns v)).
Proof.
  revert v k. induction ns as [|n ns IH]; intros v k Hk Hcount Hcur.
  - cbn. auto.
  - cbn [Hover.tick]. rewrite tickNode_eq.
    rewrite hovered_cons in Hcount. pose proof (hovered_nonneg ns) as Hnn.
    rewrite fmap_cons, hovered_cons. unfold Hover.settle at 1 3.
    destruct (Hover.invalid n) eqn:Hinv.
    + assert (Hh : Hover.isHovered n = true).
      { unfold Hover.invalid in Hinv. apply andb_prop in Hinv. tauto. }
      rewrite Hh in Hcount. cbn [Z.b2z] in Hcount.
      destruct (release_spec n v Hcur ltac:(lia)) as (Hn & Hc & Hf).
      destruct (Hover.release n v) as [n1 v1]. cbn [fst snd] in *. subst n1.
      destruct (IH v1 k Hk ltac:(lia) Hf) as (H1 & H2 & H3).
      destruct (Hover.tick ns v1) as [ns1 v2]. cbn [fst snd] in *.
      subst ns1. split; [reflexivity|]. split; [|exact H3].
      rewrite H2. cbn. lia.
    + destruct (IH v (k + Z.b2z (Hover.isHovered n))%Z
                  ltac:(destruct (Hover.isHovered n); cbn; lia)
                  ltac:(lia) Hcur) as (H1 & H2 & H3).
      destruct (Hover.tick ns v) as [ns1 v2]. cbn [fst snd] in *.
      subst ns1. split; [reflexivity|]. split; [|exact H3].
      rewrite H2. lia.
Qed.

Lemma consistent_start (ns : list Hover.node) :
  Hover.consistent (Hover.start ns).
Proof.
  split; [|reflexivity]. cbn.
  induction ns as [|n ns IH]; [reflexivity|].
  rewrite fmap_cons, hovered_cons. cbn. rewrite <- IH. reflexivity.
Qed.

Lemma consistent_at_node (i : nat)
    (h : Hover.node -> Hover.viewer -> Hover.node * Hover.viewer)
    (s : Hover.state) :
  Hover.consistent s ->
  (forall n v,
     Hover.cursor_follows_count v ->
     (Z.b2z (Hover.isHovered n) <= Hover.hoveredElementsCount v)%Z ->
     Hover.hoveredElementsCount (snd (h n v))
     = (Hover.hoveredElementsCount v - Z.b2z (Hover.isHovered n)
        + Z.b2z (Hover.isHovered (fst (h n v))))%Z
     /\ Hover.cursor_follows_count (snd (h n v))) ->
  Hover.consistent (Hover.at_node i h s).
Proof.
  intros [Hc Hf] Hh. unfold Hover.at_node.
  destruct (Hover.nodes s !! i) as [n|] eqn:Hn; [|split; assumption].
  assert (Hle : (Z.b2z (Hover.isHovered n)
                 <= Hover.hoveredElementsCount (Hover.view s))%Z).
  { rewrite Hc. clear -Hn. revert i Hn.
    induction (Hover.nodes s) as [|x ns IH]; intros [|i] Hn; cbn in Hn;
      try discriminate; rewrite hovered_cons.
    - injection Hn as ->. pose proof (hovered_nonneg ns). lia.
    - specialize (IH i Hn). destruct (Hover.isHovered x); cbn; lia. }
  destruct (Hh n (Hover.view s) Hf Hle) as [H1 H2].
  destruct (h n (Hover.view s)) as [n' v']. cbn [fst snd] in *.
  split; cbn [Hover.nodes Hover.view]; [|exact H2].
  rewrite (hovered_insert _ _ _ _ Hn). lia.
Qed.

Lemma consistent_step (s : Hover.state) (ev : Hover.event) :
  Hover.consistent s -> Hover.consistent (Hover.step s ev).
Proof.
  intros Hs. destruct ev as [i iid|i|i b|i b|]; cbn [Hover.step].
  - (* pointer over *)
    apply consistent_at_node; [exact Hs|]. intros n v Hf Hle.
    unfold Hover.pointerOver.
    destruct (Hover.effectiveVisibility n && Hover.clickable n
              && negb (Hover.isHovered n)) eqn:E.
    + apply andb_prop in E as [_ E]. apply negb_true_iff in E.
      rewrite E in *. cbn [fst snd Hover.isHovered Hover.hoveredElementsCount
                           Z.b2z] in *.
      split; [lia|].
      unfold Hover.cursor_follows_count in *.
      cbn [Hover.cursor Hover.hoveredElementsCount].
      replace (0 <? Hover.hoveredElementsCount v + 1)%Z with true
        by (symmetry; apply Z.ltb_lt; lia).
      destruct (Z.eqb_spec (Hover.hoveredElementsCount v + 1) 1) as [E1|E1];
        [reflexivity|].
      rewrite Hf.
      replace (0 <? Hover.hoveredElementsCount v)%Z with true
        by (symmetry; apply Z.ltb_lt; lia).
      reflexivity.
    + cbn [fst snd]. split; [lia|exact Hf].
  - (* pointer out *)
    apply consistent_at_node; [exact Hs|]. intros n v Hf Hle.
    unfold Hover.pointerOut. destruct (Hover.isHovered n) eqn:E.
    + cbn [Z.b2z] in Hle. destruct (release_spec n v Hf Hle) as (H1 & H2 & H3).
      rewrite H1, H2. cbn. split; [lia|exact H3].
    + cbn [fst snd]. rewrite E. split; [cbn; lia|exact Hf].
  - apply consistent_at_node; [exact Hs|]. intros n v Hf Hle.
    cbn [fst snd Hover.setVisible Hover.isHovered]. split; [lia|exact Hf].
  - apply consistent_at_node; [exact Hs|]. intros n v Hf Hle.
    cbn [fst snd Hover.setClickable Hover.isHovered]. split; [lia|exact Hf].
  - (* frame tick *)
    destruct Hs as [Hc Hf].
    destruct (tick_spec (Hover.nodes s) (Hover.view s) 0 ltac:(lia)
                ltac:(lia) Hf) as (H1 & H2 & H3).
    destruct (Hover.tick (Hover.nodes s) (Hover.view s)) as [ns v].
    cbn [fst snd] in *. subst ns. split; cbn [Hover.nodes Hover.view].
    + rewrite H2. lia.
    + exact H3.
Qed.

Lemma consistent_run (evs : list Hover.event) (s : Hover.state) :
  Hover.consistent s -> Hover.consistent (Hover.run s evs).
Proof.
  revert s. induction evs as [|ev evs IH]; intros s Hs; [exact Hs|].
  cbn [Hover.run fold_left]. apply IH. apply consistent_step. exact Hs.
Qed.

Lemma settle_hovered_le (n : Hover.node) :
  (Z.b2z (Hover.isHovered (Hover.settle n)) <= Z.b2z (Hover.isHovered n))%Z.
Proof.
  unfold Hover.settle. destruct (Hover.invalid n); [|lia].
  cbn. destruct (Hover.isHovered n); cbn; lia.
Qed.

Lemma hovered_settle_le (ns : list Hover.node) :
  (Hover.hovered (Hover.settle <$> ns) <= Hover.hovered ns)%Z.
Proof.
  induction ns as [|n ns IH]; [reflexivity|].
  rewrite fmap_cons, !hovered_cons. pose proof (settle_hovered_le n). lia.
Qed.

Lemma hovered_settle_lt (ns : list Hover.node) (i : nat) (n : Hover.node) :
  ns !! i = Some n -> Hover.invalid n = true ->
  (Hover.hovered (Hover.settle <$> ns) < Hover.hovered ns)%Z.
Proof.
  revert i. induction ns as [|x ns IH]; intros [|i] Hl Hinv; cbn in Hl;
    try discriminate; rewrite fmap_cons, !hovered_cons.
  - injection Hl as ->. pose proof (hovered_settle_le ns).
    unfold Hover.settle at 1. rewrite Hinv.
    unfold Hover.invalid in Hinv. apply andb_prop in Hinv as [-> _].
    cbn. lia.
  - specialize (IH i Hl Hinv). pose proof (settle_hovered_le x). lia.
Qed.

Lemma cursorMode_of_count (v : Hover.viewer) :
  Hover.cursor_follows_count v ->
  Hover.cursorMode v
  = if (0 <? Hover.hoveredElementsCount v)%Z then Hover.Pointer
    else Hover.Default.
Proof.
  unfold Hover.cursor_follows_count, Hover.cursorMode. intros ->.
  destruct (0 <? Hover.hoveredElementsCount v)%Z; reflexivity.
Qed.

(** A tick clears every hovered node that is hidden or not clickable. *)
Lemma tick_clears (s : Hover.state) (i : nat) (n : Hover.node) :
  Hover.consistent s ->
  Hover.nodes s !! i = Some n -> Hover.invalid n = true ->
  let s' := Hover.step s Hover.Tick in
  Hover.nodes s' !! i = Some (Hover.idle n)
  /\ (Hover.hoveredElementsCount (Hover.view s')
      < Hover.hoveredElementsCount (Hover.view s))%Z
  /\ (Hover.hoveredElementsCount (Hover.view s) = 1%Z ->
      Hover.hoveredElementsCount (Hover.view s') = 0%Z
      /\ Hover.cursorMode (Hover.view s') = Hover.Default).
Proof.
  intros [Hc Hf] Hn Hinv s'. subst s'. cbn [Hover.step].
  destruct (tick_spec (Hover.nodes s) (Hover.view s) 0 ltac:(lia)
              ltac:(lia) Hf) as (H1 & H2 & H3).
  destruct (Hover.tick (Hover.nodes s) (Hover.view s)) as [ns v].
  cbn [fst snd Hover.nodes Hover.view] in *. subst ns.
  pose proof (hovered_settle_lt _ _ _ Hn Hinv) as Hlt.
  pose proof (hovered_nonneg (Hover.settle <$> Hover.nodes s)) as Hnn.
  split; [|split].
  - rewrite list_lookup_fmap, Hn. cbn. unfold Hover.settle. rewrite Hinv.
    reflexivity.
  - lia.
  - intros H1'. assert (Hz : Hover.hoveredElementsCount v = 0%Z) by lia.
    split; [exact Hz|]. rewrite (cursorMode_of_count _ H3), Hz. reflexivity.
Qed.

(** C4: over any interleaving of pointer events, visibility and
    clickability changes and frame ticks, from a session with no hovered
    node, the count is never negative (it is the number of nodes whose hover
    flag is set, so no decrement ever happens at zero), and the cursor
    is the pointer exactly when the count is positive and the default one
    exactly when it is zero. *)
Theorem hover_count_is_hovered_nodes (ns : list Hover.node)
    (evs : list Hover.event) :
  let s := Hover.run (Hover.start ns) evs in
  let v := Hover.view s in
  (0 <= Hover.hoveredElementsCount v)%Z
  /\ Hover.hoveredElementsCount v = Hover.hovered (Hover.nodes s)
  /\ (Hover.cursorMode v = Hover.Pointer
      <-> (0 < Hover.hoveredElementsCount v)%Z)
  /\ (Hover.cursorMode v = Hover.Default
      <-> Hover.hoveredElementsCount v = 0%Z).
Proof.
  intros s v.
  destruct (consistent_run evs _ (consistent_start ns)) as [Hc Hf].
  fold s in Hc, Hf. fold v in Hc, Hf.
  pose proof (hovered_nonneg (Hover.nodes s)) as Hnn.
  rewrite (cursorMode_of_count _ Hf).
  split; [lia|]. split; [exact Hc|].
  destruct (Z.ltb_spec 0 (Hover.hoveredElementsCount v)); split; split;
    intros; try discriminate; try reflexivity; lia.
Qed.

(** C2: in any state reached by pointer events, attribute changes and
    ticks, a hovered node that is hidden or not clickable (either alone
    suffices) is idle after the next frame tick and the count has gone down,
    by exactly one for this node, with no pointer event; and when the count
    is 1, hiding the hovered node, or making it non-clickable, leaves the
    count at 0 and the cursor in default mode after the tick. *)
Theorem hover_cleared_on_tick (ns : list Hover.node) (evs : list Hover.event)
    (i : nat) (n : Hover.node) :
  let s := Hover.run (Hover.start ns) evs in
  Hover.nodes s !! i = Some n ->
  Hover.isHovered n = true ->
  ((Hover.effectiveVisibility n = false \/ Hover.clickable n = false) ->
   let s' := Hover.step s Hover.Tick in
   Hover.nodes s' !! i = Some (Hover.idle n)
   /\ (forall v, Hover.tickNode n v
                 = (Hover.idle n,
                    {| Hover.hoveredElementsCount :=
                         Hover.hoveredElementsCount v - 1;
                       Hover.cursor :=
                         if (Hover.hoveredElementsCount v - 1 =? 0)%Z
                         then "auto"%string else Hover.cursor v |}))
   /\ (Hover.hoveredElementsCount (Hover.view s')
       < Hover.hoveredElementsCount (Hover.view s))%Z
   /\ (Hover.hoveredElementsCount (Hover.view s) = 1%Z ->
       Hover.hoveredElementsCount (Hover.view s') = 0%Z
       /\ Hover.cursorMode (Hover.view s') = Hover.Default))
  /\ (Hover.hoveredElementsCount (Hover.view s) = 1%Z ->
      forall ev,
        ev = Hover.SetVisible i false \/ ev = Hover.SetClickable i false ->
        let s' := Hover.run s [ev; Hover.Tick] in
        (exists n', Hover.nodes s' !! i = Some n'
                    /\ Hover.isHovered n' = false)
        /\ Hover.hoveredElementsCount (Hover.view s') = 0%Z
        /\ Hover.cursorMode (Hover.view s') = Hover.Default).
Proof.
  intros s Hn Hh.
  pose proof (consistent_run evs _ (consistent_start ns)) as Hs. fold s in Hs.
  split.
  - intros Hor.
    assert (Hinv : Hover.invalid n = true).
    { unfold Hover.invalid. rewrite Hh.
      destruct Hor as [-> | ->]; cbn; [reflexivity|apply orb_true_r]. }
    destruct (tick_clears s i n Hs Hn Hinv) as (H1 & H2 & H3).
    split; [exact H1|]. split; [|split; assumption].
    intros v. rewrite tickNode_eq, Hinv. reflexivity.
  - intros Hone ev Hev. cbn zeta.
    change (Hover.run s [ev; Hover.Tick])
      with (Hover.step (Hover.step s ev) Hover.Tick).
    pose proof (consistent_step s ev Hs) as Hs1.
    assert (Hs1n : exists n1, Hover.nodes (Hover.step s ev) !! i = Some n1
                     /\ Hover.invalid n1 = true
                     /\ Hover.hoveredElementsCount (Hover.view (Hover.step s ev))
                        = 1%Z).
    { pose proof (lookup_lt_Some _ _ _ Hn) as Hlt.
      destruct Hev as [-> | ->]; cbn [Hover.step]; unfold Hover.at_node;
        rewrite Hn; cbn [Hover.nodes Hover.view];
        eexists; (split; [apply list_lookup_insert_eq; exact Hlt|]);
        (split; [|exact Hone]); unfold Hover.invalid; cbn; rewrite Hh;
        cbn; [reflexivity|apply orb_true_r]. }
    destruct Hs1n as (n1 & Hn1 & Hinv1 & Hone1).
    destruct (tick_clears _ i n1 Hs1 Hn1 Hinv1) as (H1 & _ & H3).
    split; [eexists; split; [exact H1|reflexivity]|]. exact (H3 Hone1).
Qed.

Lemma hover_cleared_on_tick_witness :
  let s := Hover.run (Hover.start [Sample.target])
             [Hover.PointerOver 0 None] in
  let hidden := Hover.run s [Hover.SetVisible 0 false] in
  Hover.hoveredElementsCount (Hover.view s) = 1%Z
  /\ Hover.hoveredElementsCount (Hover.view hidden) = 1%Z
  /\ Hover.hoveredElementsCount
       (Hover.view (Hover.step hidden Hover.Tick)) = 0%Z
  /\ Hover.hoveredElementsCount
       (Hover.view (Hover.run s [Hover.SetVisible 0 false; Hover.Tick])) = 0%Z
  /\ Hover.cursorMode
       (Hover.view (Hover.run s [Hover.SetVisible 0 false; Hover.Tick]))
     = Hover.Default
  /\ Hover.hoveredElementsCount
       (Hover.view (Hover.run s [Hover.SetClickable 0 false; Hover.Tick])) = 0%Z.
Proof.
  cbn zeta. split; [reflexivity|]. split; [reflexivity|].
  pose proof (proj1 (hover_cleared_on_tick [Sample.target]
                       [Hover.PointerOver 0 None; Hover.SetVisible 0 false] 0
                       {| Hover.effectiveVisibility := false;
                          Hover.clickable := true;
                          Hover.isHovered := true;
                          Hover.instanceId := None |}
                       eq_refl eq_refl) (or_introl eq_refl)) as H0.
  cbn zeta in H0. destruct H0 as (_ & _ & _ & H0).
  destruct (H0 eq_refl) as [H0' _].
  pose proof (proj2 (hover_cleared_on_tick [Sample.target]
                       [Hover.PointerOver 0 None] 0
                       {| Hover.effectiveVisibility := true;
                          Hover.clickable := true;
                          Hover.isHovered := true;
                          Hover.instanceId := None |}
                       eq_refl eq_refl) eq_refl) as H.
  destruct (H (Hover.SetVisible 0 false) (or_introl eq_refl))
    as (_ & H1 & H2).
  destruct (H (Hover.SetClickable 0 false) (or_intror eq_refl))
    as (_ & H3 & _).
  split; [exact H0'|]. split; [exact H1|]. split; [exact H2|exact H3].
Defined.

(** * Further properties of the code *)

(** ** Passes of a box node that construct nothing *)

Lemma updates_boxGeometry h0 last f p us :
  BoxNode.settled h0 last f p ->
  (exists g, Process.boxGeometry p = Some g) ->
  exists g, Process.boxGeometry (snd (BoxMesh.updates f us p)) = Some g.
Proof.
  revert last f p. induction us as [|props us IH]; intros last f p Hst Hg;
    [exact Hg|].
  cbn [BoxMesh.updates]. unfold React.bind.
  pose proof (settled_step _ _ _ _ props Hst) as Hst'.
  destruct Hst as [_ [_ Hcur] Hdes Hed _ _ _ _ _ _].
  destruct (reconcile_spec (Some f) props p) as
    (f' & g & D & mext & gext & sext & Heq & _).
  { intros ? [= <-]. split; [exact Hdes|]. split; [exact Hed|].
    eapply lookup_lt_Some. exact Hcur. }
  rewrite Heq in *. cbn [fst snd] in *.
  eapply IH; [exact Hst'|]. eauto.
Qed.

Lemma lifetime_boxGeometry props0 us p0 :
  exists g,
    Process.boxGeometry (snd (BoxMesh.lifetime props0 us p0)) = Some g.
Proof.
  unfold BoxMesh.lifetime, React.bind.
  pose proof (settled_mount props0 p0) as Hst.
  destruct (reconcile_spec None props0 p0) as
    (f' & g & D & mext & gext & sext & Heq & _).
  { intros f [=]. }
  rewrite Heq in *. cbn [fst snd] in *.
  eapply updates_boxGeometry; [exact Hst|]. eauto.
Qed.

(** X1: an update of a mounted box node that changes only [cast_shadow],
    [dimensions] and [scale] constructs no object and disposes none: the
    objects of the process are exactly as before, and the element uses the
    cached material, the shared geometry and the cached shadow material. *)
Theorem resize_constructs_nothing (p0 : Process.process)
    (props0 : BoxMesh.BoxProps) (us : list BoxMesh.BoxProps)
    (cs d s : JS.value) :
  let f := fst (BoxMesh.lifetime props0 us p0) in
  let p := snd (BoxMesh.lifetime props0 us p0) in
  let next := BoxPass.resized (List.last us props0) cs d s in
  let R := BoxMesh.reconcile (Some f) next p in
  let f' := fst (fst R) in
  let el := snd (fst R) in
  snd R = p
  /\ BoxMesh.el_material el = React.memo_value (BoxMesh.memo_material f)
  /\ BoxMesh.el_geometry el = Process.boxGeometry p
  /\ React.memo_value (BoxMesh.memo_shadowMaterial f')
     = React.memo_value (BoxMesh.memo_shadowMaterial f)
  /\ BoxMesh.el_castShadow el = cs.
Proof.
  intros f p next R f' el.
  pose proof (settled_lifetime props0 us p0) as Hst. fold f p in Hst.
  destruct (lifetime_boxGeometry props0 us p0) as [g0 Hg0]. fold p in Hg0.
  destruct Hst as [_ [_ Hcur] Hdes Hed _ [Hdeps _] _ _ Hsd _].
  destruct (reconcile_spec (Some f) next p) as
    (f1 & g & D & mext & gext & sext & Heq & _ & _ & _ & Hm & Hg & Hs & _).
  { intros ? [= <-]. split; [exact Hdes|]. split; [exact Hed|].
    eapply lookup_lt_Some. exact Hcur. }
  subst f' el R. rewrite Heq. cbn [fst snd].
  change (BoxMesh.material_deps next)
    with (BoxMesh.material_deps (List.last us props0)) in Hm.
  change (BoxMesh.shadowOpacity next)
    with (BoxMesh.shadowOpacity (List.last us props0)) in Hs.
  destruct Hm as [(f0 & [= <-] & _ & Hcm & -> & ->)
                 |(_ & _ & [[[=] _]|(f0 & [= <-] & E & _)])];
    [|congruence].
  destruct Hg as [[Hbg ->]|(Hbg & _)]; [|congruence].
  destruct Hs as [(f0 & [= <-] & _ & Hcs & ->)
                 |([[=]|(f0 & [= <-] & E)] & _)].
  - cbn [app]. rewrite app_nil_r, Hcm, Hcs.
    split; [destruct p; cbn in *; congruence|].
    split; [reflexivity|]. split; [cbn; congruence|]. split; reflexivity.
  - rewrite Hsd in E. unfold React.areHookInputsEqual in E.
    cbn [JS.object_is] in E.
    rewrite (proj2 (same_number_eq _ _) eq_refl) in E. discriminate.
Qed.

(** ** The shadow material memo of a box node *)

Lemma count_shadow_ext (D : list Three.resource) (deps : list JS.value)
    (mext gext sext : list Three.resource) :
  mext = [] \/ mext = [Three.fresh (Three.StandardMaterial deps)] ->
  Forall (fun r => r = Three.fresh (Three.BoxGeometry (JS.num_of_Z 1)
                                      (JS.num_of_Z 1) (JS.num_of_Z 1))) gext ->
  Three.count Three.is_shadow_material (D ++ mext ++ gext ++ sext)
  = Three.count Three.is_shadow_material D
    + Three.count Three.is_shadow_material sext.
Proof.
  intros Hm Hg. rewrite !count_app.
  rewrite (count_none _ gext)
    by (eapply Forall_impl; [exact Hg|]; intros ? ->; reflexivity).
  destruct Hm as [->| ->]; cbn; lia.
Qed.

(** X2: in the pass that follows a pass with props [prev], a shadow
    material is constructed exactly when the shadow opacity is not the same
    number as before (SameValue) and is not [=== 0.0]; when it is the same
    number the cached shadow material, or the cached [null], is kept. *)
Theorem shadow_material_recomputed_iff_opacity_differs
    (p0 : Process.process) (props0 : BoxMesh.BoxProps)
    (us : list BoxMesh.BoxProps) (next : BoxMesh.BoxProps) :
  let f := fst (BoxMesh.lifetime props0 us p0) in
  let p := snd (BoxMesh.lifetime props0 us p0) in
  let before := BoxMesh.shadowOpacity (List.last us props0) in
  let now := BoxMesh.shadowOpacity next in
  let R := BoxMesh.reconcile (Some f) next p in
  let f' := fst (fst R) in
  BoxPass.shadow_materials_created (snd R)
  = BoxPass.shadow_materials_created p
    + (if JS.same_number now before then 0
       else if JS.strict_eq (JS.Num now) (JS.Num JS.zero) then 0 else 1)
  /\ (if JS.same_number now before
      then React.memo_value (BoxMesh.memo_shadowMaterial f')
           = React.memo_value (BoxMesh.memo_shadowMaterial f)
      else if JS.strict_eq (JS.Num now) (JS.Num JS.zero)
      then React.memo_value (BoxMesh.memo_shadowMaterial f') = None
      else exists sm,
             React.memo_value (BoxMesh.memo_shadowMaterial f') = Some sm
             /\ length (Process.objects p) <= sm
             /\ Process.objects (snd R) !! sm
                = Some (Three.fresh (Three.ShadowMaterial now 0 false))).
Proof.
  intros f p before now R f'.
  pose proof (settled_lifetime props0 us p0) as Hst. fold f p in Hst.
  pose proof (settled_step _ _ _ _ next Hst) as Hst'.
  destruct Hst as [_ [_ Hcur] Hdes Hed _ _ _ _ Hsd _].
  destruct (reconcile_spec (Some f) next p) as
    (f1 & g & D & mext & gext & sext & Heq & _ & _ & HlenD & Hm & Hg & Hs
     & HgF & _).
  { intros ? [= <-]. split; [exact Hdes|]. split; [exact Hed|].
    eapply lookup_lt_Some. exact Hcur. }
  subst f' R. rewrite Heq in *. cbn [fst snd] in *.
  destruct Hst' as [_ _ _ _ _ _ _ _ _ Hsh'].
  unfold BoxPass.shadow_materials_created. cbn [Process.objects] in *.
  assert (HD : Three.count Three.is_shadow_material D
               = Three.count Three.is_shadow_material (Process.objects p)
               /\ (mext = [] \/
                   mext = [Three.fresh (Three.StandardMaterial
                                          (BoxMesh.material_deps next))])).
  { destruct Hm as [(f0 & _ & _ & _ & -> & ->)
                   |(_ & -> & [[_ ->]|(f0 & _ & _ & ->)])]; auto.
    split; [apply count_dispose; reflexivity|auto]. }
  destruct HD as [HDc Hmext].
  rewrite (count_shadow_ext _ _ _ _ _ Hmext HgF), HDc.
  fold now in Hs, Hsh'. fold before in Hsd.
  destruct Hs as [(f0 & [= <-] & E & Hcs & ->)
                 |([[=]|(f0 & [= <-] & E)] & _ & Hs)];
    rewrite Hsd in E; unfold React.areHookInputsEqual in E;
    cbn [JS.object_is] in E; rewrite andb_true_r in E; rewrite E.
  - rewrite Hcs. split; [cbn; lia|reflexivity].
  - destruct Hs as [(Hz & Hv & ->)|(Hz & Hv & ->)]; rewrite Hz.
    + split; [cbn; lia|exact Hv].
    + split; [cbn; lia|]. rewrite Hv in Hsh'. destruct Hsh' as [_ Hl].
      eexists. split; [exact Hv|]. split; [lia|exact Hl].
Qed.

(** X3: a [receive_shadow] number that is neither [=== 0.0] nor [> 0] (a
    negative number or NaN) makes the pass hold a shadow material of that
    opacity while no shadow sub-mesh is rendered, at the mount as well as
    in an update after any history. *)
Theorem unrendered_shadow_material (p0 : Process.process)
    (props0 : BoxMesh.BoxProps) (us : list BoxMesh.BoxProps)
    (props : BoxMesh.BoxProps) (x : JS.number) :
  BoxMesh.receive_shadow props = JS.Num x ->
  JS.strict_eq (JS.Num x) (JS.Num JS.zero) = false ->
  JS.num_gt x JS.zero = false ->
  let held (R : BoxMesh.fiber * BoxMesh.element * Process.process) :=
    BoxMesh.el_shadow (snd (fst R)) = None
    /\ exists sm,
         React.memo_value (BoxMesh.memo_shadowMaterial (fst (fst R))) = Some sm
         /\ Process.objects (snd R) !! sm
            = Some (Three.fresh (Three.ShadowMaterial x 0 false)) in
  held (BoxMesh.reconcile None props p0)
  /\ held (BoxMesh.reconcile (Some (fst (BoxMesh.lifetime props0 us p0)))
             props (snd (BoxMesh.lifetime props0 us p0))).
Proof.
  intros Hx Hnz Hgt held.
  assert (Hso : BoxMesh.shadowOpacity props = x)
    by (apply shadowOpacity_number; exact Hx).
  assert (Hheld : forall h0 f p g,
            BoxNode.settled h0 props f p ->
            held (f, BoxMesh.jsx props g
                       (React.memo_value (BoxMesh.memo_material f))
                       (React.memo_value (BoxMesh.memo_shadowMaterial f)), p)).
  { intros h0 f p g [_ _ _ _ _ _ _ _ _ Hsh]. subst held. cbn [fst snd].
    cbn [BoxMesh.jsx BoxMesh.el_shadow]. rewrite Hso in *. rewrite Hgt.
    destruct (React.memo_value (BoxMesh.memo_shadowMaterial f)) as [sm|].
    - split; [reflexivity|]. destruct Hsh as [_ Hl]. eauto.
    - congruence. }
  split.
  - pose proof (settled_mount props p0) as Hst.
    destruct (reconcile_spec None props p0) as
      (f' & g & D & mext & gext & sext & Heq & _).
    { intros f [=]. }
    rewrite Heq in *. cbn [fst snd] in Hst. eapply Hheld. exact Hst.
  - pose proof (settled_lifetime props0 us p0) as Hst0.
    pose proof (settled_step _ _ _ _ props Hst0) as Hst.
    destruct Hst0 as [_ [_ Hcur] Hdes Hed _ _ _ _ _ _].
    destruct (reconcile_spec (Some (fst (BoxMesh.lifetime props0 us p0))) props
                (snd (BoxMesh.lifetime props0 us p0))) as
      (f' & g & D & mext & gext & sext & Heq & _).
    { intros ? [= <-]. split; [exact Hdes|]. split; [exact Hed|].
      eapply lookup_lt_Some. exact Hcur. }
    rewrite Heq in *. cbn [fst snd] in Hst. eapply Hheld. exact Hst.
Qed.

Lemma unrendered_shadow_material_witness :
  let props := Sample.box (JS.Num (JS.num_scaled (-1) (-1))) in
  let R := BoxMesh.reconcile None props Process.initial in
  BoxMesh.el_shadow (snd (fst R)) = None
  /\ exists sm,
       React.memo_value (BoxMesh.memo_shadowMaterial (fst (fst R))) = Some sm
       /\ Process.objects (snd R) !! sm
          = Some (Three.fresh
                    (Three.ShadowMaterial (JS.num_scaled (-1) (-1)) 0 false)).
Proof.
  exact (proj1 (unrendered_shadow_material Process.initial
                  (Sample.box JS.Null) []
                  (Sample.box (JS.Num (JS.num_scaled (-1) (-1))))
                  (JS.num_scaled (-1) (-1)) eq_refl eq_refl eq_refl)).
Defined.

(** ** The texture shown by ViserImage *)

Lemma safe_initial : ImageSlot.safe ViserImage.initial.
Proof.
  split; cbn.
  - reflexivity.
  - intros t [=].
  - intros t r Hl. rewrite lookup_nil in Hl. discriminate.
  - intros l [=].
Qed.

Lemma safe_step (s s' : ViserImage.state) (ev : ViserImage.event) :
  ViserImage.coherent s -> ImageSlot.safe s ->
  ViserImage.step s ev = Some s' -> ImageSlot.safe s'.
Proof.
  intros [Heff Hcan _ _ _ _ _] [Hshown Hslot Hothers Hlatest].
  destruct ev as [format data|c|].
  - (* a render leaves the textures alone *)
    destruct s as [e u [tx ls tr it]].
    cbn [ViserImage.step ViserImage.unmounted ViserImage.effect
         ViserImage.wld ViserImage.loads ViserImage.textures
         ViserImage.textureRef ViserImage.imageTexture] in *.
    destruct u; [discriminate|]. unfold React.commitEffect.
    destruct e as [e|].
    + destruct Heff as [Hdes Hne].
      destruct (React.areHookInputsEqual [format; data] (React.effect_deps e)).
      * intros [= <-]. split; cbn; auto.
      * unfold React.bind, React.ret. rewrite Hdes.
        unfold ViserImage.set_cancelled, ViserImage.textureEffect.
        cbn [ViserImage.loads ViserImage.textures ViserImage.textureRef
             ViserImage.imageTexture].
        intros [= <-].
        split; cbn [ViserImage.wld ViserImage.unmounted ViserImage.loads
                    ViserImage.textures ViserImage.textureRef
                    ViserImage.imageTexture]; auto.
        intros l Hl Hf _. exfalso.
        rewrite length_app, length_alter in Hl. cbn [length] in Hl.
        rewrite lookup_app_r in Hl by (rewrite length_alter; lia).
        rewrite length_alter in Hl.
        replace (length ls + 1 - 1 - length ls) with 0 in Hl by lia.
        injection Hl as <-. discriminate Hf.
    + unfold React.bind, React.ret, ViserImage.textureEffect.
      cbn [ViserImage.loads ViserImage.textures ViserImage.textureRef
           ViserImage.imageTexture].
      intros [= <-]. subst ls.
      split; cbn [ViserImage.wld ViserImage.unmounted ViserImage.loads
                  ViserImage.textures ViserImage.textureRef
                  ViserImage.imageTexture app length]; auto.
      intros l [= <-]. discriminate.
  - (* a completion *)
    cbn [ViserImage.step].
    destruct (ViserImage.loads (ViserImage.wld s) !! c) as [l|] eqn:Hl;
      [|discriminate].
    destruct (ViserImage.fired l) eqn:Hfired; [discriminate|].
    pose proof (complete_eq c _ _ Hl) as Hc. cbn zeta in Hc.
    destruct (ViserImage.complete c (ViserImage.wld s)) as [[] w'].
    cbn [snd] in Hc. intros [= <-]. subst w'.
    pose proof (Hcan _ _ Hl) as Hcl. unfold ViserImage.superseded in Hcl.
    pose proof (lookup_lt_Some _ _ _ Hl) as Hclt.
    destruct s as [e u [tx ls tr it]].
    cbn [ViserImage.unmounted ViserImage.effect ViserImage.wld
         ViserImage.loads ViserImage.textures ViserImage.textureRef
         ViserImage.imageTexture] in *.
    destruct (ViserImage.cancelled l) eqn:Hcanc.
    + (* stale: its texture is disposed at once *)
      split; cbn [ViserImage.unmounted ViserImage.effect ViserImage.wld
                  ViserImage.loads ViserImage.textures ViserImage.textureRef
                  ViserImage.imageTexture].
      * exact Hshown.
      * intros t Ht. destruct (Hslot t Ht) as [c0 Hc0]. exists c0.
        apply lookup_app_l_Some. exact Hc0.
      * intros t r Hr Hne.
        destruct (decide (t < length tx)) as [Ht|Ht].
        -- rewrite lookup_app_l in Hr by exact Ht. eauto.
        -- rewrite lookup_app_r in Hr by lia.
           destruct (t - length tx) as [|k]; [|destruct k; discriminate].
           injection Hr as <-. eauto.
      * rewrite length_alter. intros l' Hl' Hf' Hu.
        rewrite list_lookup_alter in Hl'. case_decide as Hc'.
        -- exfalso. subst c. rewrite Hu, orb_false_r in Hcl.
           symmetry in Hcl. apply Nat.ltb_lt in Hcl. lia.
        -- destruct (Hlatest _ Hl' Hf' Hu) as (t & Ht & Htx).
           exists t. split; [exact Ht|]. apply lookup_app_l_Some. exact Htx.
    + (* current: it takes the slot, the previous texture is disposed *)
      assert (Hlast : c = length ls - 1).
      { symmetry in Hcl. apply orb_false_iff in Hcl as [Hcl _].
        apply Nat.ltb_ge in Hcl. lia. }
      assert (Htx : forall t r,
                match tr with
                | Some old =>
                    Three.dispose old (tx ++ [Three.fresh (Three.Texture c)])
                | None => tx ++ [Three.fresh (Three.Texture c)]
                end !! t = Some r ->
                (t = length tx /\ r = Three.fresh (Three.Texture c))
                \/ (t < length tx
                    /\ exists c0, r = Three.disposed
                                        (Three.fresh (Three.Texture c0)))).
      { intros t r Hr.
        destruct (decide (t < length tx)) as [Ht|Ht].
        - right. split; [exact Ht|].
          destruct tr as [old|].
          + destruct (Hslot old eq_refl) as [c0 Hc0].
            unfold Three.dispose in Hr. rewrite list_lookup_alter in Hr.
            case_decide as Ho.
            * subst t. rewrite lookup_app_l, Hc0 in Hr by exact Ht.
              injection Hr as <-. eauto.
            * rewrite lookup_app_l in Hr by exact Ht.
              eapply Hothers; [exact Hr|congruence].
          + rewrite lookup_app_l in Hr by exact Ht.
            eapply Hothers; [exact Hr|discriminate].
        - left.
          assert (Hr' : (tx ++ [Three.fresh (Three.Texture c)]) !! t = Some r).
          { destruct tr as [old|]; [|exact Hr].
            destruct (Hslot old eq_refl) as [c0 Hc0].
            apply lookup_lt_Some in Hc0.
            unfold Three.dispose in Hr.
            rewrite list_lookup_alter_ne in Hr by lia. exact Hr. }
          rewrite lookup_app_r in Hr' by lia.
          destruct (t - length tx) as [|k] eqn:Ek;
            [|destruct k; discriminate].
          injection Hr' as <-. split; [lia|reflexivity]. }
      assert (Hnew : match tr with
                     | Some old =>
                         Three.dispose old
                           (tx ++ [Three.fresh (Three.Texture c)])
                     | None => tx ++ [Three.fresh (Three.Texture c)]
                     end !! length tx
                     = Some (Three.fresh (Three.Texture c))).
      { destruct tr as [old|].
        - destruct (Hslot old eq_refl) as [c0 Hc0].
          apply lookup_lt_Some in Hc0. unfold Three.dispose.
          rewrite list_lookup_alter_ne by lia.
          rewrite lookup_app_r by lia. rewrite Nat.sub_diag. reflexivity.
        - rewrite lookup_app_r by lia. rewrite Nat.sub_diag. reflexivity. }
      split; cbn [ViserImage.unmounted ViserImage.effect ViserImage.wld
                  ViserImage.loads ViserImage.textures ViserImage.textureRef
                  ViserImage.imageTexture].
      * reflexivity.
      * intros t [= <-]. eauto.
      * intros t r Hr Hne. destruct (Htx t r Hr) as [[-> _]|[_ H]];
          [congruence|exact H].
      * rewrite length_alter. intros _ _ _ _. rewrite <- Hlast. eauto.
  - (* the unmount leaves the textures alone *)
    destruct s as [e u [tx ls tr it]].
    cbn [ViserImage.step ViserImage.unmounted ViserImage.effect
         ViserImage.wld ViserImage.loads ViserImage.textures
         ViserImage.textureRef ViserImage.imageTexture] in *.
    destruct e as [e|]; [|discriminate]. destruct u; [discriminate|].
    destruct Heff as [Hd _]. rewrite Hd. unfold ViserImage.set_cancelled.
    cbn [ViserImage.loads ViserImage.textures ViserImage.textureRef
         ViserImage.imageTexture].
    intros [= <-].
    split; cbn [ViserImage.wld ViserImage.unmounted ViserImage.loads
                ViserImage.textures ViserImage.textureRef
                ViserImage.imageTexture]; auto.
    intros l _ _ [=].
Qed.

Lemma safe_run (evs : list ViserImage.event) (s s' : ViserImage.state) :
  ViserImage.coherent s -> ImageSlot.safe s ->
  ViserImage.run s evs = Some s' -> ImageSlot.safe s'.
Proof.
  revert s. induction evs as [|ev evs IH]; intros s Hco Hsf;
    cbn [ViserImage.run].
  - intros [= <-]. exact Hsf.
  - destruct (ViserImage.step s ev) as [s1|] eqn:Hstep; [|discriminate].
    apply IH.
    + eapply coherent_run with (evs := [ev]); [exact Hco|].
      cbn [ViserImage.run]. rewrite Hstep. reflexivity.
    + eapply safe_step; eauto.
Qed.

(** X5: in any run of renders, completions in any order and an unmount, no
    texture is disposed twice, and the only texture that has not been
    disposed is the one in the slot: every texture a load produced either is
    in [textureRef.current] or has had [dispose()] called exactly once. *)
Theorem textures_disposed_exactly_once (evs : list ViserImage.event)
    (s : ViserImage.state) :
  ViserImage.run ViserImage.initial evs = Some s ->
  forall t r,
    ViserImage.textures (ViserImage.wld s) !! t = Some r ->
    Three.is_texture r = true
    /\ Three.dispose_calls r
       = if decide (ViserImage.textureRef (ViserImage.wld s) = Some t)
         then 0 else 1.
Proof.
  intros Hrun t r Hr.
  destruct (safe_run _ _ _ coherent_initial safe_initial Hrun)
    as [_ Hslot Hothers _].
  case_decide as Ht.
  - destruct (Hslot t Ht) as [c Hc]. rewrite Hc in Hr. injection Hr as <-.
    split; reflexivity.
  - destruct (Hothers t r Hr Ht) as [c ->]. split; reflexivity.
Qed.

Lemma textures_disposed_exactly_once_witness :
  exists s,
    ViserImage.run ViserImage.initial Sample.churn = Some s
    /\ Three.dispose_calls <$> ViserImage.textures (ViserImage.wld s)
       = [1; 0; 1].
Proof.
  eexists. split; [vm_compute; reflexivity|].
  match goal with
  | |- _ <$> ViserImage.textures (ViserImage.wld ?s) = _ =>
      pose proof (textures_disposed_exactly_once Sample.churn s eq_refl) as H
  end.
  cbn [ViserImage.wld ViserImage.textures ViserImage.textureRef] in *.
  pose proof (proj2 (H 0 _ eq_refl)) as H0.
  pose proof (proj2 (H 1 _ eq_refl)) as H1.
  pose proof (proj2 (H 2 _ eq_refl)) as H2.
  cbn [fmap list_fmap]. cbn in H0, H1, H2. rewrite H0, H1, H2. reflexivity.
Defined.

(** X6: the latest image wins, whatever the completion order: while the
    component is mounted, from the moment the load issued last has completed
    the slot holds the texture of that load, also when older loads complete
    after it. *)
Theorem latest_load_wins (evs : list ViserImage.event) (s : ViserImage.state)
    (l : ViserImage.load) :
  ViserImage.run ViserImage.initial evs = Some s ->
  ViserImage.unmounted s = false ->
  let latest := length (ViserImage.loads (ViserImage.wld s)) - 1 in
  ViserImage.loads (ViserImage.wld s) !! latest = Some l ->
  ViserImage.fired l = true ->
  exists t,
    ViserImage.textureRef (ViserImage.wld s) = Some t
    /\ ViserImage.imageTexture (ViserImage.wld s) = Some t
    /\ ViserImage.textures (ViserImage.wld s) !! t
       = Some (Three.fresh (Three.Texture latest)).
Proof.
  intros Hrun Hu latest Hl Hf.
  destruct (safe_run _ _ _ coherent_initial safe_initial Hrun)
    as [Hshown _ _ Hlatest].
  destruct (Hlatest l Hl Hf Hu) as (t & Ht & Htx).
  exists t. rewrite Hshown. auto.
Qed.

Lemma latest_load_wins_witness :
  exists s t,
    ViserImage.run ViserImage.initial ImageSlot.overtaken = Some s
    /\ ViserImage.textureRef (ViserImage.wld s) = Some t
    /\ ViserImage.textures (ViserImage.wld s) !! t
       = Some (Three.fresh (Three.Texture 1)).
Proof.
  eexists. 
  match goal with
  | |- exists t, ViserImage.run _ _ = Some ?s /\ _ =>
      assert (Hrun : ViserImage.run ViserImage.initial ImageSlot.overtaken
                     = Some s) by (vm_compute; reflexivity);
      destruct (latest_load_wins ImageSlot.overtaken s
                  {| ViserImage.cancelled := false; ViserImage.fired := true |}
                  Hrun eq_refl eq_refl eq_refl) as (t & Ht & _ & Htx)
  end.
  exists t. split; [exact Hrun|]. split; [exact Ht|exact Htx].
Defined.

(** X7: a render with the same [_format] and [_data] as the render before
    it issues no load and cancels none: it leaves the component exactly as
    it was. *)
Theorem rerender_same_image_is_noop (s s1 : ViserImage.state)
    (format data : JS.value) :
  ViserImage.step s (ViserImage.Render format data) = Some s1 ->
  ViserImage.step s1 (ViserImage.Render format data) = Some s1.
Proof.
  destruct s as [e u w]. cbn [ViserImage.step ViserImage.unmounted
                              ViserImage.effect ViserImage.wld].
  destruct u; [discriminate|].
  destruct (React.commitEffect e ViserImage.textureEffect [format; data] w)
    as [e1 w1] eqn:Hc.
  intros [= <-].
  cbn [ViserImage.step ViserImage.unmounted ViserImage.effect ViserImage.wld].
  assert (He1 : React.areHookInputsEqual [format; data] (React.effect_deps e1)
                = true).
  { unfold React.commitEffect in Hc. destruct e as [e|].
    - destruct (React.areHookInputsEqual [format; data] (React.effect_deps e))
        eqn:E.
      + injection Hc as <- <-. exact E.
      + unfold React.bind, React.ret in Hc.
        destruct (React.effect_destroy e w) as [[] w2].
        destruct (ViserImage.textureEffect w2) as [d w3].
        injection Hc as <- <-. apply areHookInputsEqual_refl.
    - unfold React.bind, React.ret in Hc.
      destruct (ViserImage.textureEffect w) as [d w3].
      injection Hc as <- <-. apply areHookInputsEqual_refl. }
  unfold React.commitEffect. rewrite He1. reflexivity.
Qed.

Lemma rerender_same_image_is_noop_witness :
  exists s1,
    ViserImage.step ViserImage.initial
      (ViserImage.Render (JS.Str "png") (JS.Ref 1)) = Some s1
    /\ ViserImage.step s1 (ViserImage.Render (JS.Str "png") (JS.Ref 1))
       = Some s1.
Proof.
  eexists. split; [reflexivity|].
  apply (rerender_same_image_is_noop ViserImage.initial). reflexivity.
Defined.

(** ** The shadow material of BasicMesh *)

Lemma shadowEffect_eq (sm : option nat) (p : Process.process) :
  BasicMesh.shadowEffect sm p = (BasicMesh.cleanup_of sm, p).
Proof. destruct sm; reflexivity. Qed.

Lemma basic_createShadowMaterial_spec (x : JS.number) (p : Process.process) :
  (JS.strict_eq (JS.Num x) (JS.Num JS.zero) = true
   /\ BasicMesh.createShadowMaterial x p = (None, p))
  \/ (JS.strict_eq (JS.Num x) (JS.Num JS.zero) = false
      /\ BasicMesh.createShadowMaterial x p
         = (Some (length (Process.objects p)),
            {| Process.objects :=
                 Process.objects p ++ [Three.fresh (Three.ShadowMaterial x 0 false)];
               Process.boxGeometry := Process.boxGeometry p |})).
Proof.
  unfold BasicMesh.createShadowMaterial.
  destruct (JS.strict_eq (JS.Num x) (JS.Num JS.zero)); [left|right]; split;
    reflexivity.
Qed.

Lemma live_shadow_app (h1 h2 : list Three.resource) :
  BasicMesh.live_shadow_materials (h1 ++ h2)
  = BasicMesh.live_shadow_materials h1 + BasicMesh.live_shadow_materials h2.
Proof. apply count_app. Qed.

Lemma live_shadow_dispose (h : list Three.resource) (a : nat) (x : JS.number) :
  h !! a = Some (Three.fresh (Three.ShadowMaterial x 0 false)) ->
  BasicMesh.live_shadow_materials (Three.dispose a h) + 1
  = BasicMesh.live_shadow_materials h.
Proof.
  intros Hl.
  pose proof (count_alter (fun r => Three.is_shadow_material r && Three.live r)
                Three.disposed _ _ _ Hl) as H.
  cbn in H. unfold BasicMesh.live_shadow_materials, Three.dispose. lia.
Qed.

Lemma basic_settled_mount (o : JS.number) (p : Process.process) :
  BasicMesh.settled (Process.objects p) o
    (fst (BasicMesh.reconcile None o p)) (snd (BasicMesh.reconcile None o p)).
Proof.
  unfold BasicMesh.reconcile, React.bind.
  cbn [fmap option_fmap option_map]. rewrite useMemo_mount.
  destruct (basic_createShadowMaterial_spec o p) as [[Hz ->]|[Hz ->]];
    cbn [fst snd React.memo_value]; rewrite commitEffect_mount, shadowEffect_eq;
    cbn [fst snd React.ret];
    split;
    cbn [Process.objects BasicMesh.memo_shadowMaterial
         BasicMesh.effect_shadowMaterial React.memo_value React.memo_deps
         React.effect_destroy React.effect_deps];
    try reflexivity.
  - apply take_ge. lia.
  - exact Hz.
  - intros a r Hle _ Hl. apply lookup_lt_Some in Hl. lia.
  - lia.
  - apply take_app_length.
  - split; [exact Hz|]. split; [lia|].
    rewrite lookup_app_r by lia. rewrite Nat.sub_diag. reflexivity.
  - intros a r Hle Hne Hl. exfalso.
    rewrite lookup_app_r in Hl by exact Hle.
    destruct (a - length (Process.objects p)) as [|k] eqn:Ek;
      [|destruct k; discriminate].
    apply Hne. f_equal. lia.
  - rewrite live_shadow_app. reflexivity.
Qed.

Lemma basic_settled_step h0 last f p (o : JS.number) :
  BasicMesh.settled h0 last f p ->
  BasicMesh.settled h0 o
    (fst (BasicMesh.reconcile (Some f) o p))
    (snd (BasicMesh.reconcile (Some f) o p)).
Proof.
  intros [Hpre Hdeps Hcur Hdes Hed Hold Hlive].
  unfold BasicMesh.reconcile, React.bind.
  cbn [fmap option_fmap option_map].
  destruct (React.areHookInputsEqual [JS.Num o]
              (React.memo_deps (BasicMesh.memo_shadowMaterial f))) eqn:E.
  - (* the same opacity: nothing runs *)
    rewrite useMemo_hit by exact E. unfold React.commitEffect.
    rewrite Hed, areHookInputsEqual_refl. unfold React.ret. cbn [fst snd].
    rewrite Hdeps in E. unfold React.areHookInputsEqual in E.
    cbn [JS.object_is] in E. rewrite andb_true_r in E.
    apply same_number_eq in E. subst o.
    split; cbn [BasicMesh.memo_shadowMaterial BasicMesh.effect_shadowMaterial];
      assumption.
  - (* another opacity: the factory runs *)
    rewrite useMemo_miss by exact E.
    assert (Hclean : forall q,
              React.effect_destroy (BasicMesh.effect_shadowMaterial f) q
              = (tt, {| Process.objects :=
                          match React.memo_value
                                  (BasicMesh.memo_shadowMaterial f) with
                          | Some a => Three.dispose a (Process.objects q)
                          | None => Process.objects q
                          end;
                        Process.boxGeometry := Process.boxGeometry q |})).
    { intros q. rewrite Hdes.
      destruct (React.memo_value (BasicMesh.memo_shadowMaterial f));
        [reflexivity|destruct q; reflexivity]. }
    destruct (basic_createShadowMaterial_spec o p) as [[Hz ->]|[Hz ->]];
      cbn [fst snd React.memo_value]; unfold React.commitEffect; rewrite Hed;
      cbn [React.areHookInputsEqual].
    + (* no shadow material is needed any more *)
      destruct (React.memo_value (BasicMesh.memo_shadowMaterial f))
        as [old|] eqn:Hv; cbn [BasicMesh.as_value JS.object_is andb].
      * unfold React.bind. rewrite Hclean, ?Hv, shadowEffect_eq.
        cbn [React.ret fst snd]. destruct Hcur as (Hnz & Hle & Hl).
        split;
          cbn [Process.objects BasicMesh.memo_shadowMaterial
               BasicMesh.effect_shadowMaterial React.memo_value
               React.memo_deps React.effect_destroy React.effect_deps];
          try reflexivity.
        -- unfold Three.dispose. rewrite take_alter_ge by exact Hle. exact Hpre.
        -- exact Hz.
        -- intros a r Hla _ Hr. unfold Three.dispose in Hr.
           rewrite list_lookup_alter in Hr. case_decide as Ha.
           ++ subst a. rewrite Hl in Hr. injection Hr as <-. eauto.
           ++ eapply Hold; [exact Hla| |exact Hr]. congruence.
        -- pose proof (live_shadow_dispose _ _ _ Hl). lia.
      * cbn [React.ret fst snd].
        split;
          cbn [Process.objects BasicMesh.memo_shadowMaterial
               BasicMesh.effect_shadowMaterial React.memo_value
               React.memo_deps React.effect_destroy React.effect_deps];
          try reflexivity; try assumption.
    + (* a new shadow material replaces the cached one, if any *)
      change (BasicMesh.as_value (Some (length (Process.objects p))))
        with (JS.Ref (length (Process.objects p))).
      replace (JS.object_is (JS.Ref (length (Process.objects p)))
                 (BasicMesh.as_value
                    (React.memo_value (BasicMesh.memo_shadowMaterial f))))
        with false.
      2:{ destruct (React.memo_value (BasicMesh.memo_shadowMaterial f))
            as [old|]; [|reflexivity].
          destruct Hcur as (_ & _ & Hl). apply lookup_lt_Some in Hl.
          cbn. symmetry. apply Nat.eqb_neq. lia. }
      cbn [andb]. unfold React.bind. rewrite Hclean, shadowEffect_eq.
      cbn [React.ret fst snd Process.objects Process.boxGeometry].
      destruct (React.memo_value (BasicMesh.memo_shadowMaterial f))
        as [old|] eqn:Hv.
      * destruct Hcur as (Hnz & Hle & Hl).
        pose proof (lookup_lt_Some _ _ _ Hl) as Hlt.
        assert (HD : Three.dispose old
                       (Process.objects p
                        ++ [Three.fresh (Three.ShadowMaterial o 0 false)])
                     = Three.dispose old (Process.objects p)
                       ++ [Three.fresh (Three.ShadowMaterial o 0 false)])
          by (unfold Three.dispose; apply alter_app_l; exact Hlt).
        rewrite HD.
        assert (HlD : length (Three.dispose old (Process.objects p))
                      = length (Process.objects p))
          by (unfold Three.dispose; apply length_alter).
        split;
          cbn [Process.objects BasicMesh.memo_shadowMaterial
               BasicMesh.effect_shadowMaterial React.memo_value
               React.memo_deps React.effect_destroy React.effect_deps];
          try reflexivity.
        -- rewrite take_app_le by lia. unfold Three.dispose.
           rewrite take_alter_ge by exact Hle. exact Hpre.
        -- split; [exact Hz|]. split; [lia|].
           rewrite lookup_app_r by lia. rewrite HlD, Nat.sub_diag. reflexivity.
        -- intros a r Hla Hne Hr.
           destruct (decide (a < length (Process.objects p))) as [Ha|Ha].
           ++ rewrite lookup_app_l in Hr by lia. unfold Three.dispose in Hr.
              rewrite list_lookup_alter in Hr. case_decide as Ho.
              ** subst a. rewrite Hl in Hr. injection Hr as <-. eauto.
              ** eapply Hold; [exact Hla| |exact Hr]. congruence.
           ++ exfalso. rewrite lookup_app_r in Hr by lia. rewrite HlD in Hr.
              destruct (a - length (Process.objects p)) as [|k] eqn:Ek;
                [|destruct k; discriminate].
              apply Hne. f_equal. lia.
        -- rewrite live_shadow_app. pose proof (live_shadow_dispose _ _ _ Hl).
           cbn. lia.
      * split;
          cbn [Process.objects BasicMesh.memo_shadowMaterial
               BasicMesh.effect_shadowMaterial React.memo_value
               React.memo_deps React.effect_destroy React.effect_deps];
          try reflexivity.
        -- rewrite take_app_le; [exact Hpre|].
           rewrite <- Hpre. rewrite length_take. lia.
        -- split; [exact Hz|]. split.
           ++ rewrite <- Hpre at 1. rewrite length_take. lia.
           ++ rewrite lookup_app_r by lia. rewrite Nat.sub_diag. reflexivity.
        -- intros a r Hla Hne Hr.
           destruct (decide (a < length (Process.objects p))) as [Ha|Ha].
           ++ rewrite lookup_app_l in Hr by lia.
              eapply Hold; [exact Hla| |exact Hr]. discriminate.
           ++ exfalso. rewrite lookup_app_r in Hr by lia.
              destruct (a - length (Process.objects p)) as [|k] eqn:Ek;
                [|destruct k; discriminate].
              apply Hne. f_equal. lia.
        -- rewrite live_shadow_app, Hlive. cbn. lia.
Qed.

Lemma basic_settled_updates h0 last f p os :
  BasicMesh.settled h0 last f p ->
  BasicMesh.settled h0 (List.last os last)
    (fst (BasicMesh.updates f os p)) (snd (BasicMesh.updates f os p)).
Proof.
  revert last f p. induction os as [|o os IH]; intros last f p H.
  - exact H.
  - cbn [BasicMesh.updates]. unfold React.bind.
    pose proof (basic_settled_step _ _ _ _ o H) as H'.
    destruct (BasicMesh.reconcile (Some f) o p) as [f1 p1].
    cbn [fst snd] in *. rewrite last_cons. apply IH. exact H'.
Qed.

Lemma basic_settled_lifetime o0 os p :
  BasicMesh.settled (Process.objects p) (List.last os o0)
    (fst (BasicMesh.lifetime o0 os p)) (snd (BasicMesh.lifetime o0 os p)).
Proof.
  unfold BasicMesh.lifetime, React.bind.
  pose proof (basic_settled_mount o0 p) as H.
  destruct (BasicMesh.reconcile None o0 p) as [f p1]. cbn [fst snd] in *.
  apply basic_settled_updates. exact H.
Qed.

Lemma count_take_drop (P : Three.resource -> bool) (n : nat)
    (h : list Three.resource) :
  Three.count P h = Three.count P (take n h) + Three.count P (drop n h).
Proof. rewrite <- (take_drop n h) at 1. apply count_app. Qed.

(** X8: with the clean-up effect of the fix, the shadow material of a
    BasicMesh does not leak.  After the mount and any sequence of shadow
    opacities, a shadow material is cached exactly when the last opacity is
    not [=== 0.0]; it is the only live one among those constructed for the
    mesh, every other one has had [dispose()] called exactly once, and after
    the unmount so has every one. *)
Theorem basic_shadow_material_released (p0 : Process.process)
    (o0 : JS.number) (os : list JS.number) :
  let f := fst (BasicMesh.lifetime o0 os p0) in
  let p := snd (BasicMesh.lifetime o0 os p0) in
  let cached := React.memo_value (BasicMesh.memo_shadowMaterial f) in
  let n0 := length (Process.objects p0) in
  let needed :=
    negb (JS.strict_eq (JS.Num (List.last os o0)) (JS.Num JS.zero)) in
  (is_Some cached <-> needed = true)
  /\ BasicMesh.live_shadow_materials (drop n0 (Process.objects p))
     = (if needed then 1 else 0)
  /\ (forall a r,
        drop n0 (Process.objects p) !! a = Some r ->
        Three.is_shadow_material r = true
        /\ Three.dispose_calls r
           = if decide (cached = Some (n0 + a)) then 0 else 1)
  /\ (let p' := snd (BasicMesh.unmount f p) in
      BasicMesh.live_shadow_materials (drop n0 (Process.objects p')) = 0
      /\ forall a r,
           drop n0 (Process.objects p') !! a = Some r ->
           Three.is_shadow_material r = true /\ Three.dispose_calls r = 1).
Proof.
  intros f p cached n0 needed.
  destruct (basic_settled_lifetime o0 os p0)
    as [Hpre Hdeps Hcur Hdes Hed Hold Hlive].
  fold f p in Hpre, Hdeps, Hcur, Hdes, Hed, Hold, Hlive.
  fold cached in Hcur, Hdes, Hed, Hold, Hlive. fold n0 in Hpre, Hold, Hcur.
  assert (Hneeded : is_Some cached <-> needed = true).
  { subst needed. destruct cached as [sm|].
    - destruct Hcur as [-> _]. split; [reflexivity|eauto].
    - rewrite Hcur. split; [intros [? [=]]|discriminate]. }
  assert (Hsplit : forall h,
            take n0 h = Process.objects p0 ->
            BasicMesh.live_shadow_materials h
            = BasicMesh.live_shadow_materials (Process.objects p0)
              + BasicMesh.live_shadow_materials (drop n0 h)).
  { intros h Hh. unfold BasicMesh.live_shadow_materials.
    rewrite (count_take_drop _ n0 h), Hh. reflexivity. }
  assert (Hpoint : forall a r,
            drop n0 (Process.objects p) !! a = Some r ->
            Three.is_shadow_material r = true
            /\ Three.dispose_calls r
               = if decide (cached = Some (n0 + a)) then 0 else 1).
  { intros a r Hr. rewrite lookup_drop in Hr. case_decide as Ha.
    - rewrite Ha in Hcur. destruct Hcur as (_ & _ & Hl).
      rewrite Hl in Hr. injection Hr as <-. split; reflexivity.
    - destruct (Hold (n0 + a) r ltac:(lia) Ha Hr) as [x ->].
      split; reflexivity. }
  split; [exact Hneeded|]. split; [|split; [exact Hpoint|]].
  - pose proof (Hsplit _ Hpre) as H. rewrite Hlive in H.
    destruct cached as [sm|]; destruct needed; try lia.
    + pose proof (proj1 Hneeded ltac:(eauto)). discriminate.
    + destruct (proj2 Hneeded eq_refl) as [? [=]].
  - cbn zeta. unfold BasicMesh.unmount. rewrite Hdes.
    destruct cached as [sm|] eqn:Hc; cbn [BasicMesh.cleanup_of].
    + destruct Hcur as (_ & Hle & Hl).
      unfold Process.dispose. cbn [snd Process.objects].
      assert (Hpre' : take n0 (Three.dispose sm (Process.objects p))
                      = Process.objects p0)
        by (unfold Three.dispose; rewrite take_alter_ge by exact Hle;
            exact Hpre).
      split.
      * pose proof (Hsplit _ Hpre') as H.
        pose proof (live_shadow_dispose _ _ _ Hl). lia.
      * intros a r Hr. rewrite lookup_drop in Hr. unfold Three.dispose in Hr.
        rewrite list_lookup_alter in Hr. case_decide as Ha.
        -- rewrite Hl in Hr. injection Hr as <-. split; reflexivity.
        -- destruct (Hold (n0 + a) r ltac:(lia) ltac:(congruence) Hr) as [x ->].
           split; reflexivity.
    + cbn [React.ret snd]. split.
      * pose proof (Hsplit _ Hpre) as H. lia.
      * intros a r Hr. rewrite lookup_drop in Hr.
        destruct (Hold (n0 + a) r ltac:(lia) ltac:(discriminate) Hr) as [x ->].
        split; reflexivity.
Qed.

(** ** The material of a grid *)

Lemma grid_mount (props : Grid.GridProps) (w : list Grid.material) :
  Grid.reconcile None props w
  = ({| Grid.memo_material :=
          {| React.memo_value := length w; React.memo_deps := [] |};
        Grid.effect_uniforms :=
          {| React.effect_destroy := React.ret tt;
             React.effect_deps :=
               Grid.effect_deps (length w) (Grid.destructure props) |} |},
     {| Grid.el_frustumCulled := false;
        Grid.el_material := length w;
        Grid.el_receiveShadow := true;
        Grid.el_args := Grid.args props |},
     w ++ [Grid.write (Grid.destructure props) Grid.constructed]).
Proof.
  unfold Grid.reconcile, React.bind.
  cbn [fmap option_fmap option_map].
  rewrite useMemo_mount. cbn [fst snd Grid.createMaterial React.memo_value].
  rewrite commitEffect_mount. unfold Grid.uniformsEffect, React.ret.
  cbn [fst snd].
  replace (alter (Grid.write (Grid.destructure props)) (length w)
             (w ++ [Grid.constructed]))
    with (w ++ [Grid.write (Grid.destructure props) Grid.constructed]).
  - reflexivity.
  - rewrite alter_app_r_alt by lia. rewrite Nat.sub_diag. reflexivity.
Qed.

(** An update of a grid whose effect dependencies are unchanged. *)
Lemma grid_update_hit (f : Grid.fiber) (props : Grid.GridProps)
    (w : list Grid.material) :
  React.areHookInputsEqual
    (Grid.effect_deps (React.memo_value (Grid.memo_material f))
       (Grid.destructure props))
    (React.effect_deps (Grid.effect_uniforms f)) = true ->
  Grid.reconcile (Some f) props w
  = (f,
     {| Grid.el_frustumCulled := false;
        Grid.el_material := React.memo_value (Grid.memo_material f);
        Grid.el_receiveShadow := true;
        Grid.el_args := Grid.args props |},
     w).
Proof.
  intros H. unfold Grid.reconcile, React.bind.
  cbn [fmap option_fmap option_map].
  rewrite useMemo_hit by reflexivity.
  unfold React.commitEffect. rewrite H. unfold React.ret.
  destruct f as [cm e]. reflexivity.
Qed.

(** An update of a grid one of whose effect dependencies changed. *)
Lemma grid_update_miss (f : Grid.fiber) (props : Grid.GridProps)
    (w : list Grid.material) :
  React.effect_destroy (Grid.effect_uniforms f) = React.ret tt ->
  React.areHookInputsEqual
    (Grid.effect_deps (React.memo_value (Grid.memo_material f))
       (Grid.destructure props))
    (React.effect_deps (Grid.effect_uniforms f)) = false ->
  Grid.reconcile (Some f) props w
  = ({| Grid.memo_material := Grid.memo_material f;
        Grid.effect_uniforms :=
          {| React.effect_destroy := React.ret tt;
             React.effect_deps :=
               Grid.effect_deps (React.memo_value (Grid.memo_material f))
                 (Grid.destructure props) |} |},
     {| Grid.el_frustumCulled := false;
        Grid.el_material := React.memo_value (Grid.memo_material f);
        Grid.el_receiveShadow := true;
        Grid.el_args := Grid.args props |},
     alter (Grid.write (Grid.destructure props))
       (React.memo_value (Grid.memo_material f)) w).
Proof.
  intros Hd H. unfold Grid.reconcile, React.bind.
  cbn [fmap option_fmap option_map].
  rewrite useMemo_hit by reflexivity.
  unfold React.commitEffect. rewrite H, Hd. unfold React.bind, React.ret.
  reflexivity.
Qed.

Lemma grid_settled_mount (props : Grid.GridProps) (w : list Grid.material) :
  Grid.settled w props (fst (fst (Grid.reconcile None props w)))
    (snd (Grid.reconcile None props w)).
Proof.
  rewrite grid_mount. cbn [fst snd].
  split; cbn [Grid.memo_material Grid.effect_uniforms React.memo_value
              React.memo_deps React.effect_destroy React.effect_deps].
  - split.
    + rewrite length_app. cbn [length]. lia.
    + rewrite take_app_length. reflexivity.
  - reflexivity.
  - reflexivity.
  - reflexivity.
  - exists (Grid.destructure props), Grid.constructed. split; [reflexivity|].
    split.
    + rewrite lookup_app_r by lia. rewrite Nat.sub_diag. reflexivity.
    + apply areHookInputsEqual_refl.
Qed.

Lemma grid_settled_step (w0 : list Grid.material) (last props : Grid.GridProps)
    (f : Grid.fiber) (w : list Grid.material) :
  Grid.settled w0 last f w ->
  Grid.settled w0 props (fst (fst (Grid.reconcile (Some f) props w)))
    (snd (Grid.reconcile (Some f) props w)).
Proof.
  intros [[Hlen Htake] Hm Hmd Hnc (b & m0 & Hdeps & Hlook & Heq)].
  destruct (React.areHookInputsEqual
              (Grid.effect_deps (React.memo_value (Grid.memo_material f))
                 (Grid.destructure props))
              (React.effect_deps (Grid.effect_uniforms f))) eqn:E.
  - rewrite (grid_update_hit f props w E). cbn [fst snd].
    split; try assumption; [split; assumption|].
    exists b, m0. split; [exact Hdeps|]. split; [exact Hlook|].
    rewrite Hm, Hdeps in E. exact E.
  - rewrite (grid_update_miss f props w Hnc E). cbn [fst snd].
    rewrite Hm.
    split; cbn [Grid.memo_material Grid.effect_uniforms React.memo_value
                React.memo_deps React.effect_destroy React.effect_deps].
    + split.
      * rewrite length_alter. exact Hlen.
      * rewrite take_alter_ge by lia. exact Htake.
    + exact Hm.
    + exact Hmd.
    + reflexivity.
    + exists (Grid.destructure props), (Grid.write b m0).
      split; [reflexivity|]. split.
      * rewrite list_lookup_alter. case_decide; [|congruence].
        rewrite Hlook. reflexivity.
      * apply areHookInputsEqual_refl.
Qed.

Lemma grid_settled_updates (w0 : list Grid.material) (last : Grid.GridProps)
    (f : Grid.fiber) (w : list Grid.material) (us : list Grid.GridProps) :
  Grid.settled w0 last f w ->
  Grid.settled w0 (List.last us last)
    (fst (Grid.updates f us w)) (snd (Grid.updates f us w)).
Proof.
  revert last f w. induction us as [|props us IH]; intros last f w H.
  - exact H.
  - rewrite last_cons. cbn [Grid.updates]. unfold React.bind.
    pose proof (grid_settled_step w0 last props f w H) as H1.
    destruct (Grid.reconcile (Some f) props w) as [[f1 el] w1].
    cbn [fst snd] in *. apply IH. exact H1.
Qed.

Lemma grid_settled_lifetime (props0 : Grid.GridProps)
    (us : list Grid.GridProps) (w0 : list Grid.material) :
  Grid.settled w0 (List.last us props0)
    (fst (Grid.lifetime props0 us w0)) (snd (Grid.lifetime props0 us w0)).
Proof.
  unfold Grid.lifetime, React.bind.
  pose proof (grid_settled_mount props0 w0) as H.
  destruct (Grid.reconcile None props0 w0) as [[f el] w1]. cbn [fst snd] in *.
  apply grid_settled_updates. exact H.
Qed.

(** What the comparison of two dependency arrays of the effect says about
    the variables in them. *)
Lemma grid_deps_equal (m : nat) (b c : Grid.bound) (m0 : Grid.material) :
  React.areHookInputsEqual (Grid.effect_deps m b) (Grid.effect_deps m c)
  = true ->
  Grid.mirrors (Grid.write c m0) b.
Proof.
  unfold Grid.effect_deps. cbn [React.areHookInputsEqual]. intros H.
  repeat (apply andb_prop in H as [?H H]).
  cbn [JS.object_is] in *.
  repeat match goal with
  | H : JS.same_number _ _ = true |- _ => apply same_number_eq in H
  | H : Bool.eqb _ _ = true |- _ => apply Bool.eqb_prop in H
  end.
  unfold Grid.mirrors, Grid.write.
  cbn [Grid.u_cellSize Grid.u_sectionSize Grid.u_fadeDistance
       Grid.u_fadeStrength Grid.u_fadeFrom Grid.u_cellThickness
       Grid.u_sectionThickness Grid.u_cellColor Grid.u_sectionColor
       Grid.u_infiniteGrid Grid.u_followCamera Grid.u_planeColor
       Grid.u_planeOpacity Grid.u_shadowOpacity Grid.m_side
       Grid.m_needsUpdate].
  repeat split; try congruence; eexists; (split; [reflexivity|assumption]).
Qed.

(** X9: Over the whole life of a grid, whatever the props of its mount and
    of its updates, exactly one shader material is constructed: the
    materials that existed before are untouched, every pass renders the mesh
    with that one material, and the unmount runs no clean-up, so the world
    of materials is left as it is. *)
Theorem grid_material_constructed_once (props0 : Grid.GridProps)
    (us : list Grid.GridProps) (w0 : list Grid.material) :
  let R := Grid.lifetime props0 us w0 in
  length (snd R) = S (length w0)
  /\ take (length w0) (snd R) = w0
  /\ React.memo_value (Grid.memo_material (fst R)) = length w0
  /\ (forall props,
        Grid.el_material (snd (fst (Grid.reconcile (Some (fst R)) props (snd R))))
        = length w0
        /\ length (snd (Grid.reconcile (Some (fst R)) props (snd R)))
           = S (length w0))
  /\ snd (Grid.unmount (fst R) (snd R)) = snd R.
Proof.
  intros R. subst R.
  pose proof (grid_settled_lifetime props0 us w0) as H.
  destruct (Grid.lifetime props0 us w0) as [f w]. cbn [fst snd] in *.
  pose proof H as [[Hlen Htake] Hm Hmd Hnc Hw].
  split; [exact Hlen|]. split; [exact Htake|]. split; [exact Hm|]. split.
  - intros props.
    pose proof (grid_settled_step w0 _ props f w H) as [[Hlen' _] _ _ _ _].
    split; [|exact Hlen'].
    destruct (React.areHookInputsEqual
                (Grid.effect_deps (React.memo_value (Grid.memo_material f))
                   (Grid.destructure props))
                (React.effect_deps (Grid.effect_uniforms f))) eqn:E.
    + rewrite (grid_update_hit f props w E). exact Hm.
    + rewrite (grid_update_miss f props w Hnc E). exact Hm.
  - unfold Grid.unmount. rewrite Hnc. reflexivity.
Qed.

(** X10: After the mount and any sequence of updates of a grid, its
    material holds the props of the last pass: every numeric and boolean
    uniform equals the prop when it was given and the default of the
    component when it was left out, every colour uniform and [side] was last
    set to a value that [Object.is] identifies with the prop or, when it was
    left out, to the default, and [needsUpdate] is set. *)
Theorem grid_uniforms_mirror_props (props0 : Grid.GridProps)
    (us : list Grid.GridProps) (w0 : list Grid.material) :
  let R := Grid.lifetime props0 us w0 in
  let props := List.last us props0 in
  let given (v : JS.value) (u : option JS.value) :=
    exists c, u = Some c /\ JS.object_is v c = true in
  exists m,
    snd R !! length w0 = Some m
    /\ Grid.u_cellSize m
       = default (JS.num_scaled 1 (-1)) (Grid.cellSize props)
    /\ Grid.u_sectionSize m = default (JS.num_of_Z 1) (Grid.sectionSize props)
    /\ Grid.u_fadeDistance m
       = default (JS.num_of_Z 100) (Grid.fadeDistance props)
    /\ Grid.u_fadeStrength m
       = default (JS.num_of_Z 1) (Grid.fadeStrength props)
    /\ Grid.u_fadeFrom m = default (JS.num_of_Z 1) (Grid.fadeFrom props)
    /\ Grid.u_cellThickness m
       = default (JS.num_scaled 1 (-1)) (Grid.cellThickness props)
    /\ Grid.u_sectionThickness m
       = default (JS.num_of_Z 1) (Grid.sectionThickness props)
    /\ Grid.u_infiniteGrid m = default false (Grid.infiniteGrid props)
    /\ Grid.u_followCamera m = default false (Grid.followCamera props)
    /\ Grid.u_planeOpacity m
       = default (JS.num_of_Z 0) (Grid.planeOpacity props)
    /\ Grid.u_shadowOpacity m
       = default (JS.num_of_Z 0) (Grid.shadowOpacity props)
    /\ given (default (JS.Str "#000000") (Grid.cellColor props))
         (Grid.u_cellColor m)
    /\ given (default (JS.Str "#2080ff") (Grid.sectionColor props))
         (Grid.u_sectionColor m)
    /\ given (default (JS.Str "#ffffff") (Grid.planeColor props))
         (Grid.u_planeColor m)
    /\ given (default Grid.BackSide (Grid.side props))
         (Grid.m_side m)
    /\ Grid.m_needsUpdate m = true.
Proof.
  intros R props given. subst R.
  pose proof (grid_settled_lifetime props0 us w0)
    as [_ _ _ _ (b & m0 & Hdeps & Hlook & Heq)].
  exists (Grid.write b m0). split; [exact Hlook|].
  exact (grid_deps_equal (length w0) _ b m0 Heq).
Qed.

(** X11: A pass of a mounted grid whose props bind the same values as the
    props of the pass before (a prop left out against its default given
    explicitly, other [args]) writes nothing to the material: no uniform is
    assigned and [needsUpdate] is not set again. *)
Theorem grid_same_values_write_nothing (props0 : Grid.GridProps)
    (us : list Grid.GridProps) (w0 : list Grid.material)
    (props : Grid.GridProps) :
  Grid.destructure props = Grid.destructure (List.last us props0) ->
  let R := Grid.lifetime props0 us w0 in
  Grid.reconcile (Some (fst R)) props (snd R)
  = (fst R,
     {| Grid.el_frustumCulled := false;
        Grid.el_material := length w0;
        Grid.el_receiveShadow := true;
        Grid.el_args := Grid.args props |},
     snd R).
Proof.
  intros Hsame R. subst R.
  pose proof (grid_settled_lifetime props0 us w0)
    as [_ Hm _ _ (b & m0 & Hdeps & Hlook & Heq)].
  destruct (Grid.lifetime props0 us w0) as [f w]. cbn [fst snd] in *.
  rewrite <- Hm. apply grid_update_hit.
  rewrite Hm, Hdeps, Hsame. exact Heq.
Qed.

Lemma grid_same_values_write_nothing_witness :
  let bare :=
    {| Grid.args := None; Grid.cellColor := None; Grid.sectionColor := None;
       Grid.cellSize := None; Grid.sectionSize := None;
       Grid.followCamera := None; Grid.infiniteGrid := None;
       Grid.fadeDistance := None; Grid.fadeStrength := None;
       Grid.fadeFrom := None; Grid.cellThickness := None;
       Grid.sectionThickness := None; Grid.side := None;
       Grid.planeColor := None; Grid.planeOpacity := None;
       Grid.shadowOpacity := None |} in
  let explicit :=
    {| Grid.args := Some (JS.num_of_Z 10, JS.num_of_Z 10);
       Grid.cellColor := Some (JS.Str "#000000"); Grid.sectionColor := None;
       Grid.cellSize := Some (JS.num_scaled 1 (-1)); Grid.sectionSize := None;
       Grid.followCamera := Some false; Grid.infiniteGrid := None;
       Grid.fadeDistance := Some (JS.num_of_Z 100); Grid.fadeStrength := None;
       Grid.fadeFrom := None; Grid.cellThickness := None;
       Grid.sectionThickness := None; Grid.side := Some Grid.BackSide;
       Grid.planeColor := None; Grid.planeOpacity := None;
       Grid.shadowOpacity := None |} in
  let R := Grid.lifetime bare [] [] in
  Grid.destructure explicit = Grid.destructure bare
  /\ snd (Grid.reconcile (Some (fst R)) explicit (snd R)) = snd R.
Proof.
  intros bare explicit R. split; [reflexivity|].
  subst R.
  rewrite (grid_same_values_write_nothing bare [] [] explicit eq_refl).
  reflexivity.
Defined.

(** ** The visibility check over the frames *)

Lemma visibilityCheck_stale (n : Hover.node) (v : Hover.viewer) :
  HoverFrame.stale n = true ->
  Hover.visibilityCheck n v
  = (HoverFrame.idle n,
     {| Hover.hoveredElementsCount := (Hover.hoveredElementsCount v - 1)%Z;
        Hover.cursor :=
          if (Hover.hoveredElementsCount v - 1 =? 0)%Z then "auto"%string
          else Hover.cursor v |}).
Proof.
  unfold HoverFrame.stale, Hover.visibilityCheck. intros ->. reflexivity.
Qed.

Lemma visibilityCheck_fresh (n : Hover.node) (v : Hover.viewer) :
  HoverFrame.stale n = false -> Hover.visibilityCheck n v = (n, v).
Proof.
  unfold HoverFrame.stale, Hover.visibilityCheck. intros ->. reflexivity.
Qed.

Lemma idle_not_stale (n : Hover.node) :
  HoverFrame.stale (HoverFrame.idle n) = false.
Proof.
  unfold HoverFrame.stale, HoverFrame.idle. cbn [Hover.isHovered].
  rewrite Bool.andb_false_r. reflexivity.
Qed.

(** X12: One frame of the visibility check, on a count that stays within
    the integers a JS number holds exactly ([-2^53 .. 2^53]), sends every
    node that is hovered and clickable while hidden back to idle, leaves
    every other node as it is, and lowers the count of hovered elements by
    exactly the number of nodes it sent back; when it sent one back and the
    count ends at 0 the cursor is "auto", and when it sent none back the
    viewer is unchanged. *)
Theorem frame_releases_hidden_hovered_nodes (ns : list Hover.node)
    (v : Hover.viewer) :
  (Hover.hoveredElementsCount v <= 2 ^ 53)%Z ->
  (- 2 ^ 53 <= Hover.hoveredElementsCount v - HoverFrame.stale_count ns)%Z ->
  let R := HoverFrame.frame ns v in
  fst R = map (fun n => if HoverFrame.stale n then HoverFrame.idle n else n) ns
  /\ Hover.hoveredElementsCount (snd R)
     = (Hover.hoveredElementsCount v - HoverFrame.stale_count ns)%Z
  /\ Forall (fun n => HoverFrame.stale n = false) (fst R)
  /\ ((0 < HoverFrame.stale_count ns)%Z ->
      Hover.hoveredElementsCount (snd R) = 0%Z ->
      Hover.cursor (snd R) = "auto"%string)
  /\ (HoverFrame.stale_count ns = 0%Z -> snd R = v).
Proof.
  assert (Hnn : forall l, (0 <= HoverFrame.stale_count l)%Z).
  { induction l as [|a l IHl]; cbn [HoverFrame.stale_count]; [lia|].
    destruct (HoverFrame.stale a); lia. }
  revert v. induction ns as [|n ns IH]; intros v Hhi Hlo R; subst R.
  - cbn [HoverFrame.frame HoverFrame.stale_count fst snd map].
    repeat split; [lia|constructor|lia].
  - cbn [HoverFrame.frame HoverFrame.stale_count map].
    cbn [HoverFrame.stale_count] in Hlo.
    pose proof (Hnn ns) as Hge.
    destruct (HoverFrame.stale n) eqn:E.
    + rewrite (visibilityCheck_stale n v E).
      specialize (IH {| Hover.hoveredElementsCount :=
                          (Hover.hoveredElementsCount v - 1)%Z;
                        Hover.cursor :=
                          if (Hover.hoveredElementsCount v - 1 =? 0)%Z
                          then "auto"%string else Hover.cursor v |}).
      cbn [Hover.hoveredElementsCount] in IH.
      specialize (IH ltac:(lia) ltac:(lia)). cbn zeta in IH.
      destruct (HoverFrame.frame ns _) as [ns1 v2]. cbn [fst snd] in *.
      destruct IH as (H1 & H2 & H3 & H4 & H5).
      split; [f_equal; exact H1|]. split; [lia|].
      split; [constructor; [apply idle_not_stale|exact H3]|].
      split; [|lia].
      intros _ H0.
      destruct (Z.eq_dec (HoverFrame.stale_count ns) 0%Z) as [Hz|Hz].
      * rewrite (H5 Hz). cbn [Hover.cursor].
        rewrite (H5 Hz) in H0. cbn [Hover.hoveredElementsCount] in H0.
        rewrite H0. reflexivity.
      * apply H4; [lia|exact H0].
    + rewrite (visibilityCheck_fresh n v E).
      specialize (IH v ltac:(lia) ltac:(lia)). cbn zeta in IH.
      destruct (HoverFrame.frame ns v) as [ns1 v2]. cbn [fst snd] in *.
      destruct IH as (H1 & H2 & H3 & H4 & H5).
      split; [f_equal; exact H1|]. split; [lia|].
      split; [constructor; [exact E|exact H3]|].
      split; [intros Hp H0; apply H4; [lia|exact H0]|].
      intros Hz. apply H5. lia.
Qed.

Lemma frame_releases_hidden_hovered_nodes_witness :
  let hidden :=
    {| Hover.effectiveVisibility := false; Hover.clickable := true;
       Hover.isHovered := true; Hover.instanceId := None |} in
  let shown :=
    {| Hover.effectiveVisibility := true; Hover.clickable := true;
       Hover.isHovered := true; Hover.instanceId := Some 3 |} in
  let v := {| Hover.hoveredElementsCount := 2; Hover.cursor := "pointer" |} in
  fst (HoverFrame.frame [hidden; shown] v) = [HoverFrame.idle hidden; shown]
  /\ Hover.hoveredElementsCount (snd (HoverFrame.frame [hidden; shown] v))
     = 1%Z.
Proof.
  intros hidden shown v.
  assert (Hhi : (Hover.hoveredElementsCount v <= 2 ^ 53)%Z)
    by (vm_compute; discriminate).
  assert (Hlo : (- 2 ^ 53 <= Hover.hoveredElementsCount v
                             - HoverFrame.stale_count [hidden; shown])%Z)
    by (vm_compute; discriminate).
  destruct (frame_releases_hidden_hovered_nodes [hidden; shown] v Hhi Hlo)
    as (H1 & H2 & _).
  split; [exact H1|exact H2].
Defined.

(** X13: The visibility check does not fire twice for one hover: a second
    frame directly after a first changes no node, no count and no cursor. *)
Theorem frame_idempotent (ns : list Hover.node) (v : Hover.viewer) :
  let R := HoverFrame.frame ns v in
  HoverFrame.frame (fst R) (snd R) = R.
Proof.
  revert v. induction ns as [|n ns IH]; intros v R; subst R.
  - reflexivity.
  - cbn [HoverFrame.frame].
    destruct (HoverFrame.stale n) eqn:E.
    + rewrite (visibilityCheck_stale n v E).
      specialize (IH {| Hover.hoveredElementsCount :=
                          (Hover.hoveredElementsCount v - 1)%Z;
                        Hover.cursor :=
                          if (Hover.hoveredElementsCount v - 1 =? 0)%Z
                          then "auto"%string else Hover.cursor v |}).
      cbn zeta in IH.
      destruct (HoverFrame.frame ns _) as [ns1 v2]. cbn [fst snd] in *.
      cbn [HoverFrame.frame].
      rewrite (visibilityCheck_fresh _ v2 (idle_not_stale n)).
      rewrite IH. reflexivity.
    + rewrite (visibilityCheck_fresh n v E).
      specialize (IH v). cbn zeta in IH.
      destruct (HoverFrame.frame ns v) as [ns1 v2]. cbn [fst snd] in *.
      cbn [HoverFrame.frame].
      rewrite (visibilityCheck_fresh n v2 E).
      rewrite IH. reflexivity.
Qed.
